(** * Setup.py: the installer of the KPU Data Extractor project

    A shallow embedding of [ProjectSetup] (src/Setup.py) and the
    properties its specification states about it.

    The installer is a straight-line Python script: it prints to the
    console, creates directories and files below the directory that
    holds the script, and runs [pip] once.  The embedding therefore is a
    state-and-exception monad over a [World] made of the project tree
    and the console, parameterised by a [Host] that fixes what the
    interpreter and the package installer answer. *)

From Stdlib Require Import Ascii.
From stdpp Require Import gmap strings list fin_maps pretty.

(** ** Paths and the project tree *)

(** A path is kept relative to [base_dir], as the list of its
    components; the empty list is [base_dir] itself. *)
Abbreviation path := (list string).

Inductive node : Type :=
| Dir
| File (content : string).

Global Instance node_eq_dec : EqDecision node.
Proof. solve_decision. Defined.

Abbreviation FS := (gmap (list string) node).

(** ** Exceptions *)

Inductive errno : Type := EEXIST | ENOENT | ENOTDIR | EISDIR | EACCES.

(** [OSError] stands for its subclasses [FileExistsError],
    [FileNotFoundError], [NotADirectoryError], [IsADirectoryError] and
    [PermissionError], told apart by [errno]. *)
Inductive exn : Type :=
| NameError (name : string)
| AttributeError (obj attr : string)
| SystemExit (code : Z)
| KeyboardInterrupt
| OSError (e : errno) (filename : string)
| CalledProcessError (returncode : N) (cmd : list string).

Global Instance errno_eq_dec : EqDecision errno.
Proof. solve_decision. Defined.
Global Instance exn_eq_dec : EqDecision exn.
Proof. solve_decision. Defined.

(** [except Exception] catches everything but [SystemExit] and
    [KeyboardInterrupt], which derive from [BaseException] only. *)
Definition is_Exception (e : exn) : bool :=
  match e with
  | SystemExit _ | KeyboardInterrupt => false
  | _ => true
  end.

(** ** The monad *)

Record World : Type := mkWorld {
  fs : gmap (list string) node;   (* the tree below [base_dir] *)
  stdout : list string            (* one entry per [print] call *)
}.

Inductive outcome (A : Type) : Type :=
| Ok (a : A)
| Raise (e : exn).
Arguments Ok {A} a.
Arguments Raise {A} e.

Definition M (A : Type) : Type := World → outcome A * World.

Definition ret {A} (a : A) : M A := λ w, (Ok a, w).
Definition raise {A} (e : exn) : M A := λ w, (Raise e, w).
Definition bind {A B} (m : M A) (k : A → M B) : M B :=
  λ w, match m w with
       | (Ok a, w') => k a w'
       | (Raise e, w') => (Raise e, w')
       end.

Declare Scope py_scope.
Delimit Scope py_scope with py.
Notation "x <- m ;; k" := (bind m (λ x, k))
  (at level 100, m at next level, k at level 200, right associativity) : py_scope.
Notation "m ;;; k" := (bind m (λ _, k))
  (at level 100, k at level 200, right associativity) : py_scope.
Local Open Scope py_scope.

(** [for x in xs: body] *)
Fixpoint for_ {A} (xs : list A) (body : A → M unit) : M unit :=
  match xs with
  | [] => ret tt
  | x :: xs' => body x ;;; for_ xs' body
  end.

(** [try: m except subprocess.CalledProcessError as e: h e] *)
Definition try_except_CalledProcessError {A}
    (m : M A) (h : N → list string → M A) : M A :=
  λ w, match m w with
       | (Raise (CalledProcessError rc cmd), w') => h rc cmd w'
       | r => r
       end.

Definition print (s : string) : M unit :=
  λ w, (Ok tt, mkWorld (fs w) (stdout w ++ [s])).

Definition sys_exit {A} (code : Z) : M A := raise (SystemExit code).

(** ** Strings *)

Definition nl : string := String "010"%char "".
Definition dq : string := String "034"%char "".
Definition dq3 : string := dq +:+ dq +:+ dq.

(** A block of text written line by line, each line closed by a newline. *)
Definition unlines (ls : list string) : string :=
  foldr (λ l acc, l +:+ nl +:+ acc) "" ls.

(** [sep.join(xs)] *)
Fixpoint join (sep : string) (xs : list string) : string :=
  match xs with
  | [] => ""
  | [x] => x
  | x :: xs' => x +:+ sep +:+ join sep xs'
  end.

(** [s.split(sep)] for a one-character separator. *)
Fixpoint split_go (sep : ascii) (cur : string) (s : string) : list string :=
  match s with
  | EmptyString => [cur]
  | String c s' =>
      if decide (c = sep) then cur :: split_go sep "" s'
      else split_go sep (cur +:+ String c "") s'
  end.
Definition split (sep : ascii) (s : string) : list string := split_go sep "" s.

(** The components of a relative path string: [PurePath] drops empty
    components and single dots. *)
Definition parts (s : string) : list string :=
  filter (λ c, c ≠ "" ∧ c ≠ ".") (split "/"%char s).

(** [p / s] *)
Definition Path_div (p : list string) (s : string) : list string := p ++ parts s.
Infix "//" := Path_div (at level 40, left associativity) : py_scope.

Definition parent (p : list string) : list string := removelast p.

(** [str(p)], relative to [base_dir]. *)
Definition Path_str (p : list string) : string := join "/" p.

(** ** File-system calls

    What [os] and [pathlib] do on the project tree.  [base_dir] holds
    the running script, so it always is a directory. *)

Definition stat (t : gmap (list string) node) (p : list string) : option node :=
  match p with
  | [] => Some Dir
  | _ => t !! p
  end.

Definition set_fs (t : gmap (list string) node) (w : World) : World :=
  mkWorld t (stdout w).

(** [os.mkdir(p)] *)
Definition os_mkdir (p : list string) : M unit :=
  λ w, match stat (fs w) p with
       | Some _ => (Raise (OSError EEXIST (Path_str p)), w)
       | None =>
           match stat (fs w) (parent p) with
           | None => (Raise (OSError ENOENT (Path_str p)), w)
           | Some (File _) => (Raise (OSError ENOTDIR (Path_str p)), w)
           | Some Dir => (Ok tt, set_fs (<[p := Dir]> (fs w)) w)
           end
       end.

(** [os.open(p, O_CREAT | O_WRONLY | trunc)] followed by writing [data]
    when [trunc] is set: an existing file keeps its content otherwise. *)
Definition os_open_write (trunc : bool) (p : list string) (data : string) : M unit :=
  λ w, match stat (fs w) p with
       | Some Dir => (Raise (OSError EISDIR (Path_str p)), w)
       | Some (File _) =>
           (Ok tt, if trunc then set_fs (<[p := File data]> (fs w)) w else w)
       | None =>
           match stat (fs w) (parent p) with
           | None => (Raise (OSError ENOENT (Path_str p)), w)
           | Some (File _) => (Raise (OSError ENOTDIR (Path_str p)), w)
           | Some Dir => (Ok tt, set_fs (<[p := File data]> (fs w)) w)
           end
       end.

(** [p.exists()] *)
Definition Path_exists (p : list string) : M bool :=
  λ w, (Ok (bool_decide (is_Some (stat (fs w) p))), w).

(** [p.is_dir()] *)
Definition Path_is_dir (p : list string) : M bool :=
  λ w, (Ok (bool_decide (stat (fs w) p = Some Dir)), w).

(** [try: m except OSError as e: h e] *)
Definition try_except_OSError {A} (m : M A) (h : errno → string → M A) : M A :=
  λ w, match m w with
       | (Raise (OSError e name), w') => h e name w'
       | r => r
       end.

(** [p.mkdir(parents=.., exist_ok=..)], after [pathlib]: [os.mkdir] is
    tried first; a missing parent is created by the same call on the
    parent and the directory made again; any other failure is forgiven
    when [exist_ok] and the path is a directory by now.  [fuel] bounds
    the calls on the parents, [length p] of them are ever needed. *)
Fixpoint Path_mkdir_go (fuel : nat) (parents exist_ok : bool) (p : list string)
    : M unit :=
  try_except_OSError (os_mkdir p) (λ e name,
    match e with
    | ENOENT =>
        if negb parents || bool_decide (parent p = p) then raise (OSError e name)
        else match fuel with
             | 0 => raise (OSError e name)
             | S fuel' =>
                 Path_mkdir_go fuel' true true (parent p) ;;;
                 Path_mkdir_go fuel' false exist_ok p
             end
    | _ =>
        d <- Path_is_dir p ;;
        if negb exist_ok || negb d then raise (OSError e name) else ret tt
    end).

Definition Path_mkdir (parents exist_ok : bool) (p : list string) : M unit :=
  Path_mkdir_go (length p) parents exist_ok p.

(** [p.touch()]: the time stamps of an existing path are refreshed (no
    change to the tree), a missing file is created empty. *)
Definition Path_touch (p : list string) : M unit :=
  ex <- Path_exists p ;;
  if ex then ret tt else os_open_write false p "".

(** [p.write_text(data)] *)
Definition Path_write_text (p : list string) (data : string) : M unit :=
  os_open_write true p data.

(** ** The host: interpreter and package installer *)

Record version_info_t : Type := mkVersion { major : Z; minor : Z; micro : Z }.

(** [sys.version_info] as a tuple; its two last fields (release level
    and serial) are never reached by a comparison with a pair. *)
Definition as_tuple (v : version_info_t) : list Z := [major v; minor v; micro v].

(** [a < b] on tuples of integers. *)
Fixpoint tuple_lt (a b : list Z) : bool :=
  match a, b with
  | _, [] => false
  | [], _ :: _ => true
  | x :: a', y :: b' =>
      if (x <? y)%Z then true
      else if (y <? x)%Z then false
      else tuple_lt a' b'
  end.

(** How a child process ends: it exits with a status, or it cannot be
    started at all.  Death by a signal is left out. *)
Inductive spawn_result : Type :=
| Exited (returncode : N)
| SpawnError (e : errno).

Record Host : Type := mkHost {
  sys_version_info : version_info_t;
  sys_executable : string;
  spawn : list string → spawn_result
}.

(** [subprocess.check_call(cmd)] *)
Definition subprocess_check_call (h : Host) (cmd : list string) : M unit :=
  match spawn h cmd with
  | Exited 0 => ret tt
  | Exited rc => raise (CalledProcessError rc cmd)
  | SpawnError e => raise (OSError e (default "" (head cmd)))
  end.

(** [repr(s)] for a string of printable characters. *)
Fixpoint repr_escape (q : ascii) (s : string) : string :=
  match s with
  | EmptyString => ""
  | String c s' =>
      (if decide (c = "\"%char) then "\\"
       else if decide (c = q) then String "\"%char (String c "")
       else String c "") +:+ repr_escape q s'
  end.

Fixpoint mem_char (c : ascii) (s : string) : bool :=
  match s with
  | EmptyString => false
  | String c' s' => bool_decide (c = c') || mem_char c s'
  end.

Definition repr_str (s : string) : string :=
  let q := if mem_char "'"%char s && negb (mem_char "034"%char s)
           then "034"%char else "'"%char in
  String q (repr_escape q s) +:+ String q "".

(** [str(e)] for the one exception whose text the installer prints. *)
Definition CalledProcessError_str (rc : N) (cmd : list string) : string :=
  "Command '[" +:+ join ", " (repr_str <$> cmd) +:+ "]' returned non-zero exit status "
  +:+ pretty rc +:+ ".".

(** ** Names and formatted strings *)

(** The names bound at module level when a method of [ProjectSetup]
    runs: the five imports at the head of the script and the class. *)
Definition module_globals : list string :=
  ["os"; "sys"; "subprocess"; "platform"; "Path"; "ProjectSetup"].

(** Looking a name up: the locals of the running method, then the
    module.  (No name looked up below is a builtin.) *)
Definition load_name (locals : list string) (name : string) : M unit :=
  if bool_decide (name ∈ locals ++ module_globals) then ret tt
  else raise (NameError name).

Record ProjectSetup : Type := mkProjectSetup {
  project_name : string;
  version : string;
  author : string;
  base_dir : list string;
  requirements : list string
}.

(** [ProjectSetup.__init__] *)
Definition init : ProjectSetup := {|
  project_name := "KPUDataExtractor";
  version := "5.0.0";
  author := "System Admin";
  base_dir := [];
  requirements := [
    "requests>=2.31.0";
    "colorama>=0.4.6";
    "tqdm>=4.66.1";
    "pandas>=2.0.3";
    "openpyxl>=3.1.2";
    "python-dotenv>=1.0.0";
    "PyInquirer>=1.0.3";
    "tabulate>=0.9.0"
  ]
|}.

(** The string-valued attributes of [self]. *)
Definition getattr_self (self : ProjectSetup) (attr : string) : option string :=
  if decide (attr = "project_name") then Some (project_name self)
  else if decide (attr = "version") then Some (version self)
  else if decide (attr = "author") then Some (author self)
  else None.

(** An f-string: literal text and replacement fields [{obj.attr}].  A
    doubled brace of the source is literal text with one brace. *)
Inductive fpart : Type :=
| Lit (s : string)
| Field (obj attr : string).

(** Evaluating an f-string inside a method whose local names are
    [locals] (with [self] among them): the fields are evaluated from
    left to right, and the first that fails ends the evaluation.  Of
    the names that are bound, only [self] has attributes here. *)
Fixpoint fstring (self : ProjectSetup) (locals : list string) (ps : list fpart)
    : M string :=
  match ps with
  | [] => ret ""
  | Lit s :: ps' => r <- fstring self locals ps' ;; ret (s +:+ r)
  | Field obj attr :: ps' =>
      load_name locals obj ;;;
      match (if decide (obj = "self") then getattr_self self attr else None) with
      | None => raise (AttributeError obj attr)
      | Some v => r <- fstring self locals ps' ;; ret (v +:+ r)
      end
  end.

(** ** Stage 0: the banner *)

Definition bar : string :=
  "══════════════════════════════════════════════════════════════".

Definition print_banner (self : ProjectSetup) : M unit :=
  banner <- fstring self ["self"; "banner"] [
    Lit (nl +:+ "╔" +:+ bar +:+ "╗" +:+ nl
         +:+ "║                    KPU DATA EXTRACTOR v");
    Field "self" "version";
    Lit ("                    ║" +:+ nl
         +:+ "║                Complete Installation Setup                   ║" +:+ nl
         +:+ "╚" +:+ bar +:+ "╝" +:+ nl)
  ] ;;
  print banner.

(** ** Stage 1: the interpreter's version *)

Definition check_python_version (h : Host) (self : ProjectSetup) : M unit :=
  print "[1/6] Checking Python version..." ;;;
  (if tuple_lt (as_tuple (sys_version_info h)) [3; 7]%Z then
     print "❌ Python 3.7 or higher is required!" ;;;
     sys_exit 1
   else ret tt) ;;;
  print ("✅ Python " +:+ pretty (major (sys_version_info h)) +:+ "."
         +:+ pretty (minor (sys_version_info h)) +:+ " detected").

(** ** Stage 2: directories, placeholder files, ignore rules *)

Definition directories : list string := [
  "src";
  "src/core";
  "src/api";
  "src/database";
  "src/utils";
  "src/export";
  "src/reports";
  "data";
  "data/raw";
  "data/processed";
  "data/exports";
  "logs";
  "config";
  "docs";
  "tests";
  "bin";
  "tmp"
].

Definition files : list string := [
  "src/__init__.py";
  "src/core/__init__.py";
  "src/api/__init__.py";
  "src/database/__init__.py";
  "src/utils/__init__.py";
  "src/export/__init__.py";
  "src/reports/__init__.py";
  "config/settings.json";
  "config/api_config.json";
  ".env.example";
  "requirements.txt";
  "README.md";
  "CHANGELOG.md";
  "LICENSE";
  "run.py";
  "cleanup.py"
].

Definition gitignore_content : string := unlines [
  "# Python";
  "__pycache__/";
  "*.py[cod]";
  "*$py.class";
  "*.so";
  ".Python";
  "build/";
  "develop-eggs/";
  "dist/";
  "downloads/";
  "eggs/";
  ".eggs/";
  "lib/";
  "lib64/";
  "parts/";
  "sdist/";
  "var/";
  "wheels/";
  "*.egg-info/";
  ".installed.cfg";
  "*.egg";
  "";
  "# Project";
  "data/exports/*";
  "!data/exports/.gitkeep";
  "logs/*";
  "!logs/.gitkeep";
  "tmp/*";
  "!tmp/.gitkeep";
  "";
  "# Environment";
  ".env";
  ".env.local";
  ".env.development.local";
  ".env.test.local";
  ".env.production.local";
  "";
  "# IDE";
  ".vscode/";
  ".idea/";
  "*.swp";
  "*.swo";
  "";
  "# OS";
  ".DS_Store";
  "Thumbs.db"
].

(** The loop under [# Create directories]. *)
Definition create_directories (self : ProjectSetup) (directories : list string)
    : M unit :=
  for_ directories (λ directory,
    let dir_path := base_dir self // directory in
    Path_mkdir true true dir_path ;;;
    print ("  📁 Created: " +:+ directory)).

(** The loop under [# Create files]. *)
Definition create_files (self : ProjectSetup) (files : list string) : M unit :=
  for_ files (λ file,
    let file_path := base_dir self // file in
    ex <- Path_exists file_path ;;
    if negb ex then
      Path_touch file_path ;;;
      print ("  📄 Created: " +:+ file)
    else ret tt).

Definition create_project_structure (self : ProjectSetup) : M unit :=
  print (nl +:+ "[2/6] Creating project structure...") ;;;
  create_directories self directories ;;;
  create_files self files ;;;
  let gitignore_path := base_dir self // ".gitignore" in
  Path_write_text gitignore_path gitignore_content ;;;
  print "  📄 Created: .gitignore" ;;;
  print "✅ Project structure created successfully!".

(** ** JSON documents

    The values the installer builds: objects (in the order of the
    dictionary literal), strings, integers and booleans. *)

#[local] Unset Elimination Schemes.
Inductive json : Type :=
| JStr (s : string)
| JInt (z : Z)
| JBool (b : bool)
| JObj (members : list (string * json)).
#[local] Set Elimination Schemes.

Fixpoint json_escape (s : string) : string :=
  match s with
  | EmptyString => ""
  | String c s' =>
      (if decide (c = "034"%char) then "\" +:+ dq
       else if decide (c = "\"%char) then "\\"
       else if decide (c = "010"%char) then "\n"
       else if decide (c = "013"%char) then "\r"
       else if decide (c = "009"%char) then "\t"
       else String c "") +:+ json_escape s'
  end.

Definition json_quote (s : string) : string := dq +:+ json_escape s +:+ dq.

Fixpoint spaces (n : nat) : string :=
  match n with
  | 0 => ""
  | S n' => " " +:+ spaces n'
  end.

(** [json.dumps(j, indent=indent)], at nesting depth [level]: members
    one per line, separated by a comma, keys and values by a colon and a
    space.  (Text of printable ASCII, as all text of these documents.) *)
Fixpoint json_dumps_at (indent level : nat) (j : json) : string :=
  match j with
  | JStr s => json_quote s
  | JInt z => pretty z
  | JBool b => if b then "true" else "false"
  | JObj [] => "{}"
  | JObj members =>
      "{" +:+ nl
      +:+ join ("," +:+ nl)
            (map (λ kv, spaces (indent * S level) +:+ json_quote (fst kv) +:+ ": "
                        +:+ json_dumps_at indent (S level) (snd kv)) members)
      +:+ nl +:+ spaces (indent * level) +:+ "}"
  end.

Definition json_dumps (indent : nat) (j : json) : string := json_dumps_at indent 0 j.

(** ** Stage 3: configuration files *)

Definition settings_document (self : ProjectSetup) : json :=
  JObj [
    ("app", JObj [
      ("name", JStr "KPU Data Extractor");
      ("version", JStr (version self));
      ("author", JStr (author self));
      ("description", JStr "Complete KPU/KOMINFO Data Extraction Tool")
    ]);
    ("database", JObj [
      ("path", JStr "data/kpu_database.db");
      ("backup_interval", JInt 3600);
      ("max_connections", JInt 10)
    ]);
    ("api", JObj [
      ("timeout", JInt 30);
      ("retry_attempts", JInt 3);
      ("rate_limit", JInt 10);
      ("user_agent", JStr "KPU-Data-Extractor/5.0")
    ]);
    ("export", JObj [
      ("default_format", JStr "csv");
      ("encoding", JStr "utf-8");
      ("include_timestamp", JBool true)
    ]);
    ("logging", JObj [
      ("level", JStr "INFO");
      ("max_size_mb", JInt 10);
      ("backup_count", JInt 5)
    ])
  ].

Definition api_config_document : json :=
  JObj [
    ("endpoints", JObj [
      ("dpt_check", JStr "https://cekdptonline.kpu.go.id");
      ("pemilu_data", JStr "https://sirekap-obj.kpu.go.id");
      ("wilayah", JStr "https://wilayah-kpu.go.id");
      ("pilkada", JStr "https://pilkada2024.kpu.go.id")
    ]);
    ("headers", JObj [
      ("Accept", JStr "application/json, text/plain, */*");
      ("Accept-Language", JStr "id-ID,id;q=0.9,en-US;q=0.8,en;q=0.7");
      ("User-Agent", JStr "Mozilla/5.0 (Windows NT 10.0; Win64; x64) AppleWebKit/537.36")
    ])
  ].

Definition env_example : string := unlines [
  "# Database Configuration";
  "DB_PATH=data/kpu_database.db";
  "DB_BACKUP_ENABLED=true";
  "";
  "# API Configuration";
  "API_TIMEOUT=30";
  "API_RETRY_COUNT=3";
  "API_RATE_LIMIT=10";
  "";
  "# Export Configuration";
  "EXPORT_FORMAT=csv";
  "EXPORT_ENCODING=utf-8";
  "";
  "# Logging Configuration";
  "LOG_LEVEL=INFO";
  "LOG_MAX_SIZE=10485760";
  "LOG_BACKUP_COUNT=5";
  "";
  "# Application Configuration";
  "APP_NAME=KPU Data Extractor";
  "APP_VERSION=5.0.0"
].

(** The local names of [create_config_files]. *)
Definition create_config_files_locals : list string :=
  ["self"; "settings"; "settings_path"; "api_config"; "api_config_path";
   "env_example"; "env_path"].

(** [json.dumps(..)] first looks the name [json] up. *)
Definition create_config_files (self : ProjectSetup) : M unit :=
  print (nl +:+ "[3/6] Creating configuration files...") ;;;
  let settings := settings_document self in
  let settings_path := base_dir self // "config" // "settings.json" in
  load_name create_config_files_locals "json" ;;;
  Path_write_text settings_path (json_dumps 2 settings) ;;;
  print "  📄 Created: config/settings.json" ;;;
  let api_config := api_config_document in
  let api_config_path := base_dir self // "config" // "api_config.json" in
  load_name create_config_files_locals "json" ;;;
  Path_write_text api_config_path (json_dumps 2 api_config) ;;;
  print "  📄 Created: config/api_config.json" ;;;
  let env_path := base_dir self // ".env.example" in
  Path_write_text env_path env_example ;;;
  print "  📄 Created: .env.example" ;;;
  print "✅ Configuration files created!".

(** ** Stage 4: the dependency manifest and its installation *)

Definition pip_install_cmd (h : Host) : list string :=
  [sys_executable h; "-m"; "pip"; "install"; "-r"; "requirements.txt"].

Definition install_dependencies (h : Host) (self : ProjectSetup) : M unit :=
  print (nl +:+ "[4/6] Installing dependencies...") ;;;
  let req_content := join nl (requirements self) in
  let req_path := base_dir self // "requirements.txt" in
  Path_write_text req_path req_content ;;;
  try_except_CalledProcessError
    (subprocess_check_call h (pip_install_cmd h) ;;;
     print "✅ Dependencies installed successfully!")
    (λ rc cmd,
       print ("❌ Failed to install dependencies: " +:+ CalledProcessError_str rc cmd) ;;;
       print "Please install manually: pip install -r requirements.txt").

(** ** Stage 5: launcher and cleanup scripts *)

Definition script_header : string := unlines [
  "#!/usr/bin/env python3";
  "# -*- coding: utf-8 -*-"
].

Definition rule63 : string :=
  "===============================================================".

(** The f-string appended to the header of [run.py]; its only field is
    [{self.version}], the braces around [e] are doubled in the source. *)
Definition run_py_template : list fpart := [
  Lit (nl +:+ unlines [
    dq3;
    rule63;
    "    KPU DATA EXTRACTOR - MAIN ENTRY POINT"
  ] +:+ "    Version: ");
  Field "self" "version";
  Lit (nl +:+ unlines [
    rule63;
    dq3;
    "";
    "import sys";
    "import os";
    "from pathlib import Path";
    "";
    "# Add src to Python path";
    "project_root = Path(__file__).parent";
    "sys.path.insert(0, str(project_root / 'src'))";
    "";
    "from src.app.main import main";
    "";
    "if __name__ == " +:+ dq +:+ "__main__" +:+ dq +:+ ":";
    "    try:";
    "        main()";
    "    except KeyboardInterrupt:";
    "        print(" +:+ dq +:+ "\n⚠️  Application interrupted by user." +:+ dq +:+ ")";
    "        sys.exit(0)";
    "    except Exception as e:";
    "        print(f" +:+ dq +:+ "\n❌ Fatal error: {e}" +:+ dq +:+ ")";
    "        sys.exit(1)"
  ])
].

(** The f-string appended to the header of [cleanup.py].  The braces of
    the three inner [print(f"..")] calls are single in the source, so
    [{dir_path.name}] (twice) and [{file_path.name}] are fields of this
    f-string. *)
Definition cleanup_py_template : list fpart := [
  Lit (nl +:+ unlines [
    dq3;
    "Cleanup script for KPU Data Extractor";
    dq3;
    "";
    "import os";
    "import shutil";
    "from pathlib import Path";
    "";
    "def cleanup():";
    "    " +:+ dq3 +:+ "Clean temporary files and cache" +:+ dq3;
    "    project_root = Path(__file__).parent";
    "    ";
    "    # Directories to clean";
    "    temp_dirs = [";
    "        project_root / '__pycache__',";
    "        project_root / 'tmp',";
    "        project_root / 'logs'  # Keep logs, just clear contents";
    "    ]";
    "    ";
    "    # Files to remove";
    "    temp_files = [";
    "        project_root / '.DS_Store',";
    "        project_root / 'thumbs.db'";
    "    ]";
    "    ";
    "    print(" +:+ dq +:+ "🧹 Cleaning project..." +:+ dq +:+ ")";
    "    ";
    "    # Clean directories";
    "    for dir_path in temp_dirs:";
    "        if dir_path.exists():";
    "            if dir_path.name == 'logs':";
    "                # Clear log files but keep directory";
    "                for file in dir_path.glob('*.log'):";
    "                    file.unlink()"
  ] +:+ "                print(f" +:+ dq +:+ "  ✅ Cleared: ");
  Field "dir_path" "name";
  Lit ("/" +:+ dq +:+ ")" +:+ nl +:+ unlines [
    "            else:";
    "                shutil.rmtree(dir_path)"
  ] +:+ "                print(f" +:+ dq +:+ "  ✅ Removed: ");
  Field "dir_path" "name";
  Lit ("/" +:+ dq +:+ ")" +:+ nl +:+ unlines [
    "    ";
    "    # Remove temp files";
    "    for file_path in temp_files:";
    "        if file_path.exists():";
    "            file_path.unlink()"
  ] +:+ "            print(f" +:+ dq +:+ "  ✅ Removed: ");
  Field "file_path" "name";
  Lit (dq +:+ ")" +:+ nl +:+ unlines [
    "    ";
    "    print(" +:+ dq +:+ "✅ Cleanup completed!" +:+ dq +:+ ")";
    "";
    "if __name__ == " +:+ dq +:+ "__main__" +:+ dq +:+ ":";
    "    cleanup()"
  ])
].

(** The local names of [create_main_files]. *)
Definition create_main_files_locals : list string :=
  ["self"; "run_py"; "run_path"; "cleanup_py"; "cleanup_path"].

Definition create_main_files (self : ProjectSetup) : M unit :=
  print (nl +:+ "[5/6] Creating main application files...") ;;;
  let run_py := script_header in
  more <- fstring self create_main_files_locals run_py_template ;;
  let run_py := run_py +:+ more in
  let run_path := base_dir self // "run.py" in
  Path_write_text run_path run_py ;;;
  print "  📄 Created: run.py" ;;;
  let cleanup_py := script_header in
  more <- fstring self create_main_files_locals cleanup_py_template ;;
  let cleanup_py := cleanup_py +:+ more in
  let cleanup_path := base_dir self // "cleanup.py" in
  Path_write_text cleanup_path cleanup_py ;;;
  print "  📄 Created: cleanup.py" ;;;
  print "✅ Main files created!".

(** ** Stage 6: documentation *)

(** The README up to its last heading, where the source ends. *)
Definition readme_template : list fpart := [
  Lit "# KPU Data Extractor v";
  Field "self" "version";
  Lit (nl +:+ unlines [
    "";
    "Complete data extraction tool for KPU/KOMINFO public APIs.";
    "";
    "## 🚀 Features";
    "";
    "- ✅ Data DPT lookup by NIK";
    "- ✅ TPS results checking";
    "- ✅ Wilayah data extraction";
    "- ✅ Batch NIK processing";
    "- ✅ Multiple export formats (CSV, Excel, JSON)";
    "- ✅ Database storage with SQLite";
    "- ✅ Comprehensive logging";
    "- ✅ Clean and structured code";
    ""
  ] +:+ "## 📁 Project Structure")
].

(** Modelled from the spec: [create_documentation] past the heading
    "Project Structure" of its README text, where src/Setup.py ends.
    The stage "generates a README document (templated with the project
    version and a fixed feature list and structure outline) and writes
    it to the fixed path, unconditionally overwriting any existing
    content"; the outline's text is not known and [structure_outline]
    stands for it. *)
Definition create_documentation (structure_outline : string) (self : ProjectSetup)
    : M unit :=
  print (nl +:+ "[6/6] Creating documentation...") ;;;
  readme_content <- fstring self ["self"; "readme_content"; "readme_path"]
                      (readme_template ++ [Lit structure_outline]) ;;
  let readme_path := base_dir self // "README.md" in
  Path_write_text readme_path readme_content.

(** ** The run *)

(** Modelled from the spec: the top-level run of the orchestrator, which
    src/Setup.py ends before.  It "executes the seven operations above
    in the fixed order", the banner first, and nothing is caught between
    two stages. *)
Definition run (h : Host) (structure_outline : string) (self : ProjectSetup)
    : M unit :=
  print_banner self ;;;
  check_python_version h self ;;;
  create_project_structure self ;;;
  create_config_files self ;;;
  install_dependencies h self ;;;
  create_main_files self ;;;
  create_documentation structure_outline self.

(** Modelled from the spec: the exit status of the process.  It is "0 on
    normal completion or on a clean user interrupt, 1 on the
    version-check failure or any other uncaught top-level failure";
    [sys.exit(n)] ends the process with status [n]. *)
Definition exit_status {A} (r : outcome A) : Z :=
  match r with
  | Ok _ => 0
  | Raise e =>
      if is_Exception e then 1
      else match e with
           | SystemExit code => code
           | _ => 0
           end
  end.

(** * The vocabulary of the statements *)

(** ** Steps of a relation on trees

    [steps R m]: whatever [m] does, and however it ends, the tree it
    leaves is [R]-related to the tree it found.  For a preorder [R] this
    is closed under every way the script composes its calls. *)

Definition steps (R : relation (gmap (list string) node)) {A} (m : M A) : Prop :=
  ∀ w, R (fs w) (fs (m w).2).

(** ** Calls that only look at the tree

    [fs_only m]: [m] prints nothing, and what it does is decided by the
    tree alone. *)

Definition fs_only {A} (m : M A) : Prop :=
  ∀ t, ∃ r t', ∀ o, m (mkWorld t o) = (r, mkWorld t' o).

(** ** Trees that only grow *)

(** [adds S t t']: [t'] keeps every entry of [t] as it is, and each
    entry it has on top satisfies [S]. *)
Definition adds (S : list string → node → Prop)
    : relation (gmap (list string) node) :=
  λ t t', t ⊆ t' ∧ ∀ q n, t' !! q = Some n → t !! q = None → S q n.

(** ** What the scaffolding stage may add *)

(** What the first loop may add: directories on the way to a planned one. *)
Definition planned_dir (ds : list string) (q : list string) (n : node) : Prop :=
  n = Dir ∧ ∃ d, d ∈ ds ∧ q `prefix_of` parts d.

(** What the second loop may add: a planned file, empty. *)
Definition planned_file (fl : list string) (q : list string) (n : node) : Prop :=
  n = File "" ∧ ∃ f, f ∈ fl ∧ q = parts f.

Definition planned (q : list string) (n : node) : Prop :=
  planned_dir directories q n ∨ planned_file files q n.

(** ** Trees, hosts and texts the statements name *)

Definition prefixes (p : list string) : list (list string) :=
  (λ k, take k p) <$> seq 0 (S (length p)).

Definition is_file (o : option node) : bool :=
  match o with Some (File _) => true | _ => false end.

Definition is_dir (o : option node) : bool :=
  match o with Some Dir => true | _ => false end.

(** No regular file sits where a directory is planned, and no directory
    where a file is planned. *)
Definition plan_unobstructed (t : gmap (list string) node) : bool :=
  forallb (λ d, negb (is_file (stat t (parts d)))) directories
  && forallb (λ f, negb (is_dir (stat t (parts f)))) files.

(** A tree with a regular file named [src]. *)
Definition obstructed_world : World :=
  mkWorld {[ ["src"] := File "not a directory" ]} [].

(** A tree that holds [src] with a module in it, and nothing else. *)
Definition src_world : World :=
  mkWorld {[ ["src"] := Dir; ["src"; "old.py"] := File "print('kept')" ]} [].

(** A tree whose change log was written by hand. *)
Definition changelog_world : World :=
  mkWorld {[ ["CHANGELOG.md"] := File "custom text" ]} [].

(** The text of [run.py]: the header and the evaluated template. *)
Definition launcher_body : string :=
  match (fstring init create_main_files_locals run_py_template (mkWorld ∅ [])).1 with
  | Ok more => more
  | Raise _ => ""
  end.

Definition launcher_text : string := script_header +:+ launcher_body.

Definition empty_world : World := mkWorld ∅ [].

(** ** The install stage *)

Definition req_content : string := join nl (requirements init).

(** A host with Python 3.8 on which [pip] succeeds. *)
Definition host_3_8 : Host :=
  mkHost (mkVersion 3 8 10) "/usr/bin/python3" (λ _, Exited 0).

(** A host on which the interpreter cannot be started as a child. *)
Definition host_no_spawn : Host :=
  mkHost (mkVersion 3 8 10) "/usr/bin/python3" (λ _, SpawnError ENOENT).

(** A host on which [pip] exits with status 1. *)
Definition host_pip_fails : Host :=
  mkHost (mkVersion 3 8 10) "/usr/bin/python3" (λ _, Exited 1).

Definition install_hint : string :=
  "Please install manually: pip install -r requirements.txt".

(** ** The version check *)

(** "Below 3.7", in the words of the specification. *)
Definition below_3_7 (v : version_info_t) : Prop :=
  (major v < 3 ∨ (major v = 3 ∧ minor v < 7))%Z.

(** The text the banner stage prints. *)
Definition banner_text : string :=
  match stdout (print_banner init (mkWorld ∅ [])).2 with
  | [s] => s
  | _ => ""
  end.

Definition detected_line (v : version_info_t) : string :=
  "✅ Python " +:+ pretty (major v) +:+ "." +:+ pretty (minor v) +:+ " detected".

(** A host with Python 3.6. *)
Definition host_3_6 : Host :=
  mkHost (mkVersion 3 6 15) "/usr/bin/python3" (λ _, Exited 0).

(** ** The templated files *)

(** A scaffolded tree whose configuration files, environment template
    and cleanup script hold text of an earlier day. *)
Definition stale_world : World :=
  mkWorld {[ ["config"] := Dir;
             ["config"; "settings.json"] := File "old settings";
             ["config"; "api_config.json"] := File "old endpoints";
             [".env.example"] := File "OLD=1";
             ["cleanup.py"] := File "# old cleanup" ]} [].

(** A tree in which somebody wrote a launcher of their own. *)
Definition seeded_world : World :=
  mkWorld {[ ["run.py"] := File "# my own launcher" ]} [].

(** ** The order of the stages

    The stages are told apart on the console: each opens with a
    headline of its own, the banner stage with the banner. *)

Inductive stage : Type :=
| Banner | VersionCheck | Structure | Configuration | Dependencies
| MainFiles | Documentation.

Global Instance stage_eq_dec : EqDecision stage.
Proof. solve_decision. Defined.

Definition seven_stages : list stage :=
  [Banner; VersionCheck; Structure; Configuration; Dependencies;
   MainFiles; Documentation].

Definition stage_of_line (s : string) : option stage :=
  if String.eqb s banner_text then Some Banner
  else if String.eqb s "[1/6] Checking Python version..." then Some VersionCheck
  else if String.eqb s (nl +:+ "[2/6] Creating project structure...") then Some Structure
  else if String.eqb s (nl +:+ "[3/6] Creating configuration files...")
       then Some Configuration
  else if String.eqb s (nl +:+ "[4/6] Installing dependencies...") then Some Dependencies
  else if String.eqb s (nl +:+ "[5/6] Creating main application files...")
       then Some MainFiles
  else if String.eqb s (nl +:+ "[6/6] Creating documentation...") then Some Documentation
  else None.

(** The stages that started, read off the lines printed. *)
Definition stages_started (lines : list string) : list stage :=
  omap stage_of_line lines.

(** [quiet m]: [m] prints no headline. *)
Definition quiet {A} (m : M A) : Prop :=
  ∀ w, ∃ ls, stdout (m w).2 = stdout w ++ ls ∧ stages_started ls = [].

(** [starts tr m]: the headlines [m] prints are a beginning of [tr],
    and all of [tr] when [m] returns normally. *)
Definition starts (tr : list stage) {A} (m : M A) : Prop :=
  ∀ w, ∃ ls, stdout (m w).2 = stdout w ++ ls ∧
             stages_started ls `prefix_of` tr ∧
             (∀ a, (m w).1 = Ok a → stages_started ls = tr).

(** No path is lost. *)
Definition keeps_paths : relation (gmap (list string) node) :=
  λ t t', ∀ q, is_Some (t !! q) → is_Some (t' !! q).




(** ** Reading the settings back

    [json.loads] for the documents of the installer: objects, strings,
    integers and booleans. *)

Definition is_space (c : ascii) : bool :=
  bool_decide (c = " "%char) || bool_decide (c = "010"%char)
  || bool_decide (c = "013"%char) || bool_decide (c = "009"%char).

Fixpoint skip_ws (s : string) : string :=
  match s with
  | String c s' => if is_space c then skip_ws s' else s
  | EmptyString => s
  end.

Definition json_unescape (c : ascii) : option ascii :=
  if decide (c = "034"%char) then Some "034"%char
  else if decide (c = "\"%char) then Some "\"%char
  else if decide (c = "/"%char) then Some "/"%char
  else if decide (c = "n"%char) then Some "010"%char
  else if decide (c = "r"%char) then Some "013"%char
  else if decide (c = "t"%char) then Some "009"%char
  else None.

(** The rest of a string literal, after its opening quote. *)
Fixpoint parse_string (s : string) : option (string * string) :=
  match s with
  | EmptyString => None
  | String c s' =>
      if decide (c = "034"%char) then Some ("", s')
      else if decide (c = "\"%char) then
        match s' with
        | String e s'' =>
            match json_unescape e, parse_string s'' with
            | Some c', Some (r, rest) => Some (String c' r, rest)
            | _, _ => None
            end
        | EmptyString => None
        end
      else
        match parse_string s' with
        | Some (r, rest) => Some (String c r, rest)
        | None => None
        end
  end.

Definition digit_of (c : ascii) : option Z :=
  let n := Z.of_N (N_of_ascii c) in
  if bool_decide (48 ≤ n ≤ 57)%Z then Some (n - 48)%Z else None.

Fixpoint parse_digits (s : string) (acc : Z) : Z * string :=
  match s with
  | String c s' =>
      match digit_of c with
      | Some d => parse_digits s' (10 * acc + d)%Z
      | None => (acc, s)
      end
  | EmptyString => (acc, s)
  end.

Definition strip_prefix (p s : string) : option string :=
  if String.prefix p s
  then Some (String.substring (String.length p) (String.length s - String.length p) s)
  else None.

Fixpoint parse_value (fuel : nat) (s : string) : option (json * string) :=
  match fuel with
  | 0 => None
  | S fuel' =>
      match skip_ws s with
      | String c s' =>
          if decide (c = "{"%char) then
            match skip_ws s' with
            | String c' s'' =>
                if decide (c' = "}"%char) then Some (JObj [], s'')
                else match parse_members fuel' (String c' s'') with
                     | Some (ms, rest) => Some (JObj ms, rest)
                     | None => None
                     end
            | EmptyString => None
            end
          else if decide (c = "034"%char) then
            match parse_string s' with
            | Some (r, rest) => Some (JStr r, rest)
            | None => None
            end
          else if decide (c = "-"%char) then
            match s' with
            | String d _ =>
                match digit_of d with
                | Some _ => let '(n, rest) := parse_digits s' 0 in Some (JInt (- n), rest)
                | None => None
                end
            | EmptyString => None
            end
          else match digit_of c with
               | Some _ =>
                   let '(n, rest) := parse_digits (String c s') 0 in Some (JInt n, rest)
               | None =>
                   match strip_prefix "true" (String c s'),
                         strip_prefix "false" (String c s') with
                   | Some rest, _ => Some (JBool true, rest)
                   | _, Some rest => Some (JBool false, rest)
                   | _, _ => None
                   end
               end
      | EmptyString => None
      end
  end
with parse_members (fuel : nat) (s : string)
    : option (list (string * json) * string) :=
  match fuel with
  | 0 => None
  | S fuel' =>
      match skip_ws s with
      | String q s1 =>
          if decide (q = "034"%char) then
            match parse_string s1 with
            | Some (key, s2) =>
                match skip_ws s2 with
                | String colon s3 =>
                    if decide (colon = ":"%char) then
                      match parse_value fuel' s3 with
                      | Some (v, s4) =>
                          match skip_ws s4 with
                          | String sep s5 =>
                              if decide (sep = ","%char) then
                                match parse_members fuel' s5 with
                                | Some (ms, rest) => Some ((key, v) :: ms, rest)
                                | None => None
                                end
                              else if decide (sep = "}"%char) then Some ([(key, v)], s5)
                              else None
                          | EmptyString => None
                          end
                      | None => None
                      end
                    else None
                | EmptyString => None
                end
            | None => None
            end
          else None
      | EmptyString => None
      end
  end.

Definition json_loads (s : string) : option json :=
  match parse_value (S (String.length s)) s with
  | Some (j, rest) => if decide (skip_ws rest = "") then Some j else None
  | None => None
  end.

(** [j[key]] *)
Definition json_get (key : string) (j : json) : option json :=
  match j with
  | JObj ms => snd <$> List.find (λ kv, String.eqb (fst kv) key) ms
  | _ => None
  end.

(** ** The cleanup script, as its template spells it out

    The program text between the quotes of the cleanup template, read
    as it would run had the template been written out. *)

(** [p.name] *)
Definition Path_name (p : list string) : string := List.last p "".

(** [fnmatch.fnmatchcase(name, pat)] for a pattern that is literal, or
    a star followed by literal text. *)
Definition fnmatch (pat name : string) : bool :=
  match pat with
  | String "*" suffix => String.prefix (String.rev suffix) (String.rev name)
  | _ => String.eqb pat name
  end.

(** [d.glob(pat)] for a pattern without a slash: the entries of the
    directory [d] whose name matches. *)
Definition Path_glob (d : list string) (pat : string) : M (list (list string)) :=
  λ w, (Ok (filter (λ k, k ≠ [] ∧ parent k = d ∧ fnmatch pat (Path_name k) = true)
                   (map_to_list (fs w)).*1), w).

(** [p.unlink()] *)
Definition Path_unlink (p : list string) : M unit :=
  λ w, match stat (fs w) p with
       | Some (File _) => (Ok tt, set_fs (delete p (fs w)) w)
       | Some Dir => (Raise (OSError EISDIR (Path_str p)), w)
       | None => (Raise (OSError ENOENT (Path_str p)), w)
       end.

(** [shutil.rmtree(p)] *)
Definition shutil_rmtree (p : list string) : M unit :=
  λ w, match stat (fs w) p with
       | Some Dir =>
           (Ok tt, set_fs (filter (λ kv, ¬ p `prefix_of` kv.1) (fs w)) w)
       | Some (File _) => (Raise (OSError ENOTDIR (Path_str p)), w)
       | None => (Raise (OSError ENOENT (Path_str p)), w)
       end.

Definition cleanup : M unit :=
  let project_root : list string := [] in
  let temp_dirs := [
    project_root // "__pycache__";
    project_root // "tmp";
    project_root // "logs"
  ] in
  let temp_files := [
    project_root // ".DS_Store";
    project_root // "thumbs.db"
  ] in
  print "🧹 Cleaning project..." ;;;
  for_ temp_dirs (λ dir_path,
    ex <- Path_exists dir_path ;;
    if ex then
      if decide (Path_name dir_path = "logs") then
        logs <- Path_glob dir_path "*.log" ;;
        for_ logs (λ file, Path_unlink file) ;;;
        print ("  ✅ Cleared: " +:+ Path_name dir_path +:+ "/")
      else
        shutil_rmtree dir_path ;;;
        print ("  ✅ Removed: " +:+ Path_name dir_path +:+ "/")
    else ret tt) ;;;
  for_ temp_files (λ file_path,
    ex <- Path_exists file_path ;;
    if ex then
      Path_unlink file_path ;;;
      print ("  ✅ Removed: " +:+ Path_name file_path)
    else ret tt) ;;;
  print "✅ Cleanup completed!".

(** What the script is to remove. *)
Definition swept (q : list string) : bool :=
  bool_decide (["__pycache__"] `prefix_of` q)
  || bool_decide (["tmp"] `prefix_of` q)
  || match q with
     | [d; name] => bool_decide (d = "logs") && fnmatch "*.log" name
     | _ => false
     end
  || bool_decide (q = [".DS_Store"])
  || bool_decide (q = ["thumbs.db"]).

(** The bodies of the two loops of the script. *)
Definition clean_dir (dir_path : list string) : M unit :=
  ex <- Path_exists dir_path ;;
  if ex then
    if decide (Path_name dir_path = "logs") then
      logs <- Path_glob dir_path "*.log" ;;
      for_ logs (λ file, Path_unlink file) ;;;
      print ("  ✅ Cleared: " +:+ Path_name dir_path +:+ "/")
    else
      shutil_rmtree dir_path ;;;
      print ("  ✅ Removed: " +:+ Path_name dir_path +:+ "/")
  else ret tt.

Definition clean_file (file_path : list string) : M unit :=
  ex <- Path_exists file_path ;;
  if ex then
    Path_unlink file_path ;;;
    print ("  ✅ Removed: " +:+ Path_name file_path)
  else ret tt.

Definition is_log (q : list string) : bool :=
  match q with
  | [d; name] => bool_decide (d = "logs") && fnmatch "*.log" name
  | _ => false
  end.

(** The text of the README, given the outline that closes it. *)
Definition readme_text (structure_outline : string) : string :=
  match (fstring init ["self"; "readme_content"; "readme_path"]
           (readme_template ++ [Lit structure_outline]) (mkWorld ∅ [])).1 with
  | Ok text => text
  | Raise _ => ""
  end.

(** * More vocabulary: what the stages report, what the scripts remove *)

(** The progress lines of the scaffolding stage. *)
Definition directory_line (directory : string) : string :=
  "  📁 Created: " +:+ directory.

Definition file_line (file : string) : string :=
  "  📄 Created: " +:+ file.

(** The planned files that are missing from a tree, in the order of the
    plan. *)
Definition missing_files (t : gmap (list string) node) (fl : list string)
    : list string :=
  filter (λ f, stat t (parts f) = None) fl.

(** A tree that already has the sources and the change log. *)
Definition half_built_world : World :=
  mkWorld {[ ["src"] := Dir; ["src"; "__init__.py"] := File "# package";
             ["CHANGELOG.md"] := File "custom text" ]} [].

(** A tree in which a directory is named like the planned launcher. *)
Definition launcher_dir_world : World :=
  mkWorld {[ ["run.py"] := Dir ]} [].

(** [writable t p]: a file can be opened for writing at [p], which is a
    regular file already, or a free name in a directory. *)
Definition writable (t : gmap (list string) node) (p : list string) : bool :=
  match stat t p with
  | Some Dir => false
  | Some (File _) => true
  | None => is_dir (stat t (parent p))
  end.

(** Where a setup keeps its manifest, and what it writes there. *)
Definition req_path (self : ProjectSetup) : list string :=
  base_dir self // "requirements.txt".

Definition manifest (self : ProjectSetup) : string := join nl (requirements self).

(** ** The install stage with a child process that reaches the tree

    [spawn] tells how the child ends and no more.  Here [child cmd] is
    all that running [cmd] does: the child may write to the tree and to
    the console before it ends, as [pip] does when the environment is
    kept below the directory of the script. *)

(** [subprocess.check_call(cmd)] *)
Definition subprocess_check_call_with
    (child : list string → World → spawn_result * World) (cmd : list string)
    : M unit :=
  λ w, match child cmd w with
       | (Exited 0, w') => (Ok tt, w')
       | (Exited rc, w') => (Raise (CalledProcessError rc cmd), w')
       | (SpawnError e, w') => (Raise (OSError e (default "" (head cmd))), w')
       end.

(** [install_dependencies], with such a child. *)
Definition install_dependencies_with (h : Host)
    (child : list string → World → spawn_result * World) (self : ProjectSetup)
    : M unit :=
  print (nl +:+ "[4/6] Installing dependencies...") ;;;
  let req_content := join nl (requirements self) in
  let req_path := base_dir self // "requirements.txt" in
  Path_write_text req_path req_content ;;;
  try_except_CalledProcessError
    (subprocess_check_call_with child (pip_install_cmd h) ;;;
     print "✅ Dependencies installed successfully!")
    (λ rc cmd,
       print ("❌ Failed to install dependencies: " +:+ CalledProcessError_str rc cmd) ;;;
       print "Please install manually: pip install -r requirements.txt").

(** A project that keeps its environment in [venv], and an installer
    that puts a package there and says so. *)
Definition venv_world : World :=
  mkWorld {[ ["venv"] := Dir; ["venv"; "lib"] := Dir;
             ["src"] := Dir; ["src"; "old.py"] := File "print('kept')" ]} [].

Definition pip_into_venv (cmd : list string) (w : World) : spawn_result * World :=
  (Exited 0,
   mkWorld (<[["venv"; "lib"; "requests.py"] := File "# requests"]> (fs w))
           (stdout w ++ ["Successfully installed requests"])).

(** A setup of one's own: two requirements, another version. *)
Definition small_setup : ProjectSetup :=
  mkProjectSetup "Mini" "12" "Nobody" [] ["requests"; "tqdm>=4"].

(** Where a setup puts its launcher. *)
Definition run_path (self : ProjectSetup) : list string := base_dir self // "run.py".

(** The text of the launcher for a version text [v]: the header and the
    text of the template up to its one field, then [v], then the rest of
    the template. *)
Definition launcher_head : string :=
  match run_py_template with
  | Lit a :: _ => script_header +:+ a
  | _ => ""
  end.

Definition launcher_tail : string :=
  match run_py_template with
  | [_; _; Lit b] => b
  | _ => ""
  end.

Definition launcher_for (v : string) : string := launcher_head +:+ v +:+ launcher_tail.

(** ** The banner, row by row *)

(** A byte that continues a character of more than one byte in UTF-8. *)
Definition is_continuation (c : ascii) : bool :=
  (128 <=? nat_of_ascii c) && (nat_of_ascii c <? 192).

(** The characters of a text, which is the columns it takes on the
    console when it holds no wide or combining character. *)
Fixpoint columns (s : string) : nat :=
  match s with
  | EmptyString => 0
  | String c s' => (if is_continuation c then 0 else 1) + columns s'
  end.

(** The four rows of the banner for a version text [v]. *)
Definition banner_rows (v : string) : list string := [
  "╔" +:+ bar +:+ "╗";
  "║                    KPU DATA EXTRACTOR v" +:+ v +:+ "                    ║";
  "║                Complete Installation Setup                   ║";
  "╚" +:+ bar +:+ "╝"
].

(** A host with Python 3.8, another patch level, another installer. *)
Definition host_3_8_patched : Host :=
  mkHost (mkVersion 3 8 19) "/opt/python/bin/python3" (λ _, SpawnError EACCES).

(** ** The cleanup script on any tree *)

(** What a run of the script that returns normally has removed from the
    tree [t]: all of the cache directory and of [tmp] where they are
    directories, the entries of [logs] named [*.log] where [logs] is
    there, and the two metadata files. *)
Definition removed (t : gmap (list string) node) (q : list string) : bool :=
  bool_decide (["__pycache__"] `prefix_of` q) && is_dir (t !! ["__pycache__"])
  || bool_decide (["tmp"] `prefix_of` q) && is_dir (t !! ["tmp"])
  || is_log q && bool_decide (is_Some (t !! ["logs"]))
  || bool_decide (q = [".DS_Store"])
  || bool_decide (q = ["thumbs.db"]).

(** What the script needs of the tree: no regular file where it removes
    a directory, no directory where it removes a file. *)
Definition cleanable (t : gmap (list string) node) : Prop :=
  (∀ c, t !! ["__pycache__"] ≠ Some (File c)) ∧
  (∀ c, t !! ["tmp"] ≠ Some (File c)) ∧
  (is_Some (t !! ["logs"]) →
   ∀ name, fnmatch "*.log" name = true → t !! ["logs"; name] ≠ Some Dir) ∧
  t !! [".DS_Store"] ≠ Some Dir ∧
  t !! ["thumbs.db"] ≠ Some Dir.

(** The script removes, and only what it is to sweep. *)
Definition sweeps : relation (gmap (list string) node) :=
  λ t t', t' ⊆ t ∧ ∀ q, swept q = false → t' !! q = t !! q.

(** A tree in use: a cache, a log beside some notes, a report, and the
    metadata of a file manager. *)
Definition used_world : World :=
  mkWorld {[ ["__pycache__"] := Dir; ["__pycache__"; "setup.pyc"] := File "cache";
             ["logs"] := Dir; ["logs"; "app.log"] := File "started";
             ["logs"; "notes.txt"] := File "keep";
             ["data"] := Dir; ["data"; "report.csv"] := File "a,b";
             [".DS_Store"] := File "meta" ]} [].

(** A tree where a regular file has taken the name [tmp]. *)
Definition blocked_world : World :=
  mkWorld {[ ["__pycache__"] := Dir; ["__pycache__"; "setup.pyc"] := File "cache";
             ["tmp"] := File "scratch";
             ["logs"] := Dir; ["logs"; "app.log"] := File "started";
             [".DS_Store"] := File "meta" ]} [].

(** A tree where a directory has taken the name of the manifest. *)
Definition manifest_dir_world : World := mkWorld {[ ["requirements.txt"] := Dir ]} [].

(** * Reasoning about the monad *)

Lemma bind_unfold {A B} (m : M A) (k : A → M B) w :
  bind m k w = match m w with
               | (Ok a, w') => k a w'
               | (Raise e, w') => (Raise e, w')
               end.
Proof. reflexivity. Qed.

Lemma print_run s w : print s w = (Ok tt, mkWorld (fs w) (stdout w ++ [s])).
Proof. reflexivity. Qed.

Lemma bind_Ok {A B} (m : M A) (k : A → M B) w a w' :
  m w = (Ok a, w') → bind m k w = k a w'.
Proof. intros H. by rewrite bind_unfold, H. Qed.

Lemma bind_Raise {A B} (m : M A) (k : A → M B) w e w' :
  m w = (Raise e, w') → bind m k w = (Raise e, w').
Proof. intros H. by rewrite bind_unfold, H. Qed.

Section steps.
Context (R : relation (gmap (list string) node)) `{!PreOrder R}.

Lemma steps_ret {A} (a : A) : steps R (ret a).
Proof. intros w. reflexivity. Qed.


Lemma steps_print s : steps R (print s).
Proof. intros w. reflexivity. Qed.

Lemma steps_bind {A B} (m : M A) (k : A → M B) :
  steps R m → (∀ a, steps R (k a)) → steps R (bind m k).
Proof.
  intros Hm Hk w. rewrite bind_unfold. specialize (Hm w).
  destruct (m w) as [[a|e] w']; simpl in *; [|done].
  etrans; [exact Hm | apply Hk].
Qed.

Lemma steps_for {A} (xs : list A) (body : A → M unit) :
  (∀ x, x ∈ xs → steps R (body x)) → steps R (for_ xs body).
Proof.
  induction xs as [|x xs IH]; intros Hb; simpl.
  - apply steps_ret.
  - apply steps_bind; [apply Hb; left | intros _; apply IH].
    intros y Hy. apply Hb. by right.
Qed.

Lemma steps_try_except_OSError {A} (m : M A) h :
  steps R m → (∀ e n, steps R (h e n)) → steps R (try_except_OSError m h).
Proof.
  intros Hm Hh w. unfold try_except_OSError. specialize (Hm w).
  destruct (m w) as [[a|[]] w']; simpl in *; try done.
  etrans; [exact Hm | apply Hh].
Qed.

Lemma steps_Path_exists p : steps R (Path_exists p).
Proof. intros w. reflexivity. Qed.

Lemma steps_Path_is_dir p : steps R (Path_is_dir p).
Proof. intros w. reflexivity. Qed.


End steps.

Lemma fs_only_ret {A} (a : A) : fs_only (ret a).
Proof. intros t. by exists (Ok a), t. Qed.

Lemma fs_only_raise {A} e : fs_only (@raise A e).
Proof. intros t. by exists (Raise e), t. Qed.

Lemma fs_only_bind {A B} (m : M A) (k : A → M B) :
  fs_only m → (∀ a, fs_only (k a)) → fs_only (bind m k).
Proof.
  intros Hm Hk t. destruct (Hm t) as ([a|e] & t1 & H1).
  - destruct (Hk a t1) as (r & t2 & H2). exists r, t2. intros o.
    by rewrite bind_unfold, H1, H2.
  - exists (Raise e), t1. intros o. by rewrite bind_unfold, H1.
Qed.

Lemma fs_only_try_except_OSError {A} (m : M A) h :
  fs_only m → (∀ e n, fs_only (h e n)) → fs_only (try_except_OSError m h).
Proof.
  intros Hm Hh t. destruct (Hm t) as (r & t1 & H1). unfold try_except_OSError.
  destruct r as [a|e]; [by exists (Ok a), t1; intros o; rewrite H1|].
  destruct e; try (eexists _, t1; intros o; rewrite H1; reflexivity).
  destruct (Hh e filename t1) as (r & t2 & H2). exists r, t2.
  intros o. by rewrite H1, H2.
Qed.

Lemma fs_only_os_mkdir p : fs_only (os_mkdir p).
Proof.
  intros t. unfold os_mkdir; simpl.
  destruct (stat t p); [by eexists _, _|].
  destruct (stat t (parent p)) as [[]|]; by eexists _, _.
Qed.

Lemma fs_only_os_open_write b p d : fs_only (os_open_write b p d).
Proof.
  intros t. unfold os_open_write; simpl.
  destruct (stat t p) as [[]|]; [by eexists _, _| |].
  - destruct b; by eexists _, _.
  - destruct (stat t (parent p)) as [[]|]; by eexists _, _.
Qed.

Lemma fs_only_Path_exists p : fs_only (Path_exists p).
Proof. intros t. unfold Path_exists; simpl. by eexists _, _. Qed.

Lemma fs_only_Path_is_dir p : fs_only (Path_is_dir p).
Proof. intros t. unfold Path_is_dir; simpl. by eexists _, _. Qed.

Lemma fs_only_Path_mkdir_go fuel parents exist_ok p :
  fs_only (Path_mkdir_go fuel parents exist_ok p).
Proof.
  revert parents exist_ok p.
  induction fuel as [|fuel IH]; intros parents exist_ok p; simpl;
    (apply fs_only_try_except_OSError; [apply fs_only_os_mkdir|]);
    intros e n; destruct e;
    repeat first
      [ apply fs_only_raise | apply fs_only_ret | apply fs_only_Path_is_dir
      | apply IH
      | apply fs_only_bind; [|intros ?]
      | match goal with |- fs_only (if ?c then _ else _) => destruct c end ].
Qed.

Lemma fs_only_Path_touch p : fs_only (Path_touch p).
Proof.
  apply fs_only_bind; [apply fs_only_Path_exists|].
  intros []; [apply fs_only_ret | apply fs_only_os_open_write].
Qed.

(** How a call that only looks at the tree acts on a whole world. *)
Lemma fs_only_run {A} (m : M A) w :
  fs_only m →
  m w = ((m (mkWorld (fs w) [])).1, set_fs (fs (m (mkWorld (fs w) [])).2) w).
Proof.
  intros Hm. destruct (Hm (fs w)) as (r & t' & H).
  rewrite (H []). destruct w as [t o]. simpl. by rewrite H.
Qed.

(** ** Trees that only grow *)

Global Instance adds_preorder S : PreOrder (adds S).
Proof.
  split.
  - intros t. split; [done|]. intros q n H1 H2. congruence.
  - intros t1 t2 t3 [Hs12 Hn12] [Hs23 Hn23]. split; [by etrans|].
    intros q n H3 H1. destruct (t2 !! q) as [n'|] eqn:H2.
    + rewrite (lookup_weaken _ _ _ _ H2 Hs23) in H3. simplify_eq. by apply Hn12.
    + by apply Hn23.
Qed.

Lemma adds_weaken (S S' : list string → node → Prop) t t' :
  (∀ q n, S q n → S' q n) → adds S t t' → adds S' t t'.
Proof. intros HS [Hs Hn]. split; [done|]. intros q n ??. apply HS. by apply Hn. Qed.

Lemma adds_lookup_Some S t t' q n :
  adds S t t' → t !! q = Some n → t' !! q = Some n.
Proof. intros [Hs _] H. by eapply lookup_weaken. Qed.

Lemma adds_lookup_None S t t' q :
  adds S t t' → t !! q = None → (∀ n, ¬ S q n) → t' !! q = None.
Proof.
  intros [_ Hn] H HS. destruct (t' !! q) as [n|] eqn:E; [|done].
  destruct (HS n). by apply Hn.
Qed.

Lemma steps_weaken {A} (S S' : list string → node → Prop) (m : M A) :
  (∀ q n, S q n → S' q n) → steps (adds S) m → steps (adds S') m.
Proof. intros HS Hm w. eapply adds_weaken; [exact HS | apply Hm]. Qed.

(** ** Paths *)

Lemma set_fs_id w : set_fs (fs w) w = w.
Proof. by destruct w. Qed.

Lemma stat_cons t x p : stat t (x :: p) = t !! (x :: p).
Proof. reflexivity. Qed.

Lemma stat_ne_nil t p : p ≠ [] → stat t p = t !! p.
Proof. by destruct p. Qed.

Lemma stat_None_ne_nil t p : stat t p = None → p ≠ [].
Proof. by destruct p. Qed.

Lemma stat_File_ne_nil t p c : stat t p = Some (File c) → p ≠ [].
Proof. by destruct p. Qed.

Lemma parent_snoc p : p ≠ [] → ∃ x, p = parent p ++ [x].
Proof.
  intros Hp. exists (List.last p ""). by apply app_removelast_last.
Qed.

Lemma parent_prefix p : parent p `prefix_of` p.
Proof.
  destruct (decide (p = [])) as [->|Hp]; [done|].
  destruct (parent_snoc p Hp) as [x Hx]. by exists [x].
Qed.

Lemma parent_length p : p ≠ [] → S (length (parent p)) = length p.
Proof.
  intros Hp. destruct (parent_snoc p Hp) as [x Hx].
  rewrite Hx at 2. rewrite length_app. simpl. lia.
Qed.

Lemma parent_ne p : p ≠ [] → parent p ≠ p.
Proof. intros Hp Heq. apply parent_length in Hp. rewrite Heq in Hp. lia. Qed.

Lemma not_prefix_parent p : p ≠ [] → ¬ p `prefix_of` parent p.
Proof.
  intros Hp Hpre. apply prefix_length in Hpre.
  apply parent_length in Hp. lia.
Qed.

(** ** [mkdir] *)

Lemma Path_mkdir_go_unfold fuel parents exist_ok p :
  Path_mkdir_go fuel parents exist_ok p =
  try_except_OSError (os_mkdir p) (λ e name,
    match e with
    | ENOENT =>
        if negb parents || bool_decide (parent p = p) then raise (OSError e name)
        else match fuel with
             | 0 => raise (OSError e name)
             | S fuel' =>
                 Path_mkdir_go fuel' true true (parent p) ;;;
                 Path_mkdir_go fuel' false exist_ok p
             end
    | _ =>
        d <- Path_is_dir p ;;
        if negb exist_ok || negb d then raise (OSError e name) else ret tt
    end).
Proof. by destruct fuel. Qed.

Lemma Path_mkdir_go_fresh fuel parents exist_ok p w :
  stat (fs w) p = None → stat (fs w) (parent p) = Some Dir →
  Path_mkdir_go fuel parents exist_ok p w = (Ok tt, set_fs (<[p := Dir]> (fs w)) w).
Proof.
  intros H1 H2. rewrite Path_mkdir_go_unfold.
  unfold try_except_OSError, os_mkdir. by rewrite H1, H2.
Qed.

Lemma Path_mkdir_go_is_dir fuel parents p w :
  stat (fs w) p = Some Dir → Path_mkdir_go fuel parents true p w = (Ok tt, w).
Proof.
  intros H1. rewrite Path_mkdir_go_unfold.
  unfold try_except_OSError, os_mkdir. rewrite H1.
  rewrite bind_unfold. unfold Path_is_dir. rewrite H1.
  by rewrite bool_decide_eq_true_2.
Qed.

Lemma Path_mkdir_go_is_file fuel parents p c w :
  stat (fs w) p = Some (File c) →
  Path_mkdir_go fuel parents true p w = (Raise (OSError EEXIST (Path_str p)), w).
Proof.
  intros H1. rewrite Path_mkdir_go_unfold.
  unfold try_except_OSError, os_mkdir. rewrite H1.
  rewrite bind_unfold. unfold Path_is_dir. rewrite H1.
  by rewrite bool_decide_eq_false_2.
Qed.

(** What [p.mkdir(parents=True, exist_ok=True)] does, given fuel for
    the whole path: it either fails and leaves the tree as it was, or it
    succeeds, [p] is a directory, and all it added are directories on
    the way to [p].  It succeeds whenever no regular file is met on the
    way. *)
Lemma Path_mkdir_go_spec fuel p w :
  length p ≤ fuel →
  ∃ r t', Path_mkdir_go fuel true true p w = (r, set_fs t' w) ∧
    match r with
    | Ok _ => stat t' p = Some Dir ∧ adds (λ q n, n = Dir ∧ q `prefix_of` p) (fs w) t'
    | Raise _ => t' = fs w
    end ∧
    ((∀ q c, q `prefix_of` p → stat (fs w) q ≠ Some (File c)) → r = Ok tt).
Proof.
  revert p w. induction fuel as [|fuel IH]; intros p w Hlen.
  all: destruct (stat (fs w) p) as [[|c]|] eqn:Hp.
  all: try (exists (Ok tt), (fs w); rewrite set_fs_id;
            split; [by apply Path_mkdir_go_is_dir|]; split; [split; [done|reflexivity]|done]).
  all: try (eexists (Raise _), (fs w); rewrite set_fs_id;
            split; [by eapply Path_mkdir_go_is_file|]; split; [done|];
            intros Hno; by destruct (Hno p c)).
  - apply stat_None_ne_nil in Hp. destruct p; simpl in *; [done|lia].
  - pose proof (stat_None_ne_nil _ _ Hp) as Hne.
    assert (Hfresh : ∀ t, t !! p = None →
              adds (λ q n, n = Dir ∧ q `prefix_of` p) t (<[p := Dir]> t)).
    { intros t Ht. split; [by apply insert_subseteq|].
      intros q n Hq Hqn. destruct (decide (p = q)) as [<-|Hpq].
      - rewrite lookup_insert_eq in Hq. by simplify_eq.
      - rewrite lookup_insert_ne in Hq by done. congruence. }
    destruct (stat (fs w) (parent p)) as [[|c]|] eqn:Hpp.
    + exists (Ok tt), (<[p := Dir]> (fs w)).
      split; [by apply Path_mkdir_go_fresh|]. split; [|done]. split.
      * rewrite stat_ne_nil by done. apply lookup_insert_eq.
      * apply Hfresh. by rewrite <-stat_ne_nil.
    + eexists (Raise _), (fs w). rewrite set_fs_id. split; [|split; [done|]].
      * rewrite Path_mkdir_go_unfold. unfold try_except_OSError, os_mkdir.
        rewrite Hp, Hpp. rewrite bind_unfold. unfold Path_is_dir. rewrite Hp.
        by rewrite bool_decide_eq_false_2.
      * intros Hno. destruct (Hno (parent p) c); [apply parent_prefix|done].
    + destruct (IH (parent p) w) as (r1 & t1 & Hrun & Hpost & Hok).
      { apply parent_length in Hne. lia. }
      assert (Hgo : Path_mkdir_go (S fuel) true true p w =
                    (Path_mkdir_go fuel true true (parent p) ;;;
                     Path_mkdir_go fuel false true p) w).
      { rewrite Path_mkdir_go_unfold. unfold try_except_OSError at 1, os_mkdir at 1.
        rewrite Hp, Hpp. simpl. by rewrite bool_decide_eq_false_2 by by apply parent_ne. }
      rewrite Hgo, bind_unfold, Hrun.
      destruct r1 as [[]|e].
      * destruct Hpost as [Hdir Hadds].
        assert (Hp1 : t1 !! p = None).
        { eapply adds_lookup_None; [exact Hadds|by rewrite <-stat_ne_nil|].
          intros n [_ Hpre]. by apply (not_prefix_parent p). }
        exists (Ok tt), (<[p := Dir]> t1). split; [|split; [|done]].
        -- rewrite Path_mkdir_go_fresh; [done| |done].
           simpl. by rewrite stat_ne_nil.
        -- split; [rewrite stat_ne_nil by done; apply lookup_insert_eq|].
           etrans; [|by apply Hfresh].
           eapply adds_weaken; [|exact Hadds]. intros q n [-> Hq]. split; [done|].
           etrans; [exact Hq | apply parent_prefix].
      * exists (Raise e), t1. split; [done|]. split; [done|].
        intros Hno. apply Hok. intros q c Hq. apply Hno.
        etrans; [exact Hq | apply parent_prefix].
Qed.

(** ** The loop that creates the directories *)

Lemma Path_mkdir_spec p w :
  ∃ r t', Path_mkdir true true p w = (r, set_fs t' w) ∧
    match r with
    | Ok _ => stat t' p = Some Dir ∧ adds (λ q n, n = Dir ∧ q `prefix_of` p) (fs w) t'
    | Raise _ => t' = fs w
    end ∧
    ((∀ q c, q `prefix_of` p → stat (fs w) q ≠ Some (File c)) → r = Ok tt).
Proof. by apply Path_mkdir_go_spec. Qed.

Lemma steps_Path_mkdir p :
  steps (adds (λ q n, n = Dir ∧ q `prefix_of` p)) (Path_mkdir true true p).
Proof.
  intros w. destruct (Path_mkdir_spec p w) as (r & t' & -> & Hpost & _). simpl.
  destruct r as [[]|e]; [apply Hpost | by rewrite Hpost].
Qed.

Lemma adds_stat_Some S t t' p n : adds S t t' → stat t p = Some n → stat t' p = Some n.
Proof. destruct p; [done|]. apply adds_lookup_Some. Qed.

(** How a call that only looks at the tree fares in two worlds with
    the same tree. *)
Lemma fs_only_transfer {A} (m : M A) w1 w2 r w1' :
  fs_only m → fs w1 = fs w2 → m w1 = (r, w1') →
  m w2 = (r, set_fs (fs w1') w2).
Proof.
  intros Hm Hfs H1. rewrite (fs_only_run m w1 Hm) in H1.
  rewrite (fs_only_run m w2 Hm), <-Hfs. by simplify_eq.
Qed.

Lemma create_directories_cons d ds :
  create_directories init (d :: ds) =
  ((Path_mkdir true true (parts d) ;;; print ("  📁 Created: " +:+ d)) ;;;
   create_directories init ds).
Proof. reflexivity. Qed.

Lemma steps_create_directories ds :
  steps (adds (planned_dir ds)) (create_directories init ds).
Proof.
  apply steps_for; [apply _|]. intros d Hd. cbv zeta.
  apply steps_bind; [apply _| |intros; apply steps_print, _].
  eapply steps_weaken; [|apply steps_Path_mkdir].
  intros q n [-> Hq]. split; [done|]. by exists d.
Qed.

(** With no regular file in the way the loop completes, and every
    planned directory is there. *)
Lemma create_directories_Ok ds w :
  (∀ d q c, d ∈ ds → q `prefix_of` parts d → stat (fs w) q ≠ Some (File c)) →
  ∃ w', create_directories init ds w = (Ok tt, w') ∧
        ∀ d, d ∈ ds → stat (fs w') (parts d) = Some Dir.
Proof.
  revert w. induction ds as [|d ds IH]; intros w Hno.
  { exists w. split; [done|]. intros d Hd. by apply elem_of_nil in Hd. }
  rewrite create_directories_cons.
  destruct (Path_mkdir_spec (parts d) w) as (r & t1 & Hrun & Hpost & Hok).
  rewrite Hok in Hrun, Hpost by (intros q c; apply Hno; left).
  destruct Hpost as [Hd Hadds].
  destruct (IH (mkWorld t1 (stdout w ++ ["  📁 Created: " +:+ d]))) as (w' & Hrest & Hall).
  { intros d' q c Hd' Hq Hfile. simpl in Hfile.
    pose proof (stat_File_ne_nil _ _ _ Hfile) as Hne.
    rewrite stat_ne_nil in Hfile by done.
    specialize (Hno d' q c). rewrite stat_ne_nil in Hno by done.
    destruct (fs w !! q) as [n|] eqn:Hwq.
    - rewrite (adds_lookup_Some _ _ _ _ _ Hadds Hwq) in Hfile.
      simplify_eq. apply Hno; [by right|done..].
    - by destruct (proj2 Hadds _ _ Hfile Hwq). }
  exists w'. split.
  - rewrite bind_unfold, bind_unfold, Hrun. exact Hrest.
  - intros d' [->|Hd']%elem_of_cons; [|by apply Hall].
    eapply adds_stat_Some; [|exact Hd].
    pose proof (steps_create_directories ds
                  (mkWorld t1 (stdout w ++ ["  📁 Created: " +:+ d]))) as Hs.
    rewrite Hrest in Hs. exact Hs.
Qed.

(** Where the loop completes, every planned directory is there. *)
Lemma create_directories_Ok_inv ds w w1 :
  create_directories init ds w = (Ok tt, w1) →
  ∀ d, d ∈ ds → stat (fs w1) (parts d) = Some Dir.
Proof.
  revert w w1. induction ds as [|d ds IH]; intros w w1 H1 d' Hd';
    [by apply elem_of_nil in Hd'|].
  rewrite create_directories_cons, bind_unfold, bind_unfold in H1.
  destruct (Path_mkdir_spec (parts d) w) as (r & t1 & Hmk & Hpost & _).
  rewrite Hmk in H1. destruct r as [[]|]; [|done]. destruct Hpost as [Hd _].
  set (wa := mkWorld t1 (stdout w ++ ["  📁 Created: " +:+ d])) in *.
  change (create_directories init ds wa = (Ok tt, w1)) in H1.
  apply elem_of_cons in Hd' as [->|Hd']; [|by eapply IH].
  pose proof (steps_create_directories ds wa) as Hs. rewrite H1 in Hs.
  eapply adds_stat_Some; [exact Hs | exact Hd].
Qed.

(** Where every planned directory is there already, the loop changes
    nothing. *)
Lemma create_directories_again ds w :
  (∀ d, d ∈ ds → stat (fs w) (parts d) = Some Dir) →
  ∃ w', create_directories init ds w = (Ok tt, w') ∧ fs w' = fs w.
Proof.
  revert w. induction ds as [|d ds IH]; intros w Hall; [by exists w|].
  rewrite create_directories_cons, bind_unfold, bind_unfold.
  unfold Path_mkdir. rewrite Path_mkdir_go_is_dir by (apply Hall; left).
  destruct (IH (mkWorld (fs w) (stdout w ++ ["  📁 Created: " +:+ d])))
    as (w' & Hrest & Hfs).
  { intros d' Hd'. apply Hall. by right. }
  exists w'. split; [exact Hrest | exact Hfs].
Qed.

(** Where the loop failed, it fails again, the same way, on the tree it
    left. *)
Lemma create_directories_fails_again ds w e w1 w2 :
  create_directories init ds w = (Raise e, w1) → fs w2 = fs w1 →
  ∃ w3, create_directories init ds w2 = (Raise e, w3) ∧ fs w3 = fs w2.
Proof.
  revert w w2. induction ds as [|d ds IH]; intros w w2 Hrun Hfs; [done|].
  rewrite create_directories_cons in Hrun |- *.
  rewrite bind_unfold, bind_unfold in Hrun.
  destruct (Path_mkdir_spec (parts d) w) as (r & t1 & Hmk & Hpost & _).
  rewrite Hmk in Hrun. destruct r as [[]|e0].
  - destruct Hpost as [Hd Hadds].
    set (wa := mkWorld t1 (stdout w ++ ["  📁 Created: " +:+ d])) in *.
    change (create_directories init ds wa = (Raise e, w1)) in Hrun.
    pose proof (steps_create_directories ds wa) as Hs. rewrite Hrun in Hs.
    assert (Hd2 : stat (fs w2) (parts d) = Some Dir).
    { rewrite Hfs. eapply adds_stat_Some; [exact Hs | exact Hd]. }
    rewrite bind_unfold, bind_unfold. unfold Path_mkdir.
    rewrite Path_mkdir_go_is_dir by done.
    apply (IH wa (mkWorld (fs w2) (stdout w2 ++ ["  📁 Created: " +:+ d]))); done.
  - simplify_eq. simpl in Hfs.
    rewrite bind_unfold, bind_unfold.
    erewrite (fs_only_transfer (Path_mkdir true true (parts d)) w w2);
      [|apply fs_only_Path_mkdir_go|done|exact Hmk].
    exists (set_fs (fs (set_fs (fs w) w)) w2). split; [done|]. simpl. done.
Qed.

(** ** The loop that creates the placeholder files *)

Lemma create_files_cons f fl :
  create_files init (f :: fl) =
  ((ex <- Path_exists (parts f) ;;
    if negb ex then Path_touch (parts f) ;;; print ("  📄 Created: " +:+ f)
    else ret tt) ;;;
   create_files init fl).
Proof. reflexivity. Qed.

Lemma create_file_there p msg w :
  is_Some (stat (fs w) p) →
  (ex <- Path_exists p ;;
   if negb ex then Path_touch p ;;; print msg else ret tt) w = (Ok tt, w).
Proof.
  intros H. rewrite bind_unfold. unfold Path_exists.
  by rewrite bool_decide_eq_true_2.
Qed.

Lemma create_file_missing p msg w :
  stat (fs w) p = None →
  (ex <- Path_exists p ;;
   if negb ex then Path_touch p ;;; print msg else ret tt) w =
  match stat (fs w) (parent p) with
  | Some Dir => (Ok tt, mkWorld (<[p := File ""]> (fs w)) (stdout w ++ [msg]))
  | Some (File _) => (Raise (OSError ENOTDIR (Path_str p)), w)
  | None => (Raise (OSError ENOENT (Path_str p)), w)
  end.
Proof.
  intros H. rewrite bind_unfold. unfold Path_exists at 1.
  rewrite bool_decide_eq_false_2 by (rewrite H; by intros [??]).
  simpl. rewrite bind_unfold. unfold Path_touch at 1. rewrite bind_unfold.
  unfold Path_exists at 1.
  rewrite bool_decide_eq_false_2 by (rewrite H; by intros [??]).
  unfold os_open_write. rewrite H.
  by destruct (stat (fs w) (parent p)) as [[]|].
Qed.

Lemma steps_create_file p msg :
  steps (adds (λ q n, n = File "" ∧ q = p))
    (ex <- Path_exists p ;;
     if negb ex then Path_touch p ;;; print msg else ret tt).
Proof.
  intros w. destruct (stat (fs w) p) as [n|] eqn:Hp.
  - by rewrite create_file_there.
  - rewrite create_file_missing by done.
    destruct (stat (fs w) (parent p)) as [[]|]; try reflexivity.
    simpl. pose proof (stat_None_ne_nil _ _ Hp) as Hne.
    rewrite stat_ne_nil in Hp by done.
    split; [by apply insert_subseteq|].
    intros q n Hq Hqn. destruct (decide (p = q)) as [<-|Hpq].
    + rewrite lookup_insert_eq in Hq. by simplify_eq.
    + rewrite lookup_insert_ne in Hq by done. congruence.
Qed.

Lemma steps_create_files fl :
  steps (adds (planned_file fl)) (create_files init fl).
Proof.
  apply steps_for; [apply _|]. intros f Hf. cbv zeta.
  eapply steps_weaken; [|apply (steps_create_file (parts f))].
  intros q n [-> ->]. split; [done|]. by exists f.
Qed.

(** With the parent of every planned file in place the loop completes,
    and every planned path exists. *)
Lemma create_files_Ok fl w :
  (∀ f, f ∈ fl → stat (fs w) (parent (parts f)) = Some Dir) →
  ∃ w', create_files init fl w = (Ok tt, w') ∧
        ∀ f, f ∈ fl → is_Some (stat (fs w') (parts f)).
Proof.
  revert w. induction fl as [|f fl IH]; intros w Hpar.
  { exists w. split; [done|]. intros f Hf. by apply elem_of_nil in Hf. }
  rewrite create_files_cons, bind_unfold.
  pose proof (steps_create_file (parts f) ("  📄 Created: " +:+ f) w) as Hs.
  assert (∃ w1, (ex <- Path_exists (parts f) ;;
                 if negb ex then Path_touch (parts f) ;;; print ("  📄 Created: " +:+ f)
                 else ret tt) w = (Ok tt, w1) ∧ is_Some (stat (fs w1) (parts f)))
    as (w1 & Hrun & Hthere).
  { destruct (stat (fs w) (parts f)) as [n|] eqn:Hp.
    - exists w. split; [by apply create_file_there|by rewrite Hp].
    - rewrite create_file_missing, Hpar by (done || left).
      eexists. split; [done|]. simpl.
      rewrite stat_ne_nil by by eapply stat_None_ne_nil.
      by rewrite lookup_insert_eq. }
  rewrite Hrun in Hs |- *. simpl in Hs.
  destruct (IH w1) as (w' & Hrest & Hall).
  { intros f' Hf'. eapply adds_stat_Some; [exact Hs|]. apply Hpar. by right. }
  exists w'. split; [done|].
  intros f' [->|Hf']%elem_of_cons; [|by apply Hall].
  destruct Hthere as [n Hn]. exists n.
  eapply adds_stat_Some; [|exact Hn].
  pose proof (steps_create_files fl w1) as Hs'. rewrite Hrest in Hs'. exact Hs'.
Qed.

(** Where every planned path exists already, the loop changes nothing
    and prints nothing. *)
Lemma create_files_again fl w :
  (∀ f, f ∈ fl → is_Some (stat (fs w) (parts f))) →
  create_files init fl w = (Ok tt, w).
Proof.
  induction fl as [|f fl IH]; intros Hall; [done|].
  rewrite create_files_cons, bind_unfold.
  rewrite create_file_there by (apply Hall; left).
  apply IH. intros f' Hf'. apply Hall. by right.
Qed.

(** ** Writing a file *)

Lemma Path_write_text_run p data w :
  stat (fs w) (parent p) = Some Dir →
  Path_write_text p data w =
  match stat (fs w) p with
  | Some Dir => (Raise (OSError EISDIR (Path_str p)), w)
  | _ => (Ok tt, set_fs (<[p := File data]> (fs w)) w)
  end.
Proof.
  intros Hpar. unfold Path_write_text, os_open_write. rewrite Hpar.
  by destruct (stat (fs w) p) as [[]|].
Qed.

(** A file directly below [base_dir]. *)
Lemma Path_write_text_top x data w :
  Path_write_text [x] data w =
  match fs w !! [x] with
  | Some Dir => (Raise (OSError EISDIR x), w)
  | _ => (Ok tt, set_fs (<[[x] := File data]> (fs w)) w)
  end.
Proof. by rewrite Path_write_text_run. Qed.

(** ** The scaffolding stage as a whole *)

(** Every planned file lies in [base_dir] or in a planned directory. *)
Lemma files_parent_planned f :
  f ∈ files → parent (parts f) ∈ [] :: (parts <$> directories).
Proof.
  revert f. apply Forall_forall.
  apply (bool_decide_unpack _). vm_compute. exact I.
Qed.

Lemma create_project_structure_unfold w :
  create_project_structure init w =
  match create_directories init directories
          (mkWorld (fs w) (stdout w ++ [nl +:+ "[2/6] Creating project structure..."])) with
  | (Raise e, w1) => (Raise e, w1)
  | (Ok _, w1) =>
      match create_files init files w1 with
      | (Raise e, w2) => (Raise e, w2)
      | (Ok _, w2) =>
          match Path_write_text [".gitignore"] gitignore_content w2 with
          | (Raise e, w3) => (Raise e, w3)
          | (Ok _, w3) =>
              (Ok tt, mkWorld (fs w3)
                        ((stdout w3 ++ ["  📄 Created: .gitignore"])
                         ++ ["✅ Project structure created successfully!"]))
          end
      end
  end.
Proof. reflexivity. Qed.

(** The two ways the stage can go.  Either the directory loop fails,
    and so does the stage, having added planned directories only.  Or
    all planned directories and files are in place in a tree [t2] that
    only gained planned entries, and the stage ends with the write of
    the ignore file to [t2]: an error if a directory is in its place. *)
Lemma create_project_structure_spec w :
  ∃ r w', create_project_structure init w = (r, w') ∧
    ((∃ e, r = Raise e ∧
           create_directories init directories
             (mkWorld (fs w) (stdout w ++ [nl +:+ "[2/6] Creating project structure..."]))
           = (Raise e, w') ∧
           adds (planned_dir directories) (fs w) (fs w'))
     ∨ (∃ t2, adds planned (fs w) t2 ∧
          (∀ d, d ∈ directories → stat t2 (parts d) = Some Dir) ∧
          (∀ f, f ∈ files → is_Some (stat t2 (parts f))) ∧
          ((t2 !! [".gitignore"] = Some Dir ∧ fs w' = t2 ∧
            r = Raise (OSError EISDIR ".gitignore"))
           ∨ (t2 !! [".gitignore"] ≠ Some Dir ∧
              fs w' = <[[".gitignore"] := File gitignore_content]> t2 ∧
              r = Ok tt)))).
Proof.
  rewrite create_project_structure_unfold.
  set (w0 := mkWorld (fs w) (stdout w ++ [nl +:+ "[2/6] Creating project structure..."])).
  pose proof (steps_create_directories directories w0) as Hs1.
  destruct (create_directories init directories w0) as [[[]|e] w1] eqn:H1.
  2:{ exists (Raise e), w1. split; [done|]. left. by exists e. }
  simpl in Hs1.
  pose proof (create_directories_Ok_inv _ _ _ H1) as Hdirs.
  destruct (create_files_Ok files w1) as (w2 & H2 & Hfiles).
  { intros f Hf. apply files_parent_planned in Hf.
    apply elem_of_cons in Hf as [->|Hf]; [done|].
    apply list_elem_of_fmap in Hf as (d & -> & Hd). by apply Hdirs. }
  rewrite H2.
  pose proof (steps_create_files files w1) as Hs2. rewrite H2 in Hs2. simpl in Hs2.
  assert (Hadds : adds planned (fs w) (fs w2)).
  { etrans; [eapply adds_weaken; [|exact Hs1]|eapply adds_weaken; [|exact Hs2]];
      intros q n Hq; [by left|by right]. }
  rewrite Path_write_text_top.
  destruct (fs w2 !! [".gitignore"]) as [n|] eqn:Hgi.
  1: destruct n as [|c].
  - exists (Raise (OSError EISDIR ".gitignore")), w2. split; [done|]. right.
    exists (fs w2). split; [done|]. split; [|split; [done|by left]].
    intros d Hd. eapply adds_stat_Some; [exact Hs2|by apply Hdirs].
  - eexists (Ok tt), _. split; [done|]. right.
    exists (fs w2). split; [done|]. split; [|split; [done|right; by rewrite Hgi]].
    intros d Hd. eapply adds_stat_Some; [exact Hs2|by apply Hdirs].
  - eexists (Ok tt), _. split; [done|]. right.
    exists (fs w2). split; [done|]. split; [|split; [done|right; by rewrite Hgi]].
    intros d Hd. eapply adds_stat_Some; [exact Hs2|by apply Hdirs].
Qed.

(** ** Facts about the two plans, checked by evaluation *)

Lemma elem_of_prefixes q p : q `prefix_of` p → q ∈ prefixes p.
Proof.
  intros [k ->]. apply list_elem_of_fmap. exists (length q). split.
  - by rewrite take_app_length.
  - apply elem_of_seq. rewrite length_app. lia.
Qed.

(** The way to a planned directory leads through planned directories. *)
Lemma directories_prefix_closed d q :
  d ∈ directories → q `prefix_of` parts d → q ∈ [] :: (parts <$> directories).
Proof.
  intros Hd Hq. apply elem_of_prefixes in Hq. revert q Hq. apply Forall_forall.
  revert d Hd. apply Forall_forall.
  apply (bool_decide_unpack _). vm_compute. exact I.
Qed.

(** No planned file is on the way to a planned directory. *)
Lemma files_not_prefix f d :
  f ∈ files → d ∈ directories → ¬ parts f `prefix_of` parts d.
Proof.
  intros Hf. revert d. apply Forall_forall. revert f Hf. apply Forall_forall.
  apply (bool_decide_unpack _). vm_compute. exact I.
Qed.

Lemma files_not_gitignore f : f ∈ files → parts f ≠ [".gitignore"].
Proof.
  revert f. apply Forall_forall. apply (bool_decide_unpack _). vm_compute. exact I.
Qed.

Lemma files_ne_nil f : f ∈ files → parts f ≠ [].
Proof.
  revert f. apply Forall_forall. apply (bool_decide_unpack _). vm_compute. exact I.
Qed.

Lemma directories_ne_nil d : d ∈ directories → parts d ≠ [].
Proof.
  revert d. apply Forall_forall. apply (bool_decide_unpack _). vm_compute. exact I.
Qed.

Lemma directories_not_gitignore d q :
  d ∈ directories → q `prefix_of` parts d → q ≠ [".gitignore"].
Proof.
  intros Hd Hq. apply elem_of_prefixes in Hq. revert q Hq. apply Forall_forall.
  revert d Hd. apply Forall_forall.
  apply (bool_decide_unpack _). vm_compute. exact I.
Qed.

Lemma planned_not_gitignore n : ¬ planned [".gitignore"] n.
Proof.
  intros [[_ (d & Hd & Hq)]|[_ (f & Hf & Hq)]].
  - by eapply directories_not_gitignore.
  - by eapply files_not_gitignore.
Qed.

(** ** What the scaffolding stage keeps, adds and repeats *)

(** Every entry but the ignore file is kept as it is. *)
Lemma create_project_structure_keeps w q n :
  q ≠ [".gitignore"] → fs w !! q = Some n →
  fs (create_project_structure init w).2 !! q = Some n.
Proof.
  intros Hq Hn.
  destruct (create_project_structure_spec w) as (r & w' & -> & Hcases). simpl.
  destruct Hcases as [(e & _ & _ & Hadds)|(t2 & Hadds & _ & _ & Hgi)].
  - by eapply adds_lookup_Some.
  - pose proof (adds_lookup_Some _ _ _ _ _ Hadds Hn) as H2.
    destruct Hgi as [(_ & -> & _)|(_ & -> & _)]; [done|].
    by rewrite lookup_insert_ne.
Qed.

(** Every entry on top is planned, or is the ignore file. *)
Lemma create_project_structure_new w q n :
  fs w !! q = None → fs (create_project_structure init w).2 !! q = Some n →
  planned q n ∨ (q = [".gitignore"] ∧ n = File gitignore_content).
Proof.
  intros Hq.
  destruct (create_project_structure_spec w) as (r & w' & -> & Hcases). simpl.
  destruct Hcases as [(e & _ & _ & Hadds)|(t2 & Hadds & _ & _ & Hgi)].
  - intros Hn. left. left. by apply (proj2 Hadds).
  - destruct Hgi as [(_ & -> & _)|(_ & -> & _)]; intros Hn.
    + left. by apply (proj2 Hadds).
    + destruct (decide (q = [".gitignore"])) as [->|Hne].
      * rewrite lookup_insert_eq in Hn. right. by simplify_eq.
      * rewrite lookup_insert_ne in Hn by done. left. by apply (proj2 Hadds).
Qed.

(** Running the stage a second time leaves the tree of the first run. *)
Lemma create_project_structure_twice w :
  fs (create_project_structure init (create_project_structure init w).2).2
  = fs (create_project_structure init w).2.
Proof.
  destruct (create_project_structure_spec w) as (r & w' & -> & Hcases). simpl.
  rewrite create_project_structure_unfold.
  set (w0' := mkWorld (fs w') (stdout w' ++ [nl +:+ "[2/6] Creating project structure..."])).
  destruct Hcases as [(e & _ & Hrun & _)|(t2 & Hadds & Hdirs & Hfiles & Hgi)].
  - destruct (create_directories_fails_again _ _ _ _ w0' Hrun) as (w3 & -> & Hfs); done.
  - assert (Hdirs' : ∀ d, d ∈ directories → stat (fs w0') (parts d) = Some Dir).
    { intros d Hd. specialize (Hdirs d Hd). simpl.
      destruct Hgi as [(_ & -> & _)|(Hne & -> & _)]; [done|].
      rewrite stat_ne_nil in Hdirs |- * by by apply directories_ne_nil.
      rewrite lookup_insert_ne; [done|]. intros Heq. apply Hne. by rewrite Heq. }
    assert (Hfiles' : ∀ f, f ∈ files → is_Some (stat (fs w0') (parts f))).
    { intros f Hf. specialize (Hfiles f Hf). simpl.
      destruct Hgi as [(_ & -> & _)|(Hne & -> & _)]; [done|].
      rewrite stat_ne_nil in Hfiles |- * by by apply files_ne_nil.
      rewrite lookup_insert_ne; [done|]. intros Heq.
      by eapply files_not_gitignore. }
    destruct (create_directories_again directories w0' Hdirs') as (w1 & -> & Hfs1).
    rewrite create_files_again by (by rewrite Hfs1).
    rewrite Path_write_text_top, Hfs1. simpl.
    destruct Hgi as [(Hd & Hw' & _)|(Hne & Hw' & _)]; rewrite Hw'.
    + rewrite Hd. simpl. by rewrite Hfs1.
    + rewrite lookup_insert_eq. simpl. by rewrite insert_insert_eq.
Qed.

(** * The claims *)

(** Membership in a list that is written out. *)
Ltac in_list := apply (bool_decide_unpack _); vm_compute; exact I.

Lemma plan_unobstructed_spec t :
  plan_unobstructed t = true →
  (∀ d c, d ∈ directories → stat t (parts d) ≠ Some (File c)) ∧
  (∀ f, f ∈ files → stat t (parts f) ≠ Some Dir).
Proof.
  unfold plan_unobstructed. rewrite andb_true_iff, !forallb_forall.
  intros [Hd Hf]. split.
  - intros d c Hin Hs. apply list_elem_of_In, Hd in Hin. by rewrite Hs in Hin.
  - intros f Hin Hs. apply list_elem_of_In, Hf in Hin. by rewrite Hs in Hin.
Qed.

(** C6, as stated, fails: with a regular file in the place of the
    planned directory [src], the stage ends in an error at its first
    [mkdir] and [src] is no directory afterwards. *)
Lemma scaffolding_obstructed :
  "src" ∈ directories ∧
  (create_project_structure init obstructed_world).1 = Raise (OSError EEXIST "src") ∧
  fs (create_project_structure init obstructed_world).2 !! parts "src"
  = Some (File "not a directory").
Proof. split; [by left|]. split; vm_compute; reflexivity. Qed.

(** C6, amended: from a tree in which no planned directory is taken by
    a regular file and no planned file by a directory, the scaffolding
    stage leaves each of the 17 planned directories, and each directory
    on the way to one, a directory, and each of the 16 planned files a
    regular file; a planned directory that was there before keeps every
    entry it had, unchanged. *)
Theorem scaffolding_creates_the_plan w :
  plan_unobstructed (fs w) = true →
  let w' := (create_project_structure init w).2 in
  length directories = 17 ∧ length files = 16 ∧
  (∀ d q, d ∈ directories → q ≠ [] → q `prefix_of` parts d → fs w' !! q = Some Dir) ∧
  (∀ f, f ∈ files → ∃ c, fs w' !! parts f = Some (File c)) ∧
  (∀ d q n, d ∈ directories → fs w !! parts d = Some Dir → parts d `prefix_of` q →
            fs w !! q = Some n → fs w' !! q = Some n).
Proof.
  intros [Hnofile Hnodir]%plan_unobstructed_spec w'.
  split; [done|]. split; [done|].
  assert (Hkeep : ∀ d q n, d ∈ directories → parts d `prefix_of` q →
            fs w !! q = Some n → fs w' !! q = Some n).
  { intros d q n Hd Hpre Hq. apply create_project_structure_keeps; [|done].
    intros ->. pose proof (directories_ne_nil d Hd) as Hne.
    destruct Hpre as [k Hk]. destruct (parts d) as [|x [|y p]] eqn:Hp; [done| |done].
    simplify_eq/=. by eapply (directories_not_gitignore d (parts d)); [|done|]. }
  split; [|split]; [| |by eauto].
  all: subst w'; destruct (create_project_structure_spec w) as (r & w' & -> & Hcases);
    simpl; destruct Hcases as [(e & _ & Hrun & _)|(t2 & Hadds & Hdirs & Hfiles & Hgi)].
  all: try (exfalso;
    destruct (create_directories_Ok directories
                (mkWorld (fs w) (stdout w ++ [nl +:+ "[2/6] Creating project structure..."])))
      as (w1 & Hok & _); [|congruence];
    intros d q c Hd Hq; simpl;
    apply directories_prefix_closed in Hq; [|done];
    apply elem_of_cons in Hq as [->|(d' & -> & Hd')%list_elem_of_fmap]; [done|];
    by apply Hnofile).
  - (* directories *)
    intros d q Hd Hne Hq.
    pose proof (directories_not_gitignore d q Hd Hq) as Hngi.
    apply directories_prefix_closed in Hq; [|done].
    apply elem_of_cons in Hq as [->|(d' & -> & Hd')%list_elem_of_fmap]; [done|].
    specialize (Hdirs d' Hd'). rewrite stat_ne_nil in Hdirs by done.
    destruct Hgi as [(_ & -> & _)|(_ & -> & _)]; [done|].
    by rewrite lookup_insert_ne.
  - (* files *)
    intros f Hf. destruct (Hfiles f Hf) as [n Hn].
    rewrite stat_ne_nil in Hn by by apply files_ne_nil.
    assert (∃ c, n = File c) as [c ->].
    { destruct n as [|c]; [|by exists c]. exfalso.
      destruct (fs w !! parts f) as [n0|] eqn:H0.
      - rewrite (adds_lookup_Some _ _ _ _ _ Hadds H0) in Hn. simplify_eq.
        apply (Hnodir f Hf). by rewrite stat_ne_nil by by apply files_ne_nil.
      - destruct (proj2 Hadds _ _ Hn H0) as [[_ (d & Hd & Hpre)]|[? _]]; [|done].
        by eapply files_not_prefix. }
    exists c. destruct Hgi as [(_ & -> & _)|(_ & -> & _)]; [done|].
    rewrite lookup_insert_ne; [done|]. intros Heq. by eapply files_not_gitignore.
Qed.

Lemma scaffolding_creates_the_plan_witness :
  fs (create_project_structure init src_world).2 !! ["src"; "core"] = Some Dir ∧
  fs (create_project_structure init src_world).2 !! ["src"; "old.py"]
  = Some (File "print('kept')").
Proof.
  assert (H : plan_unobstructed (fs src_world) = true) by (vm_compute; reflexivity).
  destruct (scaffolding_creates_the_plan src_world H) as (_ & _ & Hd & _ & Hk).
  split.
  - apply (Hd "src/core"); [in_list | done | done].
  - apply (Hk "src"); [in_list | vm_compute; reflexivity
                      | by exists ["old.py"] | vm_compute; reflexivity].
Defined.

(** C7: a planned file that exists keeps its content, whatever it is,
    when the scaffolding stage runs; a planned file that appears was
    missing before and is empty; a second run of the stage leaves every
    planned file as the first run left it. *)
Theorem placeholders_are_never_overwritten w f :
  f ∈ files →
  let w1 := (create_project_structure init w).2 in
  let w2 := (create_project_structure init w1).2 in
  (∀ c, fs w !! parts f = Some (File c) → fs w1 !! parts f = Some (File c)) ∧
  (∀ n, fs w !! parts f = None → fs w1 !! parts f = Some n → n = File "") ∧
  fs w2 !! parts f = fs w1 !! parts f.
Proof.
  intros Hf w1 w2. split; [|split].
  - intros c Hc. apply create_project_structure_keeps; [|done].
    by apply files_not_gitignore.
  - intros n H0 H1.
    destruct (create_project_structure_new w _ _ H0 H1)
      as [[[_ (d & Hd & Hpre)]|[-> _]]|[Hgi _]]; [|done|].
    + by destruct (files_not_prefix f d).
    + by destruct (files_not_gitignore f).
  - subst w2 w1. by rewrite create_project_structure_twice.
Qed.

Lemma placeholders_are_never_overwritten_witness :
  fs (create_project_structure init changelog_world).2 !! ["CHANGELOG.md"]
  = Some (File "custom text").
Proof.
  assert (Hf : "CHANGELOG.md" ∈ files) by in_list.
  destruct (placeholders_are_never_overwritten changelog_world "CHANGELOG.md" Hf)
    as (Hkeep & _ & _).
  apply Hkeep. vm_compute. reflexivity.
Defined.

(** ** The launcher *)

(** An f-string neither prints nor touches the tree. *)
Lemma fstring_run self ls ps w :
  fstring self ls ps w = ((fstring self ls ps (mkWorld ∅ [])).1, w).
Proof.
  revert w. induction ps as [|[s|o a] ps IH]; intros w; simpl; [done| |].
  - rewrite !bind_unfold, (IH w), (IH (mkWorld ∅ [])).
    by destruct (fstring self ls ps (mkWorld ∅ [])).1.
  - rewrite !bind_unfold. unfold load_name. case_bool_decide; [|done].
    unfold ret at 1 3.
    destruct (if decide (o = "self") then _ else _); [|done].
    rewrite !bind_unfold, (IH w), (IH (mkWorld ∅ [])).
    by destruct (fstring self ls ps (mkWorld ∅ [])).1.
Qed.

Lemma run_py_template_eval :
  (fstring init create_main_files_locals run_py_template (mkWorld ∅ [])).1
  = Ok launcher_body.
Proof. vm_compute. reflexivity. Qed.

Lemma cleanup_py_template_eval :
  (fstring init create_main_files_locals cleanup_py_template (mkWorld ∅ [])).1
  = Raise (NameError "dir_path").
Proof. vm_compute. reflexivity. Qed.

(** The main-files stage: it writes the launcher, unless a directory is
    in its place, and then fails on the template of the cleanup script,
    whose first field names [dir_path], which is bound nowhere. *)
Lemma create_main_files_run w :
  create_main_files init w =
  let w0 := mkWorld (fs w) (stdout w ++ [nl +:+ "[5/6] Creating main application files..."]) in
  match fs w !! ["run.py"] with
  | Some Dir => (Raise (OSError EISDIR "run.py"), w0)
  | _ => (Raise (NameError "dir_path"),
          mkWorld (<[["run.py"] := File launcher_text]> (fs w))
                  (stdout w0 ++ ["  📄 Created: run.py"]))
  end.
Proof.
  unfold create_main_files. rewrite bind_unfold, print_run.
  rewrite bind_unfold, fstring_run, run_py_template_eval.
  cbv beta iota zeta. rewrite bind_unfold.
  change (base_dir init // "run.py") with ["run.py"].
  rewrite Path_write_text_top. simpl fs.
  destruct (fs w !! ["run.py"]) as [[|c]|]; [done| |].
  all: rewrite bind_unfold, print_run, bind_unfold, fstring_run;
    rewrite cleanup_py_template_eval; reflexivity.
Qed.

(** C10: the launcher the main-files stage writes imports [main] from
    [src.app.main], while nothing the two plans name lies in [src/app],
    and the scaffolding stage creates nothing there: in a tree that had
    no [src/app] before, the import target is missing after it. *)
Theorem launcher_imports_a_module_nobody_creates w :
  fs w !! ["run.py"] ≠ Some Dir →
  (∀ q, ["src"; "app"] `prefix_of` q → fs w !! q = None) →
  (∃ text, fs (create_main_files init w).2 !! ["run.py"] = Some (File text) ∧
           "from src.app.main import main" ∈ split "010"%char text) ∧
  (∀ x, x ∈ directories ++ files → ¬ ["src"; "app"] `prefix_of` parts x) ∧
  (∀ q, ["src"; "app"] `prefix_of` q →
        fs (create_project_structure init w).2 !! q = None).
Proof.
  intros Hrun Hfresh.
  assert (Hplan : ∀ x, x ∈ directories ++ files → ¬ ["src"; "app"] `prefix_of` parts x).
  { apply Forall_forall. apply (bool_decide_unpack _). vm_compute. exact I. }
  split; [|split; [done|]].
  - exists launcher_text. rewrite create_main_files_run. cbv zeta. split.
    + destruct (fs w !! ["run.py"]) as [[|c]|]; [done|..]; apply lookup_insert_eq.
    + in_list.
  - intros q Hq.
    destruct (fs (create_project_structure init w).2 !! q) as [n|] eqn:Hn; [|done].
    exfalso.
    destruct (create_project_structure_new w q n (Hfresh q Hq) Hn)
      as [[[_ (d & Hd & Hpre)]|[_ (f & Hf & ->)]]|[-> _]].
    + apply (Hplan d); [apply elem_of_app; by left|]. by etrans.
    + apply (Hplan f); [apply elem_of_app; by right|done].
    + apply prefix_length in Hq. simpl in Hq. lia.
Qed.

Lemma launcher_imports_a_module_nobody_creates_witness :
  fs (create_project_structure init empty_world).2 !! ["src"; "app"; "main.py"] = None.
Proof.
  assert (H1 : fs empty_world !! ["run.py"] ≠ Some Dir) by (vm_compute; congruence).
  assert (H2 : ∀ q, ["src"; "app"] `prefix_of` q → fs empty_world !! q = None)
    by (intros q _; apply lookup_empty).
  destruct (launcher_imports_a_module_nobody_creates empty_world H1 H2) as (_ & _ & H).
  apply H. by exists ["main.py"].
Defined.

(** C9: the cleanup script is never generated.  The main-files stage
    ends in an error for every tree: with [NameError] for [dir_path]
    once [run.py] is written, the template of the script being an
    f-string with the field [{dir_path.name}]; and it leaves whatever
    was at [cleanup.py] as it was. *)
Theorem cleanup_script_is_never_generated w :
  (create_main_files init w).1
  = match fs w !! ["run.py"] with
    | Some Dir => Raise (OSError EISDIR "run.py")
    | _ => Raise (NameError "dir_path")
    end ∧
  fs (create_main_files init w).2 !! ["cleanup.py"] = fs w !! ["cleanup.py"].
Proof.
  rewrite create_main_files_run. cbv zeta.
  destruct (fs w !! ["run.py"]) as [[|c]|]; (split; [done|]); simpl; try done.
  all: by rewrite lookup_insert_ne.
Qed.

Lemma load_name_unbound ls n :
  n ∉ ls ++ module_globals → load_name ls n = raise (NameError n).
Proof. intros Hn. unfold load_name. by rewrite bool_decide_eq_false_2. Qed.

(** Neither the stage nor the module binds the name [json]. *)
Lemma json_is_unbound : "json" ∉ create_config_files_locals ++ module_globals.
Proof. apply (bool_decide_unpack _). vm_compute. exact I. Qed.

(** C3: the configuration stage writes nothing.  The name [json] is
    bound nowhere in the script, so for every tree, and whatever the
    attributes of [self], the stage ends with [NameError] at its first
    [json.dumps], after its headline, and leaves the tree as it was. *)
Theorem settings_are_never_written self w :
  create_config_files self w
  = (Raise (NameError "json"),
     mkWorld (fs w) (stdout w ++ [nl +:+ "[3/6] Creating configuration files..."])).
Proof.
  unfold create_config_files. rewrite bind_unfold, print_run. cbv zeta.
  rewrite bind_unfold, (load_name_unbound _ _ json_is_unbound).
  reflexivity.
Qed.

(** ** The install stage *)

(** All the ways the install stage can go. *)
Lemma install_dependencies_run h w :
  install_dependencies h init w =
  let w0 := mkWorld (fs w) (stdout w ++ [nl +:+ "[4/6] Installing dependencies..."]) in
  match fs w !! ["requirements.txt"] with
  | Some Dir => (Raise (OSError EISDIR "requirements.txt"), w0)
  | _ =>
      let t1 := <[["requirements.txt"] := File req_content]> (fs w) in
      match spawn h (pip_install_cmd h) with
      | Exited 0 =>
          (Ok tt, mkWorld t1 (stdout w0 ++ ["✅ Dependencies installed successfully!"]))
      | Exited rc =>
          (Ok tt, mkWorld t1
                    (stdout w0
                     ++ ["❌ Failed to install dependencies: "
                         +:+ CalledProcessError_str rc (pip_install_cmd h);
                         "Please install manually: pip install -r requirements.txt"]))
      | SpawnError e => (Raise (OSError e (sys_executable h)), mkWorld t1 (stdout w0))
      end
  end.
Proof.
  unfold install_dependencies. rewrite bind_unfold, print_run. cbv zeta.
  rewrite bind_unfold.
  change (base_dir init // "requirements.txt") with ["requirements.txt"].
  rewrite Path_write_text_top. simpl fs.
  destruct (fs w !! ["requirements.txt"]) as [[|c]|]; [done|..].
  all: unfold try_except_CalledProcessError, subprocess_check_call;
    rewrite bind_unfold;
    destruct (spawn h (pip_install_cmd h)) as [[|rc]|e];
    unfold bind, print, raise, ret; simpl; rewrite <-?app_assoc; reflexivity.
Qed.

(** C8: whenever the install stage gets to write the manifest, that is,
    unless a directory is in its place, [requirements.txt] holds
    exactly the eight specifiers, one per line, in the order of the
    specification, none twice; this does not depend on what the package
    installer does afterwards. *)
Theorem manifest_lists_the_eight_specifiers h w :
  fs w !! ["requirements.txt"] ≠ Some Dir →
  fs (install_dependencies h init w).2 !! ["requirements.txt"] = Some (File req_content) ∧
  req_content = join nl (requirements init) ∧
  split "010"%char req_content
  = ["requests>=2.31.0"; "colorama>=0.4.6"; "tqdm>=4.66.1"; "pandas>=2.0.3";
     "openpyxl>=3.1.2"; "python-dotenv>=1.0.0"; "PyInquirer>=1.0.3";
     "tabulate>=0.9.0"] ∧
  NoDup (split "010"%char req_content).
Proof.
  intros Hreq. split; [|split; [done|split]].
  - rewrite install_dependencies_run. cbv zeta.
    destruct (fs w !! ["requirements.txt"]) as [[|c]|]; [done|..].
    all: destruct (spawn h (pip_install_cmd h)) as [[|rc]|e]; apply lookup_insert_eq.
  - vm_compute. reflexivity.
  - apply (bool_decide_unpack _). vm_compute. exact I.
Qed.

Lemma manifest_lists_the_eight_specifiers_witness :
  fs (install_dependencies host_3_8 init empty_world).2 !! ["requirements.txt"]
  = Some (File req_content).
Proof.
  assert (H : fs empty_world !! ["requirements.txt"] ≠ Some Dir)
    by (vm_compute; congruence).
  exact (proj1 (manifest_lists_the_eight_specifiers host_3_8 empty_world H)).
Defined.

(** C2, as stated, fails: when the installer cannot be invoked the
    stage ends with the error of [subprocess], unhandled; nothing is
    printed about it, and a stage sequenced after it does not start. *)
Lemma install_spawn_error_is_not_handled :
  (install_dependencies host_no_spawn init empty_world).1
  = Raise (OSError ENOENT "/usr/bin/python3") ∧
  (install_hint ∉ stdout (install_dependencies host_no_spawn init empty_world).2) ∧
  (install_dependencies host_no_spawn init ;;; create_main_files init) empty_world
  = install_dependencies host_no_spawn init empty_world.
Proof.
  split; [vm_compute; reflexivity|]. split; [|vm_compute; reflexivity].
  apply (bool_decide_unpack _). vm_compute. exact I.
Qed.

(** C2, amended: when the manifest is written and the installer exits
    with a status other than 0, the install stage prints the error with
    the text of the exception and then the hint, and returns normally:
    whatever the run sequences after it, stages [k], starts in the
    world the stage leaves. *)
Theorem install_failure_is_reported_only h w rc {B} (k : M B) :
  fs w !! ["requirements.txt"] ≠ Some Dir →
  spawn h (pip_install_cmd h) = Exited rc → rc ≠ 0%N →
  let w' := mkWorld (<[["requirements.txt"] := File req_content]> (fs w))
              (stdout w ++ [nl +:+ "[4/6] Installing dependencies...";
                            "❌ Failed to install dependencies: "
                            +:+ CalledProcessError_str rc (pip_install_cmd h);
                            install_hint]) in
  install_dependencies h init w = (Ok tt, w') ∧
  (install_dependencies h init ;;; k) w = k w'.
Proof.
  intros Hreq Hspawn Hrc w'.
  assert (Hrun : install_dependencies h init w = (Ok tt, w')).
  { rewrite install_dependencies_run, Hspawn. cbv zeta.
    destruct (fs w !! ["requirements.txt"]) as [[|c]|]; [done|..];
      destruct rc; try done; subst w'; simpl; rewrite <-?app_assoc; reflexivity. }
  split; [done|]. by rewrite bind_unfold, Hrun.
Qed.

Lemma install_failure_is_reported_only_witness :
  (install_dependencies host_pip_fails init empty_world).1 = Ok tt.
Proof.
  assert (H1 : fs empty_world !! ["requirements.txt"] ≠ Some Dir)
    by (vm_compute; congruence).
  assert (H2 : spawn host_pip_fails (pip_install_cmd host_pip_fails) = Exited 1)
    by reflexivity.
  assert (H3 : 1%N ≠ 0%N) by lia.
  destruct (install_failure_is_reported_only host_pip_fails empty_world 1
              (create_main_files init) H1 H2 H3) as [H _].
  by rewrite H.
Defined.

(** ** The version check *)

Lemma tuple_lt_3_7 v : tuple_lt (as_tuple v) [3; 7]%Z = true ↔ below_3_7 v.
Proof.
  unfold below_3_7, as_tuple. simpl.
  repeat case_match; rewrite ?Z.ltb_lt, ?Z.ltb_ge in *; split; (done || lia).
Qed.

Lemma print_banner_run w :
  print_banner init w = (Ok tt, mkWorld (fs w) (stdout w ++ [banner_text])).
Proof.
  unfold print_banner. rewrite bind_unfold, fstring_run.
  by vm_compute (fstring _ _ _ _).1.
Qed.

Lemma check_python_version_run h w :
  check_python_version h init w =
  let w0 := mkWorld (fs w) (stdout w ++ ["[1/6] Checking Python version..."]) in
  if tuple_lt (as_tuple (sys_version_info h)) [3; 7]%Z then
    (Raise (SystemExit 1),
     mkWorld (fs w) (stdout w0 ++ ["❌ Python 3.7 or higher is required!"]))
  else
    (Ok tt, mkWorld (fs w) (stdout w0 ++ [detected_line (sys_version_info h)])).
Proof.
  unfold check_python_version. rewrite bind_unfold, print_run, bind_unfold.
  by destruct (tuple_lt _ _).
Qed.

(** C1: on an interpreter below 3.7 the run, which opens with the
    banner and the version check, ends there with [sys.exit(1)], exit
    status 1, whatever stages [k] were to follow, and the tree is as it
    was found: nothing has been created.  On an interpreter at or above
    3.7 the version check returns normally, having printed its headline
    and the confirmation with the version it found. *)
Theorem version_check_is_the_gate h w {A} (k : M A) :
  (below_3_7 (sys_version_info h) →
     let r := (print_banner init ;;; check_python_version h init ;;; k) w in
     r.1 = Raise (SystemExit 1) ∧ exit_status r.1 = 1%Z ∧ fs r.2 = fs w) ∧
  (¬ below_3_7 (sys_version_info h) →
     check_python_version h init w
     = (Ok tt, mkWorld (fs w)
                 (stdout w ++ ["[1/6] Checking Python version...";
                               detected_line (sys_version_info h)]))).
Proof.
  split; intros Hv.
  - apply tuple_lt_3_7 in Hv. cbv zeta.
    rewrite bind_unfold, print_banner_run, bind_unfold.
    by rewrite check_python_version_run, Hv.
  - rewrite check_python_version_run. cbv zeta.
    destruct (tuple_lt _ _) eqn:Hlt; [by apply tuple_lt_3_7 in Hlt|].
    simpl. by rewrite <-app_assoc.
Qed.

Lemma version_check_is_the_gate_witness :
  (exit_status (run host_3_6 "" init empty_world).1 = 1%Z ∧
   fs (run host_3_6 "" init empty_world).2 = fs empty_world) ∧
  (check_python_version host_3_8 init empty_world).1 = Ok tt.
Proof.
  assert (H6 : below_3_7 (sys_version_info host_3_6)) by (right; simpl; lia).
  assert (H8 : ¬ below_3_7 (sys_version_info host_3_8))
    by (unfold below_3_7; simpl; lia).
  split.
  - exact (proj2 (proj1 (version_check_is_the_gate host_3_6 empty_world
                           (create_project_structure init ;;;
                            create_config_files init ;;;
                            install_dependencies host_3_6 init ;;;
                            create_main_files init ;;;
                            create_documentation "" init)) H6)).
  - by rewrite (proj2 (version_check_is_the_gate host_3_8 empty_world (ret tt)) H8).
Defined.

(** ** The templated files *)

(** C4: the templated files are not all rewritten.  For every tree,
    the configuration stage leaves the tree as it found it (it ends with
    [NameError] for [json] before its first write), so both
    configuration files and the environment template keep what they
    held; and the main-files stage leaves [cleanup.py] as it found it
    (C9).  On a tree where the four files hold old text, they hold it
    after their stages. *)
Theorem templated_files_are_not_all_rewritten w :
  fs (create_config_files init w).2 = fs w ∧
  fs (create_main_files init w).2 !! ["cleanup.py"] = fs w !! ["cleanup.py"] ∧
  fs (create_config_files init stale_world).2 !! ["config"; "settings.json"]
  = Some (File "old settings") ∧
  fs (create_config_files init stale_world).2 !! ["config"; "api_config.json"]
  = Some (File "old endpoints") ∧
  fs (create_config_files init stale_world).2 !! [".env.example"]
  = Some (File "OLD=1") ∧
  fs (create_main_files init stale_world).2 !! ["cleanup.py"]
  = Some (File "# old cleanup").
Proof.
  split; [done|]. split.
  - rewrite create_main_files_run. cbv zeta.
    destruct (fs w !! ["run.py"]) as [[|c]|]; simpl; try done.
    all: by rewrite lookup_insert_ne.
  - repeat split; vm_compute; reflexivity.
Qed.

(** On a freshly scaffolded tree the two stages leave the empty
    placeholders: a settings file that is no JSON document, and a
    cleanup script that does nothing. *)
Lemma placeholders_stay_empty :
  let w1 := (create_project_structure init empty_world).2 in
  fs w1 !! ["config"; "settings.json"] = Some (File "") ∧
  fs (create_config_files init w1).2 !! ["config"; "settings.json"] = Some (File "") ∧
  json_loads "" = None ∧
  fs (create_main_files init w1).2 !! ["cleanup.py"] = Some (File "").
Proof. vm_compute. repeat split. Qed.

(** In a run the defect of the configuration stage comes first: on a
    host with Python 3.8 and a working [pip], from a tree that holds a
    [run.py] of its own, the run ends in the configuration stage; the
    ignore file has its content, the launcher is the old one, and the
    other templated files are the empty placeholders of the scaffolding
    stage. *)
Lemma run_ends_in_the_configuration_stage o :
  let r := run host_3_8 o init seeded_world in
  r.1 = Raise (NameError "json") ∧
  fs r.2 !! [".gitignore"] = Some (File gitignore_content) ∧
  fs r.2 !! ["run.py"] = Some (File "# my own launcher") ∧
  fs r.2 !! ["config"; "settings.json"] = Some (File "") ∧
  fs r.2 !! ["config"; "api_config.json"] = Some (File "") ∧
  fs r.2 !! [".env.example"] = Some (File "") ∧
  fs r.2 !! ["requirements.txt"] = Some (File "") ∧
  fs r.2 !! ["cleanup.py"] = Some (File "") ∧
  fs r.2 !! ["README.md"] = Some (File "").
Proof. vm_compute. repeat split. Qed.

(** ** The order of the stages *)

Global Instance keeps_paths_preorder : PreOrder keeps_paths.
Proof. split; [by intros t q|]. intros t1 t2 t3 H12 H23 q Hq. by apply H23, H12. Qed.

Lemma quiet_ret {A} (a : A) : quiet (ret a).
Proof. intros w. exists []. by rewrite app_nil_r. Qed.

Lemma quiet_raise {A} e : quiet (@raise A e).
Proof. intros w. exists []. by rewrite app_nil_r. Qed.

Lemma quiet_print s : stage_of_line s = None → quiet (print s).
Proof. intros Hs w. exists [s]. split; [done|]. unfold stages_started. simpl. by rewrite Hs. Qed.

Lemma quiet_bind {A B} (m : M A) (k : A → M B) :
  quiet m → (∀ a, quiet (k a)) → quiet (bind m k).
Proof.
  intros Hm Hk w. rewrite bind_unfold. destruct (Hm w) as (ls1 & H1 & T1).
  destruct (m w) as [[a|e] w1]; simpl in *; [|by exists ls1].
  destruct (Hk a w1) as (ls2 & H2 & T2). exists (ls1 ++ ls2). split.
  - by rewrite H2, H1, app_assoc.
  - unfold stages_started in *. by rewrite omap_app, T1, T2.
Qed.

Lemma quiet_for {A} (xs : list A) (body : A → M unit) :
  (∀ x, quiet (body x)) → quiet (for_ xs body).
Proof.
  intros Hb. induction xs as [|x xs IH]; simpl; [apply quiet_ret|].
  by apply quiet_bind.
Qed.

Lemma quiet_fs_only {A} (m : M A) : fs_only m → quiet m.
Proof.
  intros Hm w. exists []. rewrite (fs_only_run m w Hm). by rewrite app_nil_r.
Qed.

Lemma quiet_load_name ls n : quiet (load_name ls n).
Proof. unfold load_name. case_bool_decide; [apply quiet_ret | apply quiet_raise]. Qed.

Lemma quiet_fstring self ls ps : quiet (fstring self ls ps).
Proof. intros w. exists []. by rewrite fstring_run, app_nil_r. Qed.

Lemma quiet_subprocess_check_call h cmd : quiet (subprocess_check_call h cmd).
Proof.
  unfold subprocess_check_call.
  destruct (spawn h cmd) as [[|rc]|e]; [apply quiet_ret | apply quiet_raise..].
Qed.

Lemma quiet_try_except_CalledProcessError {A} (m : M A) h :
  quiet m → (∀ rc cmd, quiet (h rc cmd)) → quiet (try_except_CalledProcessError m h).
Proof.
  intros Hm Hh w. unfold try_except_CalledProcessError.
  destruct (Hm w) as (ls1 & H1 & T1).
  destruct (m w) as [[a|e] w1]; simpl in *; [by exists ls1|].
  destruct e; try by exists ls1.
  destruct (Hh returncode cmd w1) as (ls2 & H2 & T2). exists (ls1 ++ ls2). split.
  - by rewrite H2, H1, app_assoc.
  - unfold stages_started in *. by rewrite omap_app, T1, T2.
Qed.

Lemma starts_headline {A} st s (m : M A) :
  stage_of_line s = Some st → quiet m → starts [st] (print s ;;; m).
Proof.
  intros Hs Hm w. rewrite bind_unfold, print_run.
  destruct (Hm (mkWorld (fs w) (stdout w ++ [s]))) as (ls & H & T).
  exists (s :: ls). split; [by rewrite H; simpl; rewrite <-app_assoc|].
  unfold stages_started in *. simpl. rewrite Hs.
  change (list_omap _ _ stage_of_line ls) with (omap stage_of_line ls).
  by rewrite T.
Qed.

Lemma starts_bind {A B} t1 t2 (m : M A) (k : A → M B) :
  starts t1 m → (∀ a, starts t2 (k a)) → starts (t1 ++ t2) (bind m k).
Proof.
  intros Hm Hk w. rewrite bind_unfold. destruct (Hm w) as (ls1 & H1 & P1 & T1).
  destruct (m w) as [[a|e] w1]; simpl in *.
  - destruct (Hk a w1) as (ls2 & H2 & P2 & T2). exists (ls1 ++ ls2).
    split; [by rewrite H2, H1, app_assoc|].
    unfold stages_started in *. rewrite omap_app, (T1 a) by done. split.
    + by apply prefix_app.
    + intros b Hb. by rewrite (T2 b).
  - exists ls1. split; [done|]. split; [|done].
    etrans; [exact P1|]. by apply prefix_app_r.
Qed.

Lemma fs_only_Path_mkdir parents exist_ok p : fs_only (Path_mkdir parents exist_ok p).
Proof. apply fs_only_Path_mkdir_go. Qed.

Lemma fs_only_Path_write_text p data : fs_only (Path_write_text p data).
Proof. apply fs_only_os_open_write. Qed.

Ltac quiet_tac :=
  repeat first
    [ apply quiet_ret | apply quiet_raise | apply quiet_load_name
    | apply quiet_fstring | apply quiet_subprocess_check_call
    | apply quiet_print; vm_compute; reflexivity
    | apply quiet_fs_only;
      first [ apply fs_only_Path_mkdir | apply fs_only_Path_write_text
            | apply fs_only_Path_exists | apply fs_only_Path_touch ]
    | apply quiet_for; intros ?
    | apply quiet_try_except_CalledProcessError; [|intros ? ?]
    | apply quiet_bind; [|intros ?]
    | match goal with |- quiet (if ?c then _ else _) => destruct c end
    | progress cbv zeta ].

Lemma starts_print_banner : starts [Banner] (print_banner init).
Proof.
  intros w. rewrite print_banner_run. exists [banner_text]. split; [done|].
  by vm_compute (stages_started _).
Qed.

Lemma starts_check_python_version h : starts [VersionCheck] (check_python_version h init).
Proof.
  apply starts_headline; [vm_compute; reflexivity|]. quiet_tac.
Qed.

Lemma starts_create_project_structure : starts [Structure] (create_project_structure init).
Proof.
  apply starts_headline; [vm_compute; reflexivity|].
  unfold create_directories, create_files. quiet_tac.
Qed.

Lemma starts_create_config_files : starts [Configuration] (create_config_files init).
Proof. apply starts_headline; [vm_compute; reflexivity|]. quiet_tac. Qed.

Lemma starts_install_dependencies h : starts [Dependencies] (install_dependencies h init).
Proof. apply starts_headline; [vm_compute; reflexivity|]. quiet_tac. Qed.

Lemma starts_create_main_files : starts [MainFiles] (create_main_files init).
Proof. apply starts_headline; [vm_compute; reflexivity|]. quiet_tac. Qed.

Lemma starts_create_documentation o : starts [Documentation] (create_documentation o init).
Proof. apply starts_headline; [vm_compute; reflexivity|]. quiet_tac. Qed.

Lemma starts_run h o : starts seven_stages (run h o init).
Proof.
  unfold run.
  apply (starts_bind [Banner]); [apply starts_print_banner|intros _].
  apply (starts_bind [VersionCheck]); [apply starts_check_python_version|intros _].
  apply (starts_bind [Structure]); [apply starts_create_project_structure|intros _].
  apply (starts_bind [Configuration]); [apply starts_create_config_files|intros _].
  apply (starts_bind [Dependencies]); [apply starts_install_dependencies|intros _].
  apply (starts_bind [MainFiles] [Documentation]); [apply starts_create_main_files|intros _].
  apply starts_create_documentation.
Qed.

(** *** Nothing is taken back *)






















(** ** Reading the settings back *)

(** The text [json.dumps] gives for the settings reads back as the
    settings document, with the version of the installer in it: had the
    name [json] been bound, the configuration stage would have written
    what C3 says. *)
Lemma settings_round_trip :
  json_loads (json_dumps 2 (settings_document init)) = Some (settings_document init) ∧
  (json_get "app" (settings_document init) ≫= json_get "version") = Some (JStr "5.0.0").
Proof. split; vm_compute; reflexivity. Qed.

Lemma api_config_round_trip :
  json_loads (json_dumps 2 api_config_document) = Some api_config_document.
Proof. vm_compute. reflexivity. Qed.

(** ** The cleanup script, as its template spells it out *)

Lemma lookup_rmtree (p : list string) (t : gmap (list string) node) (q : list string) :
  filter (λ kv : list string * node, ¬ p `prefix_of` kv.1) t !! q
  = if bool_decide (p `prefix_of` q) then None else t !! q.
Proof.
  case_bool_decide as Hp.
  - apply map_lookup_filter_None_2. right. intros x _ Hn. by apply Hn.
  - destruct (t !! q) as [n|] eqn:Hq.
    + by apply map_lookup_filter_Some_2.
    + apply map_lookup_filter_None_2. by left.
Qed.

Lemma unlink_all (L : list (list string)) w :
  NoDup L → (∀ k, k ∈ L → ∃ c, stat (fs w) k = Some (File c)) →
  ∃ w', for_ L (λ file, Path_unlink file) w = (Ok tt, w') ∧
        stdout w' = stdout w ∧
        ∀ q, fs w' !! q = if bool_decide (q ∈ L) then None else fs w !! q.
Proof.
  revert w. induction L as [|k L IH]; intros w Hnd Hfiles.
  { exists w. split; [done|]. split; [done|]. intros q.
    by rewrite bool_decide_eq_false_2 by apply not_elem_of_nil. }
  apply NoDup_cons in Hnd as [Hk Hnd].
  destruct (Hfiles k) as [c Hc]; [left|].
  pose proof (stat_File_ne_nil _ _ _ Hc) as Hkne.
  destruct (IH (set_fs (delete k (fs w)) w) Hnd) as (w' & Hrun & Hout & Hlook).
  { intros k' Hk'. destruct (Hfiles k') as [c' Hc']; [by right|]. exists c'.
    pose proof (stat_File_ne_nil _ _ _ Hc') as Hne.
    rewrite stat_ne_nil in Hc' |- * by done. simpl.
    rewrite lookup_delete_ne; [done|]. by intros ->. }
  exists w'. split; [|split; [done|]].
  - simpl. rewrite bind_unfold. unfold Path_unlink at 1. by rewrite Hc.
  - intros q. rewrite Hlook. simpl.
    destruct (decide (q = k)) as [->|Hqk].
    + rewrite lookup_delete_eq, (bool_decide_eq_true_2 (k ∈ k :: L)) by left.
      by case_bool_decide.
    + rewrite lookup_delete_ne by done.
      destruct (decide (q ∈ L)) as [Hq|Hq].
      * by rewrite !bool_decide_eq_true_2 by (done || by right).
      * rewrite !bool_decide_eq_false_2; [done| |done].
        by intros [?|?]%elem_of_cons.
Qed.

Lemma Path_glob_spec d pat w :
  ∃ L, Path_glob d pat w = (Ok L, w) ∧ NoDup L ∧
       ∀ k, k ∈ L ↔ (k ≠ [] ∧ parent k = d ∧ fnmatch pat (Path_name k) = true)
                    ∧ is_Some (fs w !! k).
Proof.
  eexists. split; [reflexivity|]. split.
  - apply NoDup_filter, NoDup_fst_map_to_list.
  - intros k. rewrite list_elem_of_filter, list_elem_of_fmap.
    split; intros [HP Hk]; (split; [done|]).
    + destruct Hk as ([k' n] & -> & Hin). apply elem_of_map_to_list in Hin. by exists n.
    + destruct Hk as [n Hn]. exists (k, n). split; [done|]. by apply elem_of_map_to_list.
Qed.

Lemma cleanup_unfold :
  cleanup =
  (print "🧹 Cleaning project..." ;;;
   (clean_dir ["__pycache__"] ;;; clean_dir ["tmp"] ;;; clean_dir ["logs"] ;;; ret tt) ;;;
   (clean_file [".DS_Store"] ;;; clean_file ["thumbs.db"] ;;; ret tt) ;;;
   print "✅ Cleanup completed!").
Proof. reflexivity. Qed.

Lemma clean_dir_rmtree x w :
  x ≠ "logs" → fs w !! [x] = Some Dir →
  ∃ w', clean_dir [x] w = (Ok tt, w') ∧
        ∀ q, fs w' !! q = if bool_decide ([x] `prefix_of` q) then None else fs w !! q.
Proof.
  intros Hx Hd. eexists. split.
  - unfold clean_dir. rewrite bind_unfold. unfold Path_exists at 1. rewrite stat_cons.
    rewrite Hd, bool_decide_eq_true_2 by eauto.
    simpl Path_name. rewrite decide_False by done.
    rewrite bind_unfold. unfold shutil_rmtree at 1. rewrite stat_cons. rewrite Hd.
    reflexivity.
  - intros q. simpl. apply lookup_rmtree.
Qed.

Lemma clean_dir_logs w :
  fs w !! ["logs"] = Some Dir →
  (∀ name, fnmatch "*.log" name = true → fs w !! ["logs"; name] ≠ Some Dir) →
  ∃ w', clean_dir ["logs"] w = (Ok tt, w') ∧
        ∀ q, fs w' !! q = if is_log q then None else fs w !! q.
Proof.
  intros Hd Hlogs.
  destruct (Path_glob_spec ["logs"] "*.log" w) as (L & Hglob & Hnd & HL).
  assert (Hshape : ∀ k, k ∈ L ↔ is_log k = true ∧ is_Some (fs w !! k)).
  { intros k. rewrite HL. split; intros [H1 H2]; (split; [|done]).
    - destruct H1 as (Hne & Hpar & Hm).
      destruct (parent_snoc k Hne) as [x Hx]. rewrite Hpar in Hx. subst k.
      simpl in Hm |- *. exact Hm.
    - destruct k as [|d [|name [|]]]; try done. simpl in H1.
      apply andb_true_iff in H1 as [->%bool_decide_eq_true Hm]. done. }
  destruct (unlink_all L w Hnd) as (w1 & Hrun & Hout & Hlook).
  { intros k [Hlog [n Hn]]%Hshape.
    destruct k as [|d [|name [|]]]; try done. simpl in Hlog.
    apply andb_true_iff in Hlog as [->%bool_decide_eq_true Hm].
    destruct n as [|c]; [by destruct (Hlogs name Hm)|]. by exists c. }
  eexists. split.
  - unfold clean_dir. rewrite bind_unfold. unfold Path_exists at 1. rewrite stat_cons.
    rewrite Hd, bool_decide_eq_true_2 by eauto.
    simpl Path_name. rewrite decide_True by done.
    rewrite bind_unfold, Hglob, bind_unfold, Hrun. reflexivity.
  - intros q. simpl. rewrite Hlook.
    case_bool_decide as Hq.
    + apply Hshape in Hq as [-> _]. done.
    + destruct (is_log q) eqn:Hlog; [|done].
      destruct (fs w !! q) eqn:Hn; [|done].
      destruct Hq. apply Hshape. by rewrite Hn.
Qed.

Lemma clean_file_top x w :
  fs w !! [x] ≠ Some Dir →
  ∃ w', clean_file [x] w = (Ok tt, w') ∧
        ∀ q, fs w' !! q = if bool_decide (q = [x]) then None else fs w !! q.
Proof.
  intros Hx. unfold clean_file. rewrite bind_unfold. unfold Path_exists at 1.
  rewrite stat_cons. destruct (fs w !! [x]) as [[|c]|] eqn:Hl; [done| |].
  - rewrite bool_decide_eq_true_2 by eauto.
    rewrite bind_unfold. unfold Path_unlink at 1. rewrite stat_cons. rewrite Hl.
    eexists. split; [reflexivity|]. intros q. simpl.
    case_bool_decide as Hq; [subst; apply lookup_delete_eq|].
    by rewrite lookup_delete_ne.
  - rewrite bool_decide_eq_false_2 by (by intros [??]).
    exists w. split; [done|]. intros q. case_bool_decide; by subst.
Qed.

(** The script does what C9 says of it, on a tree that holds the cache
    directory, [tmp] and [logs], with regular files for log files: it
    returns normally, and what it removes is the cache directory and
    [tmp] with all below them, the entries of [logs] named [*.log], and
    the two metadata files; every other entry, [logs] itself among
    them, is left as it was. *)
Lemma cleanup_sweeps w :
  fs w !! ["__pycache__"] = Some Dir → fs w !! ["tmp"] = Some Dir →
  fs w !! ["logs"] = Some Dir →
  (∀ name, fnmatch "*.log" name = true → fs w !! ["logs"; name] ≠ Some Dir) →
  fs w !! [".DS_Store"] ≠ Some Dir → fs w !! ["thumbs.db"] ≠ Some Dir →
  (cleanup w).1 = Ok tt ∧
  fs (cleanup w).2 !! ["logs"] = Some Dir ∧
  ∀ q, fs (cleanup w).2 !! q = if swept q then None else fs w !! q.
Proof.
  intros Hpyc Htmp Hlogs Hfiles Hds Hth.
  assert (Hall : (cleanup w).1 = Ok tt ∧
            ∀ q, fs (cleanup w).2 !! q = if swept q then None else fs w !! q).
  { rewrite cleanup_unfold.
    set (w0 := mkWorld (fs w) (stdout w ++ ["🧹 Cleaning project..."])).
    destruct (clean_dir_rmtree "__pycache__" w0) as (w1 & H1 & L1); [done..|].
    destruct (clean_dir_rmtree "tmp" w1) as (w2 & H2 & L2); [done|by rewrite L1|].
    destruct (clean_dir_logs w2) as (w3 & H3 & L3).
    { by rewrite L2, L1. }
    { intros name Hm. rewrite L2, L1. simpl. by apply Hfiles. }
    destruct (clean_file_top ".DS_Store" w3) as (w4 & H4 & L4).
    { by rewrite L3, L2, L1. }
    destruct (clean_file_top "thumbs.db" w4) as (w5 & H5 & L5).
    { by rewrite L4, L3, L2, L1. }
    assert (HD : (clean_dir ["__pycache__"] ;;; clean_dir ["tmp"] ;;;
                  clean_dir ["logs"] ;;; ret tt) w0 = (Ok tt, w3)).
    { by rewrite (bind_Ok _ _ _ _ _ H1), (bind_Ok _ _ _ _ _ H2), (bind_Ok _ _ _ _ _ H3). }
    assert (HF : (clean_file [".DS_Store"] ;;; clean_file ["thumbs.db"] ;;; ret tt) w3
                 = (Ok tt, w5)).
    { by rewrite (bind_Ok _ _ _ _ _ H4), (bind_Ok _ _ _ _ _ H5). }
    rewrite (bind_Ok _ _ _ _ _ (print_run _ w)).
    rewrite (bind_Ok _ _ _ _ _ HD), (bind_Ok _ _ _ _ _ HF), print_run.
    split; [done|]. intros q. simpl.
    rewrite L5, L4, L3, L2, L1. unfold swept. fold (is_log q).
    repeat case_bool_decide; destruct (is_log q); done. }
  destruct Hall as [Hok Hq]. split; [done|]. split; [|done].
  by rewrite Hq.
Qed.

(** ** The templated files that are rewritten

    What C4 says does hold of the files whose stage gets to the write:
    the ignore file, the launcher and the README. *)

Lemma gitignore_is_rewritten w :
  (create_project_structure init w).1 = Ok tt →
  fs (create_project_structure init w).2 !! [".gitignore"]
  = Some (File gitignore_content).
Proof.
  destruct (create_project_structure_spec w) as (r & w' & -> & Hcases). simpl.
  intros ->. destruct Hcases as [(e & ? & _)|(t2 & _ & _ & _ & Hgi)]; [done|].
  destruct Hgi as [(_ & _ & ?)|(_ & -> & _)]; [done|]. apply lookup_insert_eq.
Qed.

Lemma launcher_is_rewritten w :
  fs w !! ["run.py"] ≠ Some Dir →
  fs (create_main_files init w).2 !! ["run.py"] = Some (File launcher_text).
Proof.
  intros Hrun. rewrite create_main_files_run. cbv zeta.
  destruct (fs w !! ["run.py"]) as [[|c]|]; [done|..]; apply lookup_insert_eq.
Qed.

Lemma readme_is_rewritten o w :
  fs w !! ["README.md"] ≠ Some Dir →
  (create_documentation o init w).1 = Ok tt ∧
  fs (create_documentation o init w).2 !! ["README.md"] = Some (File (readme_text o)).
Proof.
  intros Hreadme. unfold create_documentation.
  rewrite bind_unfold, print_run, bind_unfold, fstring_run.
  assert (Heval : (fstring init ["self"; "readme_content"; "readme_path"]
                     (readme_template ++ [Lit o]) (mkWorld ∅ [])).1
                  = Ok (readme_text o)).
  { unfold readme_text. by vm_compute (fstring _ _ _ _).1. }
  rewrite Heval. cbv beta iota zeta.
  change (base_dir init // "README.md") with ["README.md"].
  rewrite Path_write_text_top. simpl fs.
  destruct (fs w !! ["README.md"]) as [[|c]|]; [done|..];
    (split; [done|apply lookup_insert_eq]).
Qed.

(** * More of the scaffolding stage *)

Lemma create_directories_report ds w w' :
  create_directories init ds w = (Ok tt, w') →
  stdout w' = stdout w ++ (directory_line <$> ds).
Proof.
  revert w. induction ds as [|d ds IH]; intros w Hrun.
  { unfold create_directories in Hrun. simpl in Hrun. unfold ret in Hrun.
    simplify_eq. by rewrite app_nil_r. }
  rewrite create_directories_cons, bind_unfold, bind_unfold in Hrun.
  destruct (Path_mkdir_spec (parts d) w) as (r & t1 & Hmk & _).
  rewrite Hmk in Hrun. destruct r as [[]|]; [|done].
  apply (IH (mkWorld t1 (stdout w ++ [directory_line d]))) in Hrun.
  rewrite Hrun. simpl. by rewrite <-app_assoc.
Qed.

Lemma missing_files_agree (t t' : gmap (list string) node) fl :
  (∀ f, f ∈ fl → stat t (parts f) = None ↔ stat t' (parts f) = None) →
  missing_files t fl = missing_files t' fl.
Proof.
  unfold missing_files. induction fl as [|f fl IH]; intros Hagree; [done|].
  rewrite !filter_cons. rewrite IH by (intros f' Hf'; apply Hagree; by right).
  destruct (Hagree f) as [H1 H2]; [left|].
  repeat case_decide; try done; tauto.
Qed.

Lemma create_files_report fl w w' :
  NoDup (parts <$> fl) →
  create_files init fl w = (Ok tt, w') →
  stdout w' = stdout w ++ (file_line <$> missing_files (fs w) fl).
Proof.
  revert w. induction fl as [|f fl IH]; intros w Hnd Hrun.
  { unfold create_files in Hrun. simpl in Hrun. unfold ret in Hrun.
    simplify_eq. by rewrite app_nil_r. }
  rewrite fmap_cons in Hnd. apply NoDup_cons in Hnd as [Hf Hnd].
  rewrite create_files_cons, bind_unfold in Hrun.
  unfold missing_files. rewrite filter_cons. fold (missing_files (fs w) fl).
  destruct (stat (fs w) (parts f)) as [n|] eqn:Hp.
  - rewrite create_file_there in Hrun by (by rewrite Hp).
    rewrite decide_False by done. by apply IH.
  - rewrite create_file_missing in Hrun by done.
    rewrite decide_True by done.
    destruct (stat (fs w) (parent (parts f))) as [[|c]|]; [|done..].
    apply IH in Hrun; [|done]. rewrite Hrun. simpl.
    rewrite <-app_assoc. simpl. do 3 f_equal.
    apply missing_files_agree. intros f' Hf'.
    assert (parts f' ≠ parts f).
    { intros Heq. apply Hf. rewrite <-Heq. apply list_elem_of_fmap. eauto. }
    destruct (parts f') as [|x p] eqn:Hp'; [done|].
    by rewrite !stat_cons, lookup_insert_ne.
Qed.

Lemma files_paths_distinct : NoDup (parts <$> files).
Proof. apply (bool_decide_unpack _). vm_compute. exact I. Qed.

Lemma directories_paths_distinct : NoDup (parts <$> directories).
Proof. apply (bool_decide_unpack _). vm_compute. exact I. Qed.

(** The directory loop neither creates nor hides a planned file. *)
Lemma planned_dir_spares_files t t' :
  adds (planned_dir directories) t t' →
  missing_files t' files = missing_files t files.
Proof.
  intros Hadds. apply missing_files_agree. intros f Hf.
  pose proof (files_ne_nil f Hf) as Hne. rewrite !stat_ne_nil by done.
  split; intros Hnone.
  - destruct (t !! parts f) as [n|] eqn:Ht; [|done].
    by rewrite (adds_lookup_Some _ _ _ _ _ Hadds Ht) in Hnone.
  - eapply adds_lookup_None; [exact Hadds|done|].
    intros n [_ (d & Hd & Hpre)]. by eapply files_not_prefix.
Qed.

(** X1: what a completed scaffolding stage has printed.  After the
    headline comes one line for each of the planned directories, whether
    it was there before or not; then one line for each planned file that
    was missing, and for no other; then the line of the ignore file and
    the closing line. *)
Theorem scaffolding_report w :
  (create_project_structure init w).1 = Ok tt →
  stdout (create_project_structure init w).2
  = stdout w
    ++ [nl +:+ "[2/6] Creating project structure..."]
    ++ (directory_line <$> directories)
    ++ (file_line <$> missing_files (fs w) files)
    ++ ["  📄 Created: .gitignore"; "✅ Project structure created successfully!"].
Proof.
  rewrite create_project_structure_unfold.
  set (w0 := mkWorld (fs w) (stdout w ++ [nl +:+ "[2/6] Creating project structure..."])).
  pose proof (steps_create_directories directories w0) as Hs1.
  destruct (create_directories init directories w0) as [[[]|e] w1] eqn:H1; [|done].
  simpl in Hs1. apply create_directories_report in H1.
  pose proof (create_files_report files w1) as H2.
  destruct (create_files init files w1) as [[[]|e] w2]; [|done].
  specialize (H2 w2 files_paths_distinct eq_refl).
  rewrite (planned_dir_spares_files _ _ Hs1) in H2.
  rewrite Path_write_text_top.
  destruct (fs w2 !! [".gitignore"]) as [[|c]|]; [done|..]; intros _; simpl;
    rewrite H2, H1; simpl; by rewrite <-!app_assoc.
Qed.

Lemma scaffolding_report_witness :
  directory_line "src" ∈ stdout (create_project_structure init half_built_world).2 ∧
  file_line "CHANGELOG.md" ∉ stdout (create_project_structure init half_built_world).2.
Proof.
  assert (H : (create_project_structure init half_built_world).1 = Ok tt)
    by (vm_compute; reflexivity).
  rewrite (scaffolding_report half_built_world H). split; in_list.
Defined.

(** X2: the scaffolding stage returns normally exactly when no planned
    directory is taken by a regular file and the ignore file is not
    taken by a directory.  (A directory in the place of a planned file
    is no obstacle: the file is passed over.) *)
Theorem scaffolding_succeeds_iff w :
  (create_project_structure init w).1 = Ok tt ↔
  (∀ d c, d ∈ directories → fs w !! parts d ≠ Some (File c)) ∧
  fs w !! [".gitignore"] ≠ Some Dir.
Proof.
  destruct (create_project_structure_spec w) as (r & w' & -> & Hcases). simpl.
  split.
  - intros ->. destruct Hcases as [(e & ? & _)|(t2 & Hadds & Hdirs & _ & Hgi)]; [done|].
    destruct Hgi as [(_ & _ & ?)|(Hgi & _ & _)]; [done|]. split.
    + intros d c Hd Hfile. specialize (Hdirs d Hd).
      rewrite stat_ne_nil in Hdirs by by apply directories_ne_nil.
      rewrite (adds_lookup_Some _ _ _ _ _ Hadds Hfile) in Hdirs. done.
    + intros Hdir. apply Hgi. by eapply adds_lookup_Some.
  - intros [Hnofile Hgi0].
    destruct Hcases as [(e & _ & Hrun & _)|(t2 & Hadds & _ & _ & Hgi)].
    + exfalso.
      destruct (create_directories_Ok directories
                  (mkWorld (fs w)
                     (stdout w ++ [nl +:+ "[2/6] Creating project structure..."])))
        as (w1 & Hok & _); [|congruence].
      intros d q c Hd Hq. simpl.
      apply directories_prefix_closed in Hq; [|done].
      apply elem_of_cons in Hq as [->|(d' & -> & Hd')%list_elem_of_fmap]; [done|].
      rewrite stat_ne_nil by by apply directories_ne_nil. by apply Hnofile.
    + destruct Hgi as [(Hgi & _ & _)|(_ & _ & ->)]; [|done]. exfalso.
      destruct (fs w !! [".gitignore"]) as [n|] eqn:H0.
      * rewrite (adds_lookup_Some _ _ _ _ _ Hadds H0) in Hgi. by simplify_eq.
      * by destruct (planned_not_gitignore _ (proj2 Hadds _ _ Hgi H0)).
Qed.

Lemma scaffolding_succeeds_iff_witness :
  (create_project_structure init launcher_dir_world).1 = Ok tt ∧
  fs (create_project_structure init launcher_dir_world).2 !! ["run.py"] = Some Dir.
Proof.
  split; [|vm_compute; reflexivity].
  apply (proj2 (scaffolding_succeeds_iff launcher_dir_world)). split.
  - intros d c Hd Hfile. simpl in Hfile.
    by apply lookup_singleton_Some in Hfile as [_ ?].
  - vm_compute. congruence.
Defined.

(** X3: the scaffolding stage only adds, whatever the tree and however
    the stage ends.  Apart from the ignore file, an entry that was
    there is there unchanged, and a path that was free is still free, or
    is a directory on the way to a planned one, or is a planned file,
    empty. *)
Theorem scaffolding_only_adds w q :
  q ≠ [".gitignore"] →
  match fs w !! q with
  | Some n => fs (create_project_structure init w).2 !! q = Some n
  | None =>
      fs (create_project_structure init w).2 !! q = None
      ∨ (fs (create_project_structure init w).2 !! q = Some Dir
         ∧ ∃ d, d ∈ directories ∧ q `prefix_of` parts d)
      ∨ (fs (create_project_structure init w).2 !! q = Some (File "")
         ∧ ∃ f, f ∈ files ∧ q = parts f)
  end.
Proof.
  intros Hq. destruct (fs w !! q) as [n|] eqn:H0.
  - by apply create_project_structure_keeps.
  - destruct (fs (create_project_structure init w).2 !! q) as [n|] eqn:H1; [|by left].
    right.
    destruct (create_project_structure_new w q n H0 H1)
      as [[[-> Hd]|[-> Hf]]|[? _]]; [by left|by right|done].
Qed.

Lemma scaffolding_only_adds_witness :
  fs (create_project_structure init half_built_world).2 !! ["src"; "__init__.py"]
  = Some (File "# package").
Proof.
  assert (Hq : ["src"; "__init__.py"] ≠ [".gitignore"]) by done.
  pose proof (scaffolding_only_adds half_built_world ["src"; "__init__.py"] Hq) as H.
  assert (E : fs half_built_world !! ["src"; "__init__.py"] = Some (File "# package"))
    by (vm_compute; reflexivity).
  rewrite E in H. exact H.
Defined.

(** X4: the ignore file is written last, and only then: after a stage
    that returned normally it holds the ignore rules, whatever it held
    before; after a stage that failed it is as it was. *)
Theorem ignore_file_is_written_last w :
  fs (create_project_structure init w).2 !! [".gitignore"]
  = match (create_project_structure init w).1 with
    | Ok _ => Some (File gitignore_content)
    | Raise _ => fs w !! [".gitignore"]
    end.
Proof.
  destruct (create_project_structure_spec w) as (r & w' & -> & Hcases). simpl.
  destruct Hcases as [(e & -> & _ & Hadds)|(t2 & Hadds & _ & _ & Hgi)].
  - destruct (fs w !! [".gitignore"]) as [n|] eqn:H0.
    + by eapply adds_lookup_Some.
    + eapply adds_lookup_None; [exact Hadds|done|].
      intros n [_ (d & Hd & Hpre)]. by eapply directories_not_gitignore.
  - destruct Hgi as [(Hgi & -> & ->)|(_ & -> & ->)].
    + rewrite Hgi.
      destruct (fs w !! [".gitignore"]) as [n|] eqn:H0.
      * rewrite (adds_lookup_Some _ _ _ _ _ Hadds H0) in Hgi. by simplify_eq.
      * by destruct (planned_not_gitignore _ (proj2 Hadds _ _ Hgi H0)).
    + apply lookup_insert_eq.
Qed.

(** X5: a second run of the scaffolding stage ends as the first did,
    with the same outcome, and leaves the whole tree as the first left
    it. *)
Theorem scaffolding_is_idempotent w :
  let r1 := create_project_structure init w in
  let r2 := create_project_structure init r1.2 in
  r2.1 = r1.1 ∧ fs r2.2 = fs r1.2.
Proof.
  cbv zeta.
  destruct (create_project_structure_spec w) as (r & w' & -> & Hcases). simpl.
  rewrite create_project_structure_unfold.
  set (w0' := mkWorld (fs w') (stdout w' ++ [nl +:+ "[2/6] Creating project structure..."])).
  destruct Hcases as [(e & -> & Hrun & _)|(t2 & Hadds & Hdirs & Hfiles & Hgi)].
  - destruct (create_directories_fails_again _ _ _ _ w0' Hrun) as (w3 & -> & Hfs); done.
  - assert (Hdirs' : ∀ d, d ∈ directories → stat (fs w0') (parts d) = Some Dir).
    { intros d Hd. specialize (Hdirs d Hd). simpl.
      destruct Hgi as [(_ & -> & _)|(Hne & -> & _)]; [done|].
      rewrite stat_ne_nil in Hdirs |- * by by apply directories_ne_nil.
      rewrite lookup_insert_ne; [done|]. intros Heq. apply Hne. by rewrite Heq. }
    assert (Hfiles' : ∀ f, f ∈ files → is_Some (stat (fs w0') (parts f))).
    { intros f Hf. specialize (Hfiles f Hf). simpl.
      destruct Hgi as [(_ & -> & _)|(Hne & -> & _)]; [done|].
      rewrite stat_ne_nil in Hfiles |- * by by apply files_ne_nil.
      rewrite lookup_insert_ne; [done|]. intros Heq.
      by eapply files_not_gitignore. }
    destruct (create_directories_again directories w0' Hdirs') as (w1 & -> & Hfs1).
    rewrite create_files_again by (by rewrite Hfs1).
    rewrite Path_write_text_top, Hfs1. simpl.
    destruct Hgi as [(Hd & Hw' & ->)|(Hne & Hw' & ->)]; rewrite Hw'.
    + rewrite Hd. simpl. by rewrite Hfs1.
    + rewrite lookup_insert_eq. simpl. by rewrite insert_insert_eq.
Qed.
(** * More of the install stage *)

Lemma Path_write_text_writable p data w :
  Path_write_text p data w =
  if writable (fs w) p then (Ok tt, set_fs (<[p := File data]> (fs w)) w)
  else (Raise (OSError (match stat (fs w) p with
                        | Some Dir => EISDIR
                        | _ => match stat (fs w) (parent p) with
                               | None => ENOENT
                               | _ => ENOTDIR
                               end
                        end) (Path_str p)), w).
Proof.
  unfold Path_write_text, os_open_write, writable.
  destruct (stat (fs w) p) as [[|c]|]; [done..|].
  by destruct (stat (fs w) (parent p)) as [[|c]|].
Qed.

Lemma Path_write_text_frame p data w q :
  q ≠ p → fs (Path_write_text p data w).2 !! q = fs w !! q.
Proof.
  intros Hq. rewrite Path_write_text_writable.
  destruct (writable (fs w) p); [|done]. simpl. by rewrite lookup_insert_ne.
Qed.

(** All the ways the install stage can go, for any setup. *)
Lemma install_dependencies_cases h self w :
  install_dependencies h self w =
  let w0 := mkWorld (fs w) (stdout w ++ [nl +:+ "[4/6] Installing dependencies..."]) in
  match (Path_write_text (req_path self) (manifest self) w0) with
  | (Raise e, w1) => (Raise e, w1)
  | (Ok _, w1) =>
      match spawn h (pip_install_cmd h) with
      | Exited 0 =>
          (Ok tt, mkWorld (fs w1) (stdout w1 ++ ["✅ Dependencies installed successfully!"]))
      | Exited rc =>
          (Ok tt, mkWorld (fs w1)
                    (stdout w1
                     ++ ["❌ Failed to install dependencies: "
                         +:+ CalledProcessError_str rc (pip_install_cmd h);
                         install_hint]))
      | SpawnError e => (Raise (OSError e (sys_executable h)), w1)
      end
  end.
Proof.
  unfold install_dependencies. rewrite bind_unfold, print_run. cbv zeta.
  rewrite bind_unfold. fold (req_path self) (manifest self).
  destruct (Path_write_text _ _ _) as [[[]|e] w1]; [|done].
  unfold try_except_CalledProcessError, subprocess_check_call.
  rewrite bind_unfold.
  destruct (spawn h (pip_install_cmd h)) as [[|rc]|e];
    unfold bind, print, raise, ret; simpl; rewrite <-?app_assoc; reflexivity.
Qed.

(** X6: the install stage returns normally exactly when the manifest can
    be written and the installer can be started, whatever status the
    installer exits with; what it raises otherwise is an [OSError], of
    the write or of the start of the child, never the
    [CalledProcessError] it handles. *)
Theorem install_succeeds_iff h self w :
  ((install_dependencies h self w).1 = Ok tt ↔
   writable (fs w) (req_path self) = true
   ∧ ∃ rc, spawn h (pip_install_cmd h) = Exited rc) ∧
  ∀ e, (install_dependencies h self w).1 = Raise e → ∃ n f, e = OSError n f.
Proof.
  rewrite install_dependencies_cases. cbv zeta.
  rewrite Path_write_text_writable. simpl fs.
  destruct (writable (fs w) (req_path self)).
  - destruct (spawn h (pip_install_cmd h)) as [[|rc]|e0]; simpl.
    + split; [|done]. split; [eauto|done].
    + split; [|done]. split; [eauto|done].
    + split; [|intros e [= <-]; eauto]. split; [done|]. by intros [_ [rc ?]].
  - simpl. split; [|intros e [= <-]; eauto]. split; [done|]. by intros [? _].
Qed.

Lemma install_succeeds_iff_witness :
  (install_dependencies host_pip_fails small_setup empty_world).1 = Ok tt.
Proof.
  apply (proj1 (install_succeeds_iff host_pip_fails small_setup empty_world)).
  split; [reflexivity|]. exists 1%N. reflexivity.
Defined.

(** X7: the install stage itself writes the manifest and nothing else,
    however it ends and whatever the installer does.  Let the child
    process write to the tree as it likes, inside some set [S] of
    paths: an entry outside [S] other than the manifest is after the
    stage as it was before.  The stage embedded with [spawn] is the
    case of a child that leaves the tree and the console alone. *)
Theorem install_touches_only_the_manifest h child self (S : list string → Prop) w q :
  (∀ cmd w0 p, ¬ S p → fs (child cmd w0).2 !! p = fs w0 !! p) →
  ¬ S q → q ≠ req_path self →
  fs (install_dependencies_with h child self w).2 !! q = fs w !! q ∧
  install_dependencies h self w
  = install_dependencies_with h (λ cmd w0, (spawn h cmd, w0)) self w.
Proof.
  intros Hchild HS Hq. split.
  - unfold install_dependencies_with. rewrite bind_unfold, print_run. cbv zeta.
    rewrite bind_unfold. fold (req_path self) (manifest self).
    pose proof (Path_write_text_frame (req_path self) (manifest self)
                  (mkWorld (fs w) (stdout w ++ [nl +:+ "[4/6] Installing dependencies..."]))
                  q Hq) as Hfr.
    destruct (Path_write_text _ _ _) as [[[]|e] w1]; [|done].
    simpl in Hfr. rewrite <-Hfr.
    unfold try_except_CalledProcessError, subprocess_check_call_with.
    rewrite bind_unfold. specialize (Hchild (pip_install_cmd h) w1 q HS).
    by destruct (child (pip_install_cmd h) w1) as [[[|rc]|e] w2].
  - unfold install_dependencies, install_dependencies_with.
    rewrite !bind_unfold, print_run. cbv zeta. rewrite !bind_unfold.
    destruct (Path_write_text _ _ _) as [[[]|e] w1]; [|done].
    unfold try_except_CalledProcessError, subprocess_check_call,
      subprocess_check_call_with.
    rewrite !bind_unfold.
    by destruct (spawn h (pip_install_cmd h)) as [[|rc]|e].
Qed.

Lemma install_touches_only_the_manifest_witness :
  fs (install_dependencies_with host_3_8 pip_into_venv init venv_world).2
    !! ["src"; "old.py"] = Some (File "print('kept')") ∧
  fs (install_dependencies_with host_3_8 pip_into_venv init venv_world).2
    !! ["venv"; "lib"; "requests.py"] = Some (File "# requests").
Proof.
  split; [|reflexivity].
  assert (Hchild : ∀ cmd w0 p, ¬ ["venv"] `prefix_of` p →
            fs (pip_into_venv cmd w0).2 !! p = fs w0 !! p).
  { intros cmd w0 p Hp. simpl. apply lookup_insert_ne. intros <-. apply Hp.
    by exists ["lib"; "requests.py"]. }
  assert (HS : ¬ ["venv"] `prefix_of` ["src"; "old.py"]) by (by intros [k [=]]).
  assert (Hq : ["src"; "old.py"] ≠ req_path init) by done.
  rewrite (proj1 (install_touches_only_the_manifest host_3_8 pip_into_venv init
                    (λ p, ["venv"] `prefix_of` p) venv_world _ Hchild HS Hq)).
  reflexivity.
Defined.

(** X8: what the install stage reports after its headline.  The line
    of success is printed exactly when the manifest was written and the
    installer exited with status 0; the hint to install by hand exactly
    when the manifest was written and the installer exited with another
    status. *)
Theorem install_report h self w :
  ∃ out,
    stdout (install_dependencies h self w).2
    = stdout w ++ (nl +:+ "[4/6] Installing dependencies...") :: out ∧
    ("✅ Dependencies installed successfully!" ∈ out ↔
     writable (fs w) (req_path self) = true
     ∧ spawn h (pip_install_cmd h) = Exited 0) ∧
    (install_hint ∈ out ↔
     writable (fs w) (req_path self) = true
     ∧ ∃ rc, rc ≠ 0%N ∧ spawn h (pip_install_cmd h) = Exited rc).
Proof.
  rewrite install_dependencies_cases. cbv zeta.
  rewrite Path_write_text_writable. simpl fs.
  destruct (writable (fs w) (req_path self)).
  - destruct (spawn h (pip_install_cmd h)) as [[|rc]|e0]; simpl.
    + exists ["✅ Dependencies installed successfully!"].
      split; [by rewrite <-app_assoc|]. split.
      * split; [done|]. intros _. by left.
      * split; [by intros [?|[]%elem_of_nil]%elem_of_cons|].
        by intros [_ (rc & Hrc & [= <-])].
    + eexists [_; install_hint].
      split; [by rewrite <-app_assoc|]. split.
      * split; [|by intros [_ ?]].
        intros [H|[H|[]%elem_of_nil]%elem_of_cons]%elem_of_cons;
          simpl in H; discriminate.
      * split; [|intros _; right; left].
        intros _. split; [done|]. by exists (N.pos rc).
    + exists []. split; [done|].
      split; (split; [by intros []%elem_of_nil|]); [by intros [_ ?]|].
      by intros [_ (rc & _ & ?)].
  - exists []. simpl. split; [done|].
    split; (split; [by intros []%elem_of_nil|by intros [? _]]).
Qed.

Lemma install_report_witness :
  install_hint ∈ stdout (install_dependencies host_pip_fails init empty_world).2.
Proof.
  destruct (install_report host_pip_fails init empty_world) as (out & -> & _ & Hhint).
  apply elem_of_app. right. right. apply Hhint.
  split; [reflexivity|]. exists 1%N. split; [done|reflexivity].
Defined.

(** ** Reading the manifest back *)

Lemma string_app_cons c (a b : string) : String c a +:+ b = String c (a +:+ b).
Proof. reflexivity. Qed.

Lemma string_app_assoc (a b c : string) : (a +:+ b) +:+ c = a +:+ (b +:+ c).
Proof. induction a as [|x a IH]; [done|]. rewrite !string_app_cons. by f_equal. Qed.

Lemma string_app_nil_r (a : string) : a +:+ "" = a.
Proof. induction a as [|x a IH]; [done|]. rewrite string_app_cons. by f_equal. Qed.

Lemma split_go_line sep cur s rest :
  mem_char sep s = false →
  split_go sep cur (s +:+ String sep rest) = (cur +:+ s) :: split_go sep "" rest.
Proof.
  revert cur. induction s as [|c s IH]; intros cur Hs.
  - change ("" +:+ String sep rest) with (String sep rest). simpl.
    rewrite decide_True by done. by rewrite string_app_nil_r.
  - rewrite string_app_cons. simpl. simpl in Hs. apply orb_false_iff in Hs as [Hc Hs].
    apply bool_decide_eq_false in Hc.
    rewrite decide_False by done. rewrite IH by done.
    by rewrite string_app_assoc.
Qed.

Lemma split_go_last sep cur s :
  mem_char sep s = false → split_go sep cur s = [cur +:+ s].
Proof.
  revert cur. induction s as [|c s IH]; intros cur Hs; simpl.
  - by rewrite string_app_nil_r.
  - simpl in Hs. apply orb_false_iff in Hs as [Hc Hs].
    apply bool_decide_eq_false in Hc.
    rewrite decide_False by done. rewrite IH by done.
    by rewrite string_app_assoc.
Qed.

Lemma split_join_lines (xs : list string) :
  xs ≠ [] → Forall (λ x, mem_char "010"%char x = false) xs →
  split "010"%char (join nl xs) = xs.
Proof.
  intros Hne Hxs. unfold split.
  induction Hxs as [|x xs Hx Hxs IH]; [done|].
  destruct xs as [|y xs].
  - simpl. by rewrite split_go_last.
  - change (join nl (x :: y :: xs)) with (x +:+ String "010"%char (join nl (y :: xs))).
    rewrite split_go_line by done. f_equal. by apply IH.
Qed.

(** X9: the manifest reads back as the requirements.  For a setup with
    at least one requirement, none of which holds a line break, the
    lines of the manifest the install stage has written are the
    requirements of the setup, in their order; with no requirement the
    manifest is empty and reads back as one empty line. *)
Theorem manifest_round_trip h self w :
  writable (fs w) (req_path self) = true →
  requirements self ≠ [] →
  Forall (λ r, mem_char "010"%char r = false) (requirements self) →
  ∃ text, fs (install_dependencies h self w).2 !! req_path self = Some (File text) ∧
          split "010"%char text = requirements self.
Proof.
  intros Hw Hne Hreqs. exists (manifest self). split.
  - rewrite install_dependencies_cases. cbv zeta.
    rewrite Path_write_text_writable. simpl fs. rewrite Hw.
    destruct (spawn h (pip_install_cmd h)) as [[|rc]|e]; apply lookup_insert_eq.
  - by apply split_join_lines.
Qed.

Lemma manifest_round_trip_witness :
  ∃ text, fs (install_dependencies host_3_8 small_setup empty_world).2
            !! ["requirements.txt"] = Some (File text) ∧
          split "010"%char text = ["requests"; "tqdm>=4"].
Proof.
  apply (manifest_round_trip host_3_8 small_setup empty_world).
  - reflexivity.
  - simpl. discriminate.
  - simpl. repeat constructor.
Defined.

(** * More of the main-files stage *)

(** The template of the cleanup script fails at its first field, whatever
    the attributes of the setup. *)
Lemma cleanup_py_template_fails self :
  (fstring self create_main_files_locals cleanup_py_template (mkWorld ∅ [])).1
  = Raise (NameError "dir_path").
Proof. vm_compute. reflexivity. Qed.

(** The template of the launcher evaluates for every setup, to the text
    around the version. *)
Lemma run_py_template_evaluates self :
  ∃ more, (fstring self create_main_files_locals run_py_template (mkWorld ∅ [])).1
          = Ok more ∧
          script_header +:+ more = launcher_for (version self).
Proof. eexists. split; vm_compute; reflexivity. Qed.

(** X10: the main-files stage, for any setup and any tree.  It never
    returns normally: it ends with the error of the launcher's write
    when no file can be written at [run.py], and else with [NameError]
    for [dir_path]; so its closing line is never printed.  When a file
    can be written at [run.py], what is there afterwards is the
    launcher for the version of the setup, whatever was there before:
    the header, the text of the template with the version in the place
    of its field, the import of [main] in what follows the version; for
    the version of [__init__] it is the launcher of C10.  When none can
    be written the tree is as it was, and in either case nothing but
    [run.py] has changed. *)
Theorem main_files_stage_for_every_setup self w :
  (∃ e, (create_main_files self w).1 = Raise e ∧
        (writable (fs w) (run_path self) = true → e = NameError "dir_path") ∧
        (writable (fs w) (run_path self) = false → ∃ n f, e = OSError n f)) ∧
  (writable (fs w) (run_path self) = true →
   fs (create_main_files self w).2 !! run_path self
   = Some (File (launcher_for (version self)))) ∧
  (∀ q, q ≠ run_path self ∨ writable (fs w) (run_path self) = false →
        fs (create_main_files self w).2 !! q = fs w !! q) ∧
  ("✅ Main files created!"
   ∉ drop (length (stdout w)) (stdout (create_main_files self w).2)) ∧
  launcher_for (version init) = launcher_text ∧
  "from src.app.main import main" ∈ split "010"%char launcher_tail.
Proof.
  unfold create_main_files. rewrite bind_unfold, print_run.
  rewrite bind_unfold, fstring_run.
  destruct (run_py_template_evaluates self) as (more & -> & Htext).
  cbv beta iota zeta. rewrite bind_unfold. fold (run_path self).
  rewrite Path_write_text_writable. simpl fs. rewrite Htext.
  assert (Hinit : launcher_for (version init) = launcher_text)
    by (vm_compute; reflexivity).
  assert (Himport : "from src.app.main import main" ∈ split "010"%char launcher_tail)
    by in_list.
  destruct (writable (fs w) (run_path self)).
  - rewrite bind_unfold, print_run, bind_unfold, fstring_run.
    rewrite cleanup_py_template_fails. simpl.
    split; [eexists; split; [done|split; done]|].
    split; [intros _; apply lookup_insert_eq|].
    split; [intros q [Hq|?]; [by rewrite lookup_insert_ne|done]|].
    split; [|done].
    rewrite <-app_assoc, drop_app_length.
    by intros [?|[?|[]%elem_of_nil]%elem_of_cons]%elem_of_cons.
  - simpl. split; [eexists; split; [done|split; [done|eauto]]|].
    split; [done|]. split; [done|]. split; [|done].
    rewrite drop_app_length.
    by intros [?|[]%elem_of_nil]%elem_of_cons.
Qed.

Lemma main_files_stage_for_every_setup_witness :
  fs (create_main_files small_setup src_world).2 !! ["run.py"]
  = Some (File (launcher_for "12")) ∧
  fs (create_main_files small_setup src_world).2 !! ["src"; "old.py"]
  = Some (File "print('kept')").
Proof.
  destruct (main_files_stage_for_every_setup small_setup src_world)
    as (_ & Hlauncher & Hframe & _).
  split.
  - apply Hlauncher. reflexivity.
  - rewrite Hframe; [reflexivity|]. by left.
Defined.

(** * More of the banner and the version check *)

Lemma columns_app (a b : string) : columns (a +:+ b) = columns a + columns b.
Proof.
  induction a as [|c a IH]; [done|].
  rewrite string_app_cons. simpl. rewrite IH. lia.
Qed.

(** X11: the banner, for any setup: one text of four rows, printed in
    one call.  The frame and the subtitle are 64 columns wide, the title
    row 62 and the width of the version text; so its right edge is in
    line with the frame for a version of two columns only, and the
    version of [__init__] puts it three columns out. *)
Theorem banner_rows_width self w :
  print_banner self w
  = (Ok tt, mkWorld (fs w) (stdout w ++ [nl +:+ unlines (banner_rows (version self))])) ∧
  columns <$> banner_rows (version self) = [64; 62 + columns (version self); 64; 64] ∧
  columns <$> banner_rows (version init) = [64; 67; 64; 64].
Proof.
  split; [|split].
  - unfold print_banner. rewrite bind_unfold, fstring_run.
    assert (Heval : (fstring self ["self"; "banner"] [
        Lit (nl +:+ "╔" +:+ bar +:+ "╗" +:+ nl
             +:+ "║                    KPU DATA EXTRACTOR v");
        Field "self" "version";
        Lit ("                    ║" +:+ nl
             +:+ "║                Complete Installation Setup                   ║" +:+ nl
             +:+ "╚" +:+ bar +:+ "╝" +:+ nl)
      ] (mkWorld ∅ [])).1 = Ok (nl +:+ unlines (banner_rows (version self)))).
    { unfold banner_rows, unlines. simpl foldr.
      rewrite !string_app_assoc. vm_compute. reflexivity. }
    by rewrite Heval.
  - assert (Hrow : ∀ v, columns ("║                    KPU DATA EXTRACTOR v" +:+ v
                                   +:+ "                    ║") = 62 + columns v).
    { intros v. rewrite !columns_app.
      change (columns "║                    KPU DATA EXTRACTOR v") with 41.
      change (columns "                    ║") with 21. lia. }
    unfold banner_rows. rewrite !fmap_cons, Hrow. reflexivity.
  - vm_compute. reflexivity.
Qed.

(** X12: the version check reads the major and the minor number of the
    interpreter and nothing else: two hosts that agree on them get the
    same outcome and the same lines, whatever their patch level, their
    interpreter's path and their installer, and whatever the setup.  It
    never touches the tree. *)
Theorem version_check_reads_major_and_minor h h' self self' w :
  major (sys_version_info h) = major (sys_version_info h') →
  minor (sys_version_info h) = minor (sys_version_info h') →
  check_python_version h self w = check_python_version h' self' w ∧
  fs (check_python_version h self w).2 = fs w.
Proof.
  intros Hmajor Hminor. unfold check_python_version, as_tuple.
  rewrite Hmajor, Hminor.
  assert (Hmicro : ∀ a b c c', tuple_lt [a; b; c] [3; 7]%Z = tuple_lt [a; b; c'] [3; 7]%Z).
  { intros a b c c'. simpl. by repeat case_match. }
  rewrite (Hmicro _ _ _ (micro (sys_version_info h'))).
  split; [done|].
  rewrite !bind_unfold, print_run.
  by destruct (tuple_lt _ _).
Qed.

Lemma version_check_reads_major_and_minor_witness :
  check_python_version host_3_8_patched small_setup empty_world
  = check_python_version host_3_8 init empty_world.
Proof.
  apply (version_check_reads_major_and_minor host_3_8_patched host_3_8
           small_setup init empty_world); reflexivity.
Defined.

(** * More of the cleanup script *)

Lemma bind_Ok_inv {A B} (m : M A) (k : A → M B) w b :
  (bind m k w).1 = Ok b → ∃ a w1, m w = (Ok a, w1) ∧ (k a w1).1 = Ok b.
Proof.
  rewrite bind_unfold. destruct (m w) as [[a|e] w1]; [|done]. eauto.
Qed.

(** One round of the first loop, for a directory that is removed whole. *)
Lemma clean_dir_run x w :
  x ≠ "logs" →
  clean_dir [x] w =
  match fs w !! [x] with
  | None => (Ok tt, w)
  | Some Dir =>
      (Ok tt, mkWorld (filter (λ kv, ¬ [x] `prefix_of` kv.1) (fs w))
                (stdout w ++ ["  ✅ Removed: " +:+ x +:+ "/"]))
  | Some (File _) => (Raise (OSError ENOTDIR x), w)
  end.
Proof.
  intros Hx. unfold clean_dir. rewrite bind_unfold. unfold Path_exists at 1.
  rewrite stat_cons. destruct (fs w !! [x]) as [[|c]|] eqn:Hl.
  - rewrite bool_decide_eq_true_2 by eauto.
    simpl Path_name. rewrite decide_False by done.
    rewrite bind_unfold. unfold shutil_rmtree at 1. rewrite stat_cons, Hl.
    reflexivity.
  - rewrite bool_decide_eq_true_2 by eauto.
    simpl Path_name. rewrite decide_False by done.
    rewrite bind_unfold. unfold shutil_rmtree at 1. rewrite stat_cons, Hl.
    reflexivity.
  - by rewrite bool_decide_eq_false_2 by (by intros [??]).
Qed.

Lemma clean_dir_spec x w r w1 :
  x ≠ "logs" → clean_dir [x] w = (r, w1) →
  match r with
  | Ok _ =>
      (∀ c, fs w !! [x] ≠ Some (File c)) ∧
      ∀ q, fs w1 !! q = if bool_decide ([x] `prefix_of` q) && is_dir (fs w !! [x])
                        then None else fs w !! q
  | Raise _ => (∃ c, fs w !! [x] = Some (File c)) ∧ fs w1 = fs w
  end.
Proof.
  intros Hx. rewrite clean_dir_run by done.
  destruct (fs w !! [x]) as [[|c]|]; intros [= <- <-]; simpl.
  - split; [done|]. intros q. rewrite andb_true_r. apply lookup_rmtree.
  - eauto.
  - split; [done|]. intros q. by rewrite andb_false_r.
Qed.

(** One round of the second loop. *)
Lemma clean_file_run x w :
  clean_file [x] w =
  match fs w !! [x] with
  | None => (Ok tt, w)
  | Some (File _) =>
      (Ok tt, mkWorld (delete [x] (fs w)) (stdout w ++ ["  ✅ Removed: " +:+ x]))
  | Some Dir => (Raise (OSError EISDIR x), w)
  end.
Proof.
  unfold clean_file. rewrite bind_unfold. unfold Path_exists at 1.
  rewrite stat_cons. destruct (fs w !! [x]) as [[|c]|] eqn:Hl.
  - rewrite bool_decide_eq_true_2 by eauto.
    rewrite bind_unfold. unfold Path_unlink at 1. by rewrite stat_cons, Hl.
  - rewrite bool_decide_eq_true_2 by eauto.
    rewrite bind_unfold. unfold Path_unlink at 1. by rewrite stat_cons, Hl.
  - by rewrite bool_decide_eq_false_2 by (by intros [??]).
Qed.

Lemma clean_file_spec x w r w1 :
  clean_file [x] w = (r, w1) →
  match r with
  | Ok _ =>
      fs w !! [x] ≠ Some Dir ∧
      ∀ q, fs w1 !! q = if bool_decide (q = [x]) then None else fs w !! q
  | Raise _ => fs w !! [x] = Some Dir ∧ fs w1 = fs w
  end.
Proof.
  rewrite clean_file_run.
  destruct (fs w !! [x]) as [[|c]|] eqn:Hl; intros [= <- <-]; simpl.
  - done.
  - split; [done|]. intros q. case_bool_decide as Hq; [subst; apply lookup_delete_eq|].
    by rewrite lookup_delete_ne.
  - split; [done|]. intros q. case_bool_decide; by subst.
Qed.

(** The loop over the log files: it fails at the first directory. *)
Lemma unlink_fails (L : list (list string)) w k :
  k ∈ L → k ≠ [] → fs w !! k = Some Dir →
  ∃ e, (for_ L (λ file, Path_unlink file) w).1 = Raise e.
Proof.
  revert w. induction L as [|h L IH]; intros w Hk Hne Hdir; [by apply elem_of_nil in Hk|].
  simpl. rewrite bind_unfold. unfold Path_unlink at 1.
  destruct (stat (fs w) h) as [[|c]|] eqn:Hh; [eauto| |eauto].
  apply elem_of_cons in Hk as [->|Hk].
  { rewrite stat_ne_nil in Hh by done. congruence. }
  apply IH; [done..|]. simpl. rewrite lookup_delete_ne; [done|].
  intros ->. rewrite stat_ne_nil in Hh by done. congruence.
Qed.

Lemma is_log_shape k :
  is_log k = true ↔ k ≠ [] ∧ parent k = ["logs"] ∧ fnmatch "*.log" (Path_name k) = true.
Proof.
  split.
  - destruct k as [|d [|name [|]]]; try done. simpl.
    intros [->%bool_decide_eq_true Hm]%andb_true_iff. done.
  - intros (Hne & Hpar & Hm).
    destruct (parent_snoc k Hne) as [x Hx]. rewrite Hpar in Hx. subst k.
    simpl in Hm |- *. exact Hm.
Qed.

(** The round of the first loop for [logs]. *)
Lemma clean_dir_logs_spec w r w1 :
  clean_dir ["logs"] w = (r, w1) →
  match r with
  | Ok _ =>
      (is_Some (fs w !! ["logs"]) →
       ∀ name, fnmatch "*.log" name = true → fs w !! ["logs"; name] ≠ Some Dir) ∧
      ∀ q, fs w1 !! q = if is_log q && bool_decide (is_Some (fs w !! ["logs"]))
                        then None else fs w !! q
  | Raise _ =>
      is_Some (fs w !! ["logs"]) ∧
      ∃ name, fnmatch "*.log" name = true ∧ fs w !! ["logs"; name] = Some Dir
  end.
Proof.
  unfold clean_dir. rewrite bind_unfold. unfold Path_exists at 1. rewrite stat_cons.
  case_bool_decide as Hlogs; cycle 1.
  { intros [= <- <-]. split; [done|]. intros q. by rewrite andb_false_r. }
  simpl Path_name. rewrite decide_True by done.
  destruct (Path_glob_spec ["logs"] "*.log" w) as (L & Hglob & Hnd & HL).
  rewrite bind_unfold, Hglob, bind_unfold.
  assert (Hshape : ∀ k, k ∈ L ↔ is_log k = true ∧ is_Some (fs w !! k)).
  { intros k. by rewrite HL, is_log_shape. }
  destruct (decide (Exists (λ k, fs w !! k = Some Dir) L)) as [Hex|Hall].
  - apply Exists_exists in Hex as (k & Hk & Hdir).
    pose proof (proj1 (Hshape k) Hk) as [Hlog _].
    destruct (unlink_fails L w k Hk) as [e He]; [by intros ->|done|].
    destruct (for_ L _ w) as [r0 w0]. simpl in He. subst r0. intros [= <- <-].
    split; [done|].
    destruct k as [|d [|name [|]]]; try done. simpl in Hlog.
    apply andb_true_iff in Hlog as [->%bool_decide_eq_true Hm]. eauto.
  - destruct (unlink_all L w Hnd) as (w2 & Hrun & Hout & Hlook).
    { intros k Hk. pose proof (proj1 (Hshape k) Hk) as [Hlog [n Hn]].
      destruct n as [|c].
      - destruct Hall. apply Exists_exists. eauto.
      - exists c. rewrite stat_ne_nil; [done|]. by intros ->. }
    rewrite Hrun. intros [= <- <-]. split.
    + intros _ name Hm Hdir. apply Hall, Exists_exists.
      exists ["logs"; name]. split; [|done]. apply Hshape. split; [|eauto].
      unfold is_log. rewrite bool_decide_eq_true_2 by done. exact Hm.
    + intros q. simpl. rewrite Hlook, andb_true_r.
      case_bool_decide as Hq.
      * apply Hshape in Hq as [-> _]. done.
      * destruct (is_log q) eqn:Hlog; [|done].
        destruct (fs w !! q) eqn:Hn; [|done].
        destruct Hq. apply Hshape. by rewrite Hn.
Qed.

(** Deciding what can be decided by evaluation. *)
Ltac eval_decide :=
  repeat match goal with
  | |- context [@bool_decide ?P ?d] =>
      let b := eval vm_compute in (@bool_decide P d) in
      match b with
      | true => change (@bool_decide P d) with true
      | false => change (@bool_decide P d) with false
      end
  | H : context [@bool_decide ?P ?d] |- _ =>
      let b := eval vm_compute in (@bool_decide P d) in
      match b with
      | true => change (@bool_decide P d) with true in H
      | false => change (@bool_decide P d) with false in H
      end
  end.

(** All the ways the script can go. *)
Lemma cleanup_outcome w :
  ∃ r w', cleanup w = (r, w') ∧
    match r with
    | Ok _ =>
        cleanable (fs w) ∧
        ∀ q, fs w' !! q = if removed (fs w) q then None else fs w !! q
    | Raise _ => ¬ cleanable (fs w)
    end.
Proof.
  rewrite cleanup_unfold.
  set (w0 := mkWorld (fs w) (stdout w ++ ["🧹 Cleaning project..."])).
  rewrite (bind_Ok _ _ _ _ _ (print_run _ w)). fold w0.
  destruct (clean_dir ["__pycache__"] w0) as [r1 w1] eqn:H1.
  pose proof (clean_dir_spec "__pycache__" _ _ _ ltac:(done) H1) as S1. simpl fs in S1.
  destruct r1 as [[]|e]; cycle 1.
  { eexists _, _. rewrite (bind_Raise _ _ _ e w1); [split; [done|]|by rewrite (bind_Raise _ _ _ _ _ H1)].
    intros (Hc & _). destruct S1 as [[c Hf] _]. by apply (Hc c). }
  destruct S1 as [C1 L1].
  destruct (clean_dir ["tmp"] w1) as [r2 w2] eqn:H2.
  pose proof (clean_dir_spec "tmp" _ _ _ ltac:(done) H2) as S2.
  rewrite !L1 in S2. eval_decide. simpl in S2.
  destruct r2 as [[]|e]; cycle 1.
  { eexists _, _. rewrite (bind_Raise _ _ _ e w2);
      [split; [done|]|by rewrite (bind_Ok _ _ _ _ _ H1), (bind_Raise _ _ _ _ _ H2)].
    intros (_ & Hc & _). destruct S2 as [[c Hf] _]. by apply (Hc c). }
  destruct S2 as [C2 L2].
  destruct (clean_dir ["logs"] w2) as [r3 w3] eqn:H3.
  pose proof (clean_dir_logs_spec _ _ _ H3) as S3.
  destruct r3 as [[]|e]; cycle 1.
  { eexists _, _. rewrite (bind_Raise _ _ _ e w3);
      [split; [done|]|by rewrite (bind_Ok _ _ _ _ _ H1), (bind_Ok _ _ _ _ _ H2),
                                  (bind_Raise _ _ _ _ _ H3)].
    intros (_ & _ & Hc & _). destruct S3 as [Hl (name & Hm & Hd)].
    rewrite L2, L1 in Hl. rewrite L2, L1 in Hd. eval_decide. simpl in Hl, Hd.
    by apply (Hc Hl name Hm). }
  destruct S3 as [C3 L3].
  assert (HD : (clean_dir ["__pycache__"] ;;; clean_dir ["tmp"] ;;;
                clean_dir ["logs"] ;;; ret tt) w0 = (Ok tt, w3)).
  { by rewrite (bind_Ok _ _ _ _ _ H1), (bind_Ok _ _ _ _ _ H2), (bind_Ok _ _ _ _ _ H3). }
  rewrite (bind_Ok _ _ _ _ _ HD).
  destruct (clean_file [".DS_Store"] w3) as [r4 w4] eqn:H4.
  pose proof (clean_file_spec _ _ _ _ H4) as S4.
  rewrite !L3, !L2, !L1 in S4. eval_decide. simpl in S4.
  destruct r4 as [[]|e]; cycle 1.
  { eexists _, _. rewrite (bind_Raise _ _ _ e w4);
      [split; [done|]|by rewrite (bind_Raise _ _ _ _ _ H4)].
    intros (_ & _ & _ & Hc & _). by destruct S4 as [? _]. }
  destruct S4 as [C4 L4].
  destruct (clean_file ["thumbs.db"] w4) as [r5 w5] eqn:H5.
  pose proof (clean_file_spec _ _ _ _ H5) as S5.
  rewrite !L4, !L3, !L2, !L1 in S5. eval_decide. simpl in S5.
  destruct r5 as [[]|e]; cycle 1.
  { eexists _, _. rewrite (bind_Raise _ _ _ e w5);
      [split; [done|]|by rewrite (bind_Ok _ _ _ _ _ H4), (bind_Raise _ _ _ _ _ H5)].
    intros (_ & _ & _ & _ & Hc). by destruct S5 as [? _]. }
  destruct S5 as [C5 L5].
  assert (HF : (clean_file [".DS_Store"] ;;; clean_file ["thumbs.db"] ;;; ret tt) w3
               = (Ok tt, w5)).
  { by rewrite (bind_Ok _ _ _ _ _ H4), (bind_Ok _ _ _ _ _ H5). }
  rewrite (bind_Ok _ _ _ _ _ HF), print_run.
  eexists _, _. split; [done|]. simpl fs. split.
  - split; [done|]. split; [done|]. split; [|done].
    intros Hl name Hm. specialize (C3 ltac:(by rewrite L2, L1) name Hm).
    rewrite L2, L1 in C3. eval_decide. by simpl in C3.
  - intros q. rewrite !L5, !L4, !L3, !L2, !L1. eval_decide. simpl.
    unfold removed.
    repeat case_bool_decide; destruct (is_log q), (is_dir (fs w !! ["__pycache__"])),
      (is_dir (fs w !! ["tmp"])); simpl; try done.
Qed.

(** X13: the cleanup script returns normally exactly on the trees that
    hold no regular file at the cache directory or at [tmp], no
    directory named [*.log] in [logs], and no directory at the two
    metadata names; on any other tree it ends with the error of the
    first removal that does not fit. *)
Theorem cleanup_succeeds_iff w : (cleanup w).1 = Ok tt ↔ cleanable (fs w).
Proof.
  destruct (cleanup_outcome w) as (r & w' & -> & Hr). simpl.
  destruct r as [[]|e]; [by destruct Hr|]. split; [done|]. intros Hc. by destruct Hr.
Qed.

Lemma cleanup_succeeds_iff_witness : (cleanup used_world).1 = Ok tt.
Proof.
  apply (proj2 (cleanup_succeeds_iff used_world)).
  split; [done|]. split; [done|]. split; [|done].
  intros _ name _ H. unfold used_world in H. simpl in H.
  repeat (apply lookup_insert_Some in H as [[Hk Hv]|[_ H]];
            [first [discriminate Hk|discriminate Hv]|]).
  by apply lookup_singleton_Some in H as [? _].
Defined.

(** X14: what a run of the cleanup script that returns normally has
    done to the tree, whatever the tree held: the entries it is to
    remove are gone, where the directory they hang from was there, and
    every other entry is as it was. *)
Theorem cleanup_removes_exactly w q :
  (cleanup w).1 = Ok tt →
  fs (cleanup w).2 !! q = if removed (fs w) q then None else fs w !! q.
Proof.
  destruct (cleanup_outcome w) as (r & w' & -> & Hr). simpl.
  intros ->. by destruct Hr as [_ Hq].
Qed.

Lemma cleanup_removes_exactly_witness :
  fs (cleanup used_world).2 !! ["logs"; "app.log"] = None ∧
  fs (cleanup used_world).2 !! ["logs"; "notes.txt"] = Some (File "keep").
Proof.
  assert (Hok : (cleanup used_world).1 = Ok tt) by (vm_compute; reflexivity).
  split.
  - rewrite (cleanup_removes_exactly used_world ["logs"; "app.log"] Hok).
    vm_compute. reflexivity.
  - rewrite (cleanup_removes_exactly used_world ["logs"; "notes.txt"] Hok).
    vm_compute. reflexivity.
Defined.

(** X15: the cleanup script is idempotent: after a run that returned
    normally a second run returns normally too and finds nothing left
    to remove. *)
Theorem cleanup_is_idempotent w :
  (cleanup w).1 = Ok tt →
  (cleanup (cleanup w).2).1 = Ok tt ∧ fs (cleanup (cleanup w).2).2 = fs (cleanup w).2.
Proof.
  destruct (cleanup_outcome w) as (r & w' & -> & Hr). simpl.
  intros ->. destruct Hr as [Hc Hq].
  assert (Hpyc : is_dir (fs w' !! ["__pycache__"]) = false).
  { rewrite Hq. unfold removed. eval_decide. simpl.
    by destruct (fs w !! ["__pycache__"]) as [[|c]|]. }
  assert (Htmp : is_dir (fs w' !! ["tmp"]) = false).
  { rewrite Hq. unfold removed. eval_decide. simpl.
    by destruct (fs w !! ["tmp"]) as [[|c]|]. }
  assert (Hlogs : fs w' !! ["logs"] = fs w !! ["logs"]).
  { rewrite Hq. unfold removed. eval_decide. done. }
  assert (Hgone : ∀ q, removed (fs w') q = true → fs w' !! q = None).
  { intros q. unfold removed at 1. rewrite Hpyc, Htmp, Hlogs, !andb_false_r. simpl.
    intros H. rewrite Hq. unfold removed.
    apply orb_true_iff in H as [H| ->]; [|by rewrite orb_true_r].
    apply orb_true_iff in H as [H| ->]; [|by rewrite orb_true_r].
    by rewrite H, !orb_true_r. }
  assert (Hc' : cleanable (fs w')).
  { destruct Hc as (C1 & C2 & C3 & C4 & C5). split_and!.
    - intros c H. destruct (fs w' !! ["__pycache__"]) as [[|]|] eqn:E; try done.
      rewrite Hq in E. destruct (removed _ _); [done|]. by apply (C1 c); simplify_eq.
    - intros c H. destruct (fs w' !! ["tmp"]) as [[|]|] eqn:E; try done.
      rewrite Hq in E. destruct (removed _ _); [done|]. by apply (C2 c); simplify_eq.
    - rewrite Hlogs. intros Hl name Hm. rewrite Hq.
      destruct (removed _ _); [done|]. by apply C3.
    - rewrite Hq. by destruct (removed _ _).
    - rewrite Hq. by destruct (removed _ _). }
  destruct (cleanup_outcome w') as (r & w'' & -> & Hr). simpl.
  destruct r as [[]|e]; [|by destruct Hr]. split; [done|].
  destruct Hr as [_ Hq']. apply map_eq. intros q. rewrite Hq'.
  destruct (removed (fs w') q) eqn:E; [|done]. symmetry. by apply Hgone.
Qed.

Lemma cleanup_is_idempotent_witness :
  fs (cleanup (cleanup used_world).2).2 = fs (cleanup used_world).2.
Proof.
  assert (Hok : (cleanup used_world).1 = Ok tt) by (vm_compute; reflexivity).
  exact (proj2 (cleanup_is_idempotent used_world Hok)).
Defined.

(** ** The script only removes, and only what it is to sweep *)

Global Instance sweeps_preorder : PreOrder sweeps.
Proof.
  split.
  - intros t. by split.
  - intros t1 t2 t3 [H12 K12] [H23 K23]. split; [by etrans|].
    intros q Hq. by rewrite K23, K12.
Qed.

Lemma swept_below x q :
  x = "__pycache__" ∨ x = "tmp" → [x] `prefix_of` q → swept q = true.
Proof.
  intros [->| ->] Hq; unfold swept.
  - by rewrite (bool_decide_eq_true_2 _ Hq).
  - by rewrite (bool_decide_eq_true_2 _ Hq), orb_true_r.
Qed.

Lemma swept_file x : x = ".DS_Store" ∨ x = "thumbs.db" → swept [x] = true.
Proof. by intros [->| ->]. Qed.

Lemma swept_log q : is_log q = true → swept q = true.
Proof. unfold swept. fold (is_log q). intros ->. by rewrite !orb_true_r. Qed.

Lemma steps_sweeps_clean_dir x :
  x = "__pycache__" ∨ x = "tmp" → steps sweeps (clean_dir [x]).
Proof.
  intros Hx w. rewrite clean_dir_run by (by destruct Hx as [->| ->]).
  destruct (fs w !! [x]) as [[|c]|]; try reflexivity.
  simpl. split; [apply map_filter_subseteq|].
  intros q Hq. rewrite lookup_rmtree. case_bool_decide as Hp; [|done].
  by rewrite (swept_below x q Hx Hp) in Hq.
Qed.

Lemma steps_sweeps_clean_file x :
  x = ".DS_Store" ∨ x = "thumbs.db" → steps sweeps (clean_file [x]).
Proof.
  intros Hx w. rewrite clean_file_run.
  destruct (fs w !! [x]) as [[|c]|]; try reflexivity.
  simpl. split; [apply delete_subseteq|].
  intros q Hq. rewrite lookup_delete_ne; [done|].
  intros <-. by rewrite (swept_file x Hx) in Hq.
Qed.

(** The loop over the log files, however it ends. *)
Lemma unlink_frame (L : list (list string)) w :
  fs (for_ L (λ file, Path_unlink file) w).2 ⊆ fs w ∧
  ∀ q, q ∉ L → fs (for_ L (λ file, Path_unlink file) w).2 !! q = fs w !! q.
Proof.
  revert w. induction L as [|k L IH]; intros w; [done|].
  simpl. rewrite bind_unfold. unfold Path_unlink at 1 3.
  destruct (stat (fs w) k) as [[|c]|]; [done| |done].
  destruct (IH (set_fs (delete k (fs w)) w)) as [Hsub Hfr]. split.
  - etrans; [exact Hsub|]. apply delete_subseteq.
  - intros q [Hqk Hq]%not_elem_of_cons. rewrite Hfr by done. simpl.
    by rewrite lookup_delete_ne.
Qed.

Lemma steps_sweeps_clean_dir_logs : steps sweeps (clean_dir ["logs"]).
Proof.
  intros w. unfold clean_dir. rewrite bind_unfold. unfold Path_exists at 1.
  case_bool_decide; [|reflexivity].
  simpl Path_name. rewrite decide_True by done.
  destruct (Path_glob_spec ["logs"] "*.log" w) as (L & Hglob & _ & HL).
  rewrite bind_unfold, Hglob, bind_unfold.
  destruct (unlink_frame L w) as [Hsub Hfr].
  assert (Hs : sweeps (fs w) (fs (for_ L (λ file, Path_unlink file) w).2)).
  { split; [done|]. intros q Hq. apply Hfr. intros [Hlog _]%HL.
    apply is_log_shape in Hlog. by rewrite (swept_log q Hlog) in Hq. }
  by destruct (for_ L _ w) as [[[]|e] w1].
Qed.

(** X16: the cleanup script only removes, and only what it is to sweep,
    on every tree and however it ends: the tree it leaves is part of
    the tree it found, and an entry outside the cache directory, [tmp],
    the log files and the two metadata files is as it was. *)
Theorem cleanup_only_sweeps w :
  fs (cleanup w).2 ⊆ fs w ∧
  ∀ q, swept q = false → fs (cleanup w).2 !! q = fs w !! q.
Proof.
  revert w. change (steps sweeps cleanup). rewrite cleanup_unfold.
  apply steps_bind; [apply _|apply steps_print; apply _|intros _].
  apply steps_bind; [apply _| |intros _].
  { apply steps_bind; [apply _|apply steps_sweeps_clean_dir; by left|intros _].
    apply steps_bind; [apply _|apply steps_sweeps_clean_dir; by right|intros _].
    apply steps_bind; [apply _|apply steps_sweeps_clean_dir_logs|intros _].
    apply steps_ret; apply _. }
  apply steps_bind; [apply _| |intros _].
  { apply steps_bind; [apply _|apply steps_sweeps_clean_file; by left|intros _].
    apply steps_bind; [apply _|apply steps_sweeps_clean_file; by right|intros _].
    apply steps_ret; apply _. }
  apply steps_print; apply _.
Qed.

Lemma cleanup_only_sweeps_witness :
  fs (cleanup obstructed_world).2 !! ["src"] = Some (File "not a directory").
Proof.
  assert (Hq : swept ["src"] = false) by (vm_compute; reflexivity).
  rewrite (proj2 (cleanup_only_sweeps obstructed_world) ["src"] Hq).
  reflexivity.
Defined.

(** X17: an error stops the cleanup script where it happens.  With a
    regular file at [tmp] (and none at the cache directory) the script
    ends with [NotADirectoryError] for [tmp]: the cache directory is
    gone by then, and nothing else has been touched, so the log files
    and the metadata files, which come later, are all still there. *)
Theorem cleanup_stops_at_the_first_error w c q :
  (∀ c', fs w !! ["__pycache__"] ≠ Some (File c')) →
  fs w !! ["tmp"] = Some (File c) →
  (cleanup w).1 = Raise (OSError ENOTDIR "tmp") ∧
  fs (cleanup w).2 !! q
  = (if bool_decide (["__pycache__"] `prefix_of` q) && is_dir (fs w !! ["__pycache__"])
     then None else fs w !! q) ∧
  "✅ Cleanup completed!" ∉ drop (length (stdout w)) (stdout (cleanup w).2).
Proof.
  intros Hpyc Htmp. rewrite cleanup_unfold.
  set (w0 := mkWorld (fs w) (stdout w ++ ["🧹 Cleaning project..."])).
  rewrite (bind_Ok _ _ _ _ _ (print_run _ w)). fold w0.
  destruct (clean_dir ["__pycache__"] w0) as [r1 w1] eqn:H1.
  pose proof (clean_dir_spec "__pycache__" _ _ _ ltac:(done) H1) as S1. simpl fs in S1.
  destruct r1 as [[]|e]; [|by destruct S1 as [[c' ?%Hpyc] _]].
  destruct S1 as [_ L1].
  assert (Htmp1 : fs w1 !! ["tmp"] = Some (File c)).
  { rewrite L1. eval_decide. done. }
  assert (H2 : clean_dir ["tmp"] w1 = (Raise (OSError ENOTDIR "tmp"), w1)).
  { rewrite clean_dir_run by done. by rewrite Htmp1. }
  assert (Hout : stdout w1 = stdout w0
                 ∨ stdout w1 = stdout w0 ++ ["  ✅ Removed: __pycache__/"]).
  { rewrite clean_dir_run in H1 by done.
    destruct (fs w0 !! ["__pycache__"]) as [[|c']|]; simplify_eq; simpl; auto. }
  rewrite (bind_Raise _ _ _ (OSError ENOTDIR "tmp") w1);
    [|by rewrite (bind_Ok _ _ _ _ _ H1), (bind_Raise _ _ _ _ _ H2)].
  simpl. split; [done|]. split; [apply L1|].
  destruct Hout as [-> | ->]; simpl; rewrite <-?app_assoc, drop_app_length.
  - by intros [?|[]%elem_of_nil]%elem_of_cons.
  - by intros [?|[?|[]%elem_of_nil]%elem_of_cons]%elem_of_cons.
Qed.

Lemma cleanup_stops_at_the_first_error_witness :
  (cleanup blocked_world).1 = Raise (OSError ENOTDIR "tmp") ∧
  fs (cleanup blocked_world).2 !! ["logs"; "app.log"] = Some (File "started").
Proof.
  assert (H1 : ∀ c', fs blocked_world !! ["__pycache__"] ≠ Some (File c')) by done.
  assert (H2 : fs blocked_world !! ["tmp"] = Some (File "scratch")) by reflexivity.
  destruct (cleanup_stops_at_the_first_error blocked_world "scratch"
              ["logs"; "app.log"] H1 H2) as (Hr & Hq & _).
  split; [exact Hr|]. rewrite Hq. reflexivity.
Defined.

(** * The stages one after the other *)

(** The scaffolding stage puts no directory where a file is planned,
    and takes none away. *)
Lemma scaffolding_keeps_kind w f :
  f ∈ files →
  is_dir (fs (create_project_structure init w).2 !! parts f) = is_dir (fs w !! parts f).
Proof.
  intros Hf. pose proof (files_not_gitignore f Hf) as Hgi.
  destruct (fs w !! parts f) as [n|] eqn:H0.
  - by rewrite (create_project_structure_keeps w _ n Hgi H0).
  - destruct (fs (create_project_structure init w).2 !! parts f) as [n|] eqn:H1; [|done].
    destruct (create_project_structure_new w _ n H0 H1)
      as [[[_ (d & Hd & Hpre)]|[-> _]]|[? _]]; [|done..].
    by destruct (files_not_prefix f d Hf Hd).
Qed.

(** X18: the install stage after the scaffolding stage.  The manifest
    is among the planned files, and the scaffolding stage passes over
    what exists: a directory in the manifest's place goes through it
    unnoticed and stops the install stage.  So, however the scaffolding
    stage ended, the install stage run on the tree it leaves returns
    normally exactly when there was no directory at [requirements.txt]
    to begin with and the installer can be started. *)
Theorem scaffolding_then_install h w :
  (install_dependencies h init (create_project_structure init w).2).1 = Ok tt ↔
  fs w !! ["requirements.txt"] ≠ Some Dir
  ∧ ∃ rc, spawn h (pip_install_cmd h) = Exited rc.
Proof.
  assert (Hf : "requirements.txt" ∈ files) by in_list.
  pose proof (scaffolding_keeps_kind w _ Hf) as Hkind.
  change (parts "requirements.txt") with ["requirements.txt"] in Hkind.
  rewrite install_dependencies_cases. cbv zeta.
  rewrite Path_write_text_writable. simpl fs.
  change (req_path init) with ["requirements.txt"].
  assert (Hw : writable (fs (create_project_structure init w).2) ["requirements.txt"]
               = negb (is_dir (fs w !! ["requirements.txt"]))).
  { rewrite <-Hkind. unfold writable. rewrite stat_cons.
    by destruct (fs _ !! ["requirements.txt"]) as [[|c]|]. }
  rewrite Hw.
  destruct (fs w !! ["requirements.txt"]) as [[|c]|]; simpl.
  - split; [done|]. by intros [? _].
  - destruct (spawn h (pip_install_cmd h)) as [[|rc]|e]; simpl;
      (split; [intros; split; [done|eauto]|]); try done; by intros [_ [? ?]].
  - destruct (spawn h (pip_install_cmd h)) as [[|rc]|e]; simpl;
      (split; [intros; split; [done|eauto]|]); try done; by intros [_ [? ?]].
Qed.

Lemma scaffolding_then_install_witness :
  (create_project_structure init manifest_dir_world).1 = Ok tt ∧
  (install_dependencies host_3_8 init
     (create_project_structure init manifest_dir_world).2).1 ≠ Ok tt.
Proof.
  split; [vm_compute; reflexivity|].
  intros H. apply (scaffolding_then_install host_3_8 manifest_dir_world) in H as [H _].
  by apply H.
Defined.
